(** * padviz: binding model, learning engine and padmap.txt persistence

    A shallow embedding of [src/main.cpp] (GLFW virtual-pad visualiser):
    the input tables, the [Binding] record and its evaluation
    ([sampleBinding]), the joystick cache ([updateJoystickCaches]), the five
    learning detectors and [applyLearningIfTriggered], the hotkey handler,
    and [saveMappings] / [loadMappings] over the characters of the mapping
    file.

    C [int] values are [Z]; C [float] values are IEEE binary32 numbers
    written as [spec_float] (precision 24, emax 128); the C library's
    [fprintf] and [fscanf] are modelled on lists of characters. *)

From Stdlib Require Import Ascii String ZArith List Bool Lia QArith Qabs Qpower.
From Stdlib Require Import Floats.SpecFloat.
Import ListNotations.
Open Scope Z_scope.

(* ------------------------------------------------------------------------- *)
(** ** Constants of GLFW/glfw3.h used by the program *)
(* ------------------------------------------------------------------------- *)

Module GLFW.
Definition RELEASE : Z := 0.
Definition PRESS : Z := 1.

Definition KEY_SPACE : Z := 32.
Definition KEY_1 : Z := 49.
Definition KEY_2 : Z := 50.
Definition KEY_3 : Z := 51.
Definition KEY_4 : Z := 52.
Definition KEY_5 : Z := 53.
Definition KEY_6 : Z := 54.
Definition KEY_A : Z := 65.
Definition KEY_D : Z := 68.
Definition KEY_J : Z := 74.
Definition KEY_K : Z := 75.
Definition KEY_M : Z := 77.
Definition KEY_N : Z := 78.
Definition KEY_S : Z := 83.
Definition KEY_W : Z := 87.
Definition KEY_ESCAPE : Z := 256.
Definition KEY_TAB : Z := 258.
Definition KEY_BACKSPACE : Z := 259.
Definition KEY_RIGHT : Z := 262.
Definition KEY_LEFT : Z := 263.
Definition KEY_DOWN : Z := 264.
Definition KEY_UP : Z := 265.
Definition KEY_F1 : Z := 290.
Definition KEY_F2 : Z := 291.
Definition KEY_F5 : Z := 294.
Definition KEY_F9 : Z := 298.
Definition KEY_LAST : Z := 348.

Definition JOYSTICK_1 : Z := 0.
Definition JOYSTICK_LAST : Z := 15.
Definition GAMEPAD_BUTTON_LAST : Z := 14.
Definition GAMEPAD_AXIS_LAST : Z := 5.
End GLFW.

(* ------------------------------------------------------------------------- *)
(** ** C [float]: IEEE binary32 *)
(* ------------------------------------------------------------------------- *)

Module F32.
Definition prec : Z := 24.
Definition emax : Z := 128.
Definition float := spec_float.

(** Smallest exponent of a binary32 mantissa (-149) and largest (104). *)
Definition e_min : Z := emin prec emax.
Definition e_max : Z := emax - prec.

Definition valid (x : float) : bool := valid_binary prec emax x.

(** [a < b], [-a] and [fabs a] on floats; every comparison with a NaN is
    false. *)
Definition lt (a b : float) : bool := SFltb a b.
Definition gt (a b : float) : bool := SFltb b a.
Definition le (a b : float) : bool := SFleb a b.
Definition neg (a : float) : float := SFopp a.
Definition fabs (a : float) : float := SFabs a.

(** Nearest integer to [a / b] for [0 < b], ties to even. *)
Definition round_half_even (a b : Z) : Z :=
  let q := a / b in
  let r := a mod b in
  match 2 * r ?= b with
  | Lt => q
  | Gt => q + 1
  | Eq => if Z.even q then q else q + 1
  end.

(** The float of sign [s], mantissa [m] (with [0 <= m <= 2^24]) and
    exponent [e]: a zero, a finite number, or an infinity on overflow. *)
Definition pack (s : bool) (m e : Z) : float :=
  if m =? 0 then S754_zero s
  else if m =? 2 ^ prec then
    (if e + 1 >? e_max then S754_infinity s
     else S754_finite s (Z.to_pos (2 ^ (prec - 1))) (e + 1))
  else if e >? e_max then S754_infinity s
  else S754_finite s (Z.to_pos m) e.

(** The exponent at which [n / d] is rounded, for [0 < n] and [0 < d]:
    [floor (log2 (n / d)) - 23], and [e_min] for a subnormal result.  The
    logarithm is taken on the quotient scaled by [2^149]. *)
Definition ratio_exp (n d : Z) : Z :=
  Z.max (Z.log2 (n * 2 ^ (- e_min) / d) + e_min - (prec - 1)) e_min.

(** The mantissa at exponent [e >= e_min]: the integer nearest to
    [n / (d * 2^e)], numerator and denominator scaled by [2^149]. *)
Definition ratio_mant (n d e : Z) : Z :=
  round_half_even (n * 2 ^ (- e_min)) (d * 2 ^ (e - e_min)).

(** The binary32 number nearest to [(-1)^s * n / d] (round to nearest,
    ties to even), for [0 <= n] and [0 < d]. *)
Definition of_ratio (s : bool) (n d : Z) : float :=
  if n =? 0 then S754_zero s
  else let e := ratio_exp n d in pack s (ratio_mant n d e) e.

(** The binary32 number nearest to [(-1)^s * m * 10^x]: the value of a
    decimal constant, as the compiler and [strtof] round it. *)
Definition of_decimal (s : bool) (m x : Z) : float :=
  if 0 <=? x then of_ratio s (m * 10 ^ x) 1 else of_ratio s m (10 ^ (- x)).

(** The real value of a float, as a rational ([0] for NaN and the
    infinities, which the users of [to_Q] exclude). *)
Definition to_Q (x : float) : Q :=
  match x with
  | S754_finite s m e =>
      (if s then - (1) else 1) * (inject_Z (Z.pos m) * (2 # 1) ^ e)
  | _ => 0
  end%Q.

End F32.

(** The float constants of the program. *)
Definition f0_0 : F32.float := Eval vm_compute in F32.of_decimal false 0 0.
Definition f0_20 : F32.float := Eval vm_compute in F32.of_decimal false 20 (-2).
Definition f0_45 : F32.float := Eval vm_compute in F32.of_decimal false 45 (-2).
Definition f0_55 : F32.float := Eval vm_compute in F32.of_decimal false 55 (-2).

(* ------------------------------------------------------------------------- *)
(** ** Binding model *)
(* ------------------------------------------------------------------------- *)

(** [enum class BindType]: an [int]-backed enumeration.  [loadMappings]
    casts any parsed integer to it, so a value is kept as its integer. *)
Module BindType.
Definition t : Type := Z.
Definition None : t := 0.
Definition Key : t := 1.
Definition GamepadButton : t := 2.
Definition GamepadAxisDir : t := 3.
Definition JoyButton : t := 4.
Definition JoyAxisDir : t := 5.
End BindType.

Record Binding : Type := mkBinding {
  type : BindType.t;
  jid : Z;               (* GLFW joystick id *)
  code : Z;              (* key code OR button index OR axis index *)
  dir : Z;               (* for axis dir: -1 or +1 *)
  threshold : F32.float
}.

(** [Binding{}]: the default member initialisers. *)
Definition Binding_default : Binding :=
  mkBinding BindType.None (-1) (-1) 0 f0_45.

(** [GLFWgamepadstate]: [unsigned char buttons[15]; float axes[6]]. *)
Record GLFWgamepadstate : Type := mkGamepadState {
  buttons : Z -> Z;
  axes : Z -> F32.float
}.

Definition GLFWgamepadstate_zero : GLFWgamepadstate :=
  mkGamepadState (fun _ => 0) (fun _ => f0_0).

(** What the GLFW joystick queries answer at one instant.  A query that
    returns a null pointer (or [GLFW_FALSE] for [glfwGetGamepadState]) is
    [None]; the element count of a raw array is the length of its list. *)
Record Glfw : Type := mkGlfw {
  glfwJoystickPresent : Z -> bool;
  glfwJoystickIsGamepad : Z -> bool;
  glfwGetJoystickName : Z -> option string;
  glfwGetGamepadState : Z -> option GLFWgamepadstate;
  glfwGetJoystickButtons : Z -> option (list Z);
  glfwGetJoystickAxes : Z -> option (list F32.float)
}.

(** [bool gKeyDown[GLFW_KEY_LAST + 1]]: read only at indices
    [0 .. GLFW_KEY_LAST]. *)
Definition KeyTable : Type := Z -> bool.

(** Element [i] of a vector or of a C array of known length. *)
Definition at_Z {A : Type} (l : list A) (i : Z) (d : A) : A :=
  nth (Z.to_nat i) l d.

Definition len {A : Type} (l : list A) : Z := Z.of_nat (List.length l).

(** The axis test shared by the gamepad and the raw branch of
    [sampleBinding]. *)
Definition axisDirActive (b : Binding) (v : F32.float) : bool :=
  if dir b <? 0 then F32.lt v (F32.neg (threshold b))
  else if dir b >? 0 then F32.gt v (threshold b)
  else false.

Definition sampleBinding (gKeyDown : KeyTable) (g : Glfw) (b : Binding) : bool :=
  if type b =? BindType.None then false
  else if type b =? BindType.Key then
    (if (code b <? 0) || (code b >? GLFW.KEY_LAST) then false
     else gKeyDown (code b))
  else if (jid b <? GLFW.JOYSTICK_1) || (jid b >? GLFW.JOYSTICK_LAST) then false
  else if negb (glfwJoystickPresent g (jid b)) then false
  else if (type b =? BindType.GamepadButton) || (type b =? BindType.GamepadAxisDir) then
    (if negb (glfwJoystickIsGamepad g (jid b)) then false
     else match glfwGetGamepadState g (jid b) with
          | None => false
          | Some st =>
              if type b =? BindType.GamepadButton then
                (if (code b <? 0) || (code b >? GLFW.GAMEPAD_BUTTON_LAST) then false
                 else buttons st (code b) =? GLFW.PRESS)
              else
                (if (code b <? 0) || (code b >? GLFW.GAMEPAD_AXIS_LAST) then false
                 else axisDirActive b (axes st (code b)))
          end)
  else if type b =? BindType.JoyButton then
    match glfwGetJoystickButtons g (jid b) with
    | None => false
    | Some btn =>
        if (code b <? 0) || (code b >=? len btn) then false
        else at_Z btn (code b) 0 =? GLFW.PRESS
    end
  else if type b =? BindType.JoyAxisDir then
    match glfwGetJoystickAxes g (jid b) with
    | None => false
    | Some ax =>
        if (code b <? 0) || (code b >=? len ax) then false
        else axisDirActive b (at_Z ax (code b) f0_0)
    end
  else false.

Record Digital6 : Type := mkDigital6 {
  up : bool; down : bool; left : bool; right : bool; b1 : bool; b2 : bool
}.

Definition packBits (d : Digital6) : Z :=
  Z.lor (Z.lor (Z.lor (Z.lor (Z.lor
    (if up d then Z.shiftl 1 0 else 0)
    (if down d then Z.shiftl 1 1 else 0))
    (if left d then Z.shiftl 1 2 else 0))
    (if right d then Z.shiftl 1 3 else 0))
    (if b1 d then Z.shiftl 1 4 else 0))
    (if b2 d then Z.shiftl 1 5 else 0).

Module VKey.
Inductive t : Type := Up | Down | Left | Right | B1 | B2.

(** [(int)k]. *)
Definition to_int (k : t) : Z :=
  match k with
  | Up => 0 | Down => 1 | Left => 2 | Right => 3 | B1 => 4 | B2 => 5
  end.

(** [(int)VKey::Count]. *)
Definition Count : Z := 6.
End VKey.

(** [struct VirtualPad { Binding bind[6]; }], one field per element. *)
Record VirtualPad : Type := mkPad {
  bind0 : Binding; bind1 : Binding; bind2 : Binding;
  bind3 : Binding; bind4 : Binding; bind5 : Binding
}.

(** [pad.bind[k]].  An index outside [0 .. 5] is never used by the
    program (it would be out of bounds); the model reads the default
    binding there and leaves the pad unchanged on a write. *)
Definition bind (pad : VirtualPad) (k : Z) : Binding :=
  if k =? 0 then bind0 pad else if k =? 1 then bind1 pad
  else if k =? 2 then bind2 pad else if k =? 3 then bind3 pad
  else if k =? 4 then bind4 pad else if k =? 5 then bind5 pad
  else Binding_default.

Definition set_bind (pad : VirtualPad) (k : Z) (b : Binding) : VirtualPad :=
  let '(mkPad a0 a1 a2 a3 a4 a5) := pad in
  if k =? 0 then mkPad b a1 a2 a3 a4 a5
  else if k =? 1 then mkPad a0 b a2 a3 a4 a5
  else if k =? 2 then mkPad a0 a1 b a3 a4 a5
  else if k =? 3 then mkPad a0 a1 a2 b a4 a5
  else if k =? 4 then mkPad a0 a1 a2 a3 b a5
  else if k =? 5 then mkPad a0 a1 a2 a3 a4 b
  else pad.

Definition VirtualPad_sample (gKeyDown : KeyTable) (g : Glfw) (pad : VirtualPad)
  : Digital6 :=
  mkDigital6
    (sampleBinding gKeyDown g (bind pad (VKey.to_int VKey.Up)))
    (sampleBinding gKeyDown g (bind pad (VKey.to_int VKey.Down)))
    (sampleBinding gKeyDown g (bind pad (VKey.to_int VKey.Left)))
    (sampleBinding gKeyDown g (bind pad (VKey.to_int VKey.Right)))
    (sampleBinding gKeyDown g (bind pad (VKey.to_int VKey.B1)))
    (sampleBinding gKeyDown g (bind pad (VKey.to_int VKey.B2))).

(** [static VirtualPad gPad[2]]. *)
Record Pads : Type := mkPads { pad0 : VirtualPad; pad1 : VirtualPad }.

Definition pad_at (ps : Pads) (p : Z) : VirtualPad :=
  if p =? 0 then pad0 ps else pad1 ps.

(** [gPad[p].bind[k]] and the assignment [gPad[p].bind[k] = b], for
    [p] in [0 .. 1]. *)
Definition slot (ps : Pads) (p k : Z) : Binding := bind (pad_at ps p) k.

Definition set_slot (ps : Pads) (p k : Z) (b : Binding) : Pads :=
  if p =? 0 then mkPads (set_bind (pad0 ps) k b) (pad1 ps)
  else if p =? 1 then mkPads (pad0 ps) (set_bind (pad1 ps) k b)
  else ps.

(* ------------------------------------------------------------------------- *)
(** ** Joystick state caching for learning edges *)
(* ------------------------------------------------------------------------- *)

Record JoyCache : Type := mkJoyCache {
  present : bool;
  isGamepad : bool;
  name : string;
  btnPrev : list Z;
  axisPrev : list F32.float;
  btnCur : list Z;
  axisCur : list F32.float;
  gpPrev : GLFWgamepadstate;
  gpCur : GLFWgamepadstate;
  gpHasPrev : bool;
  gpHasCur : bool
}.

Definition JoyCache_init : JoyCache :=
  mkJoyCache false false EmptyString [] [] [] []
    GLFWgamepadstate_zero GLFWgamepadstate_zero false false.

(** [static JoyCache gJoy[GLFW_JOYSTICK_LAST + 1]], indexed by joystick id. *)
Definition JoyTable : Type := Z -> JoyCache.

Definition upd_joy (t : JoyTable) (j : Z) (jc : JoyCache) : JoyTable :=
  fun i => if i =? j then jc else t i.

(** [for (i = lo; ...; ++i) body], [n] iterations. *)
Fixpoint for_from {S : Type} (n : nat) (i : Z) (body : Z -> S -> S) (s : S) : S :=
  match n with
  | O => s
  | S n' => for_from n' (i + 1) body (body i s)
  end.

(** The same loop when the body may [return] a result: the result of the
    first iteration that returns, [None] when the loop runs to its end. *)
Fixpoint first_from {A : Type} (n : nat) (i : Z) (body : Z -> option A) : option A :=
  match n with
  | O => None
  | S n' =>
      match body i with
      | Some r => Some r
      | None => first_from n' (i + 1) body
      end
  end.

(** Iterations of [for (i = lo; i <= hi; ++i)]. *)
Definition count_incl (lo hi : Z) : nat := Z.to_nat (hi - lo + 1).

Definition jidName (g : Glfw) (j : Z) : string :=
  match glfwGetJoystickName g j with
  | Some n => n
  | None => "(unknown)"%string
  end.

(** The body of the loop of [updateJoystickCaches] for one joystick id. *)
Definition updateJoystickCache (g : Glfw) (j : Z) (jc : JoyCache) : JoyCache :=
  if negb (glfwJoystickPresent g j) then
    mkJoyCache false false EmptyString [] [] [] []
      (gpPrev jc) (gpCur jc) false false
  else
    let gp := glfwJoystickIsGamepad g j in
    let btn := match glfwGetJoystickButtons g j with Some l => l | None => [] end in
    let ax := match glfwGetJoystickAxes g j with Some l => l | None => [] end in
    let cur :=
      if gp then
        match glfwGetGamepadState g j with
        | Some st => (st, true)
        | None => (gpCur jc, false)
        end
      else (gpCur jc, false) in
    mkJoyCache true gp (jidName g j)
      (btnCur jc) (axisCur jc) btn ax
      (gpCur jc) (fst cur) (gpHasCur jc) (snd cur).

Definition updateJoystickCaches (g : Glfw) (gJoy : JoyTable) : JoyTable :=
  for_from (count_incl GLFW.JOYSTICK_1 GLFW.JOYSTICK_LAST) GLFW.JOYSTICK_1
    (fun j t => upd_joy t j (updateJoystickCache g j (t j))) gJoy.

(* ------------------------------------------------------------------------- *)
(** ** Learning detectors *)
(* ------------------------------------------------------------------------- *)

Definition gLearnThreshold : F32.float := f0_55.

Definition detectAnyKeyPress (gKeyDown gKeyDownPrev : KeyTable) : option Z :=
  first_from (count_incl 0 GLFW.KEY_LAST) 0
    (fun k => if gKeyDown k && negb (gKeyDownPrev k) then Some k else None).

Definition detectGamepadButtonPress (gJoy : JoyTable) : option (Z * Z) :=
  first_from (count_incl GLFW.JOYSTICK_1 GLFW.JOYSTICK_LAST) GLFW.JOYSTICK_1
    (fun j =>
       let jc := gJoy j in
       if negb (present jc) || negb (isGamepad jc) then None
       else if negb (gpHasCur jc) || negb (gpHasPrev jc) then None
       else
         first_from (count_incl 0 GLFW.GAMEPAD_BUTTON_LAST) 0
           (fun b =>
              let cur := buttons (gpCur jc) b =? GLFW.PRESS in
              let prev := buttons (gpPrev jc) b =? GLFW.PRESS in
              if cur && negb prev then Some (j, b) else None)).

(** The test of one axis in [detectGamepadAxisMove] and [detectJoyAxisMove]:
    the direction learnt from a previous and a current value, if any. *)
Definition axisMove (prev cur : F32.float) : option Z :=
  if F32.lt (F32.fabs prev) f0_20 then
    if F32.gt cur gLearnThreshold then Some 1
    else if F32.lt cur (F32.neg gLearnThreshold) then Some (-1)
    else None
  else None.

Definition detectGamepadAxisMove (gJoy : JoyTable) : option (Z * Z * Z) :=
  first_from (count_incl GLFW.JOYSTICK_1 GLFW.JOYSTICK_LAST) GLFW.JOYSTICK_1
    (fun j =>
       let jc := gJoy j in
       if negb (present jc) || negb (isGamepad jc) then None
       else if negb (gpHasCur jc) || negb (gpHasPrev jc) then None
       else
         first_from (count_incl 0 GLFW.GAMEPAD_AXIS_LAST) 0
           (fun a =>
              match axisMove (axes (gpPrev jc) a) (axes (gpCur jc) a) with
              | Some d => Some (j, a, d)
              | None => None
              end)).

Definition detectJoyButtonPress (gJoy : JoyTable) : option (Z * Z) :=
  first_from (count_incl GLFW.JOYSTICK_1 GLFW.JOYSTICK_LAST) GLFW.JOYSTICK_1
    (fun j =>
       let jc := gJoy j in
       if negb (present jc) then None
       else
         let n := len (btnCur jc) in
         if negb (len (btnPrev jc) =? n) then None
         else
           first_from (Z.to_nat n) 0
             (fun b =>
                let cur := at_Z (btnCur jc) b 0 =? GLFW.PRESS in
                let prev := at_Z (btnPrev jc) b 0 =? GLFW.PRESS in
                if cur && negb prev then Some (j, b) else None)).

Definition detectJoyAxisMove (gJoy : JoyTable) : option (Z * Z * Z) :=
  first_from (count_incl GLFW.JOYSTICK_1 GLFW.JOYSTICK_LAST) GLFW.JOYSTICK_1
    (fun j =>
       let jc := gJoy j in
       if negb (present jc) then None
       else
         let n := len (axisCur jc) in
         if negb (len (axisPrev jc) =? n) then None
         else
           first_from (Z.to_nat n) 0
             (fun a =>
                match axisMove (at_Z (axisPrev jc) a f0_0)
                               (at_Z (axisCur jc) a f0_0) with
                | Some d => Some (j, a, d)
                | None => None
                end)).

(* ------------------------------------------------------------------------- *)
(** ** The C library's formatted output and input, on characters *)
(* ------------------------------------------------------------------------- *)

Definition text : Type := list ascii.

Module Stdio.
Definition chr (n : Z) : ascii := ascii_of_N (Z.to_N n).
Definition ord (c : ascii) : Z := Z.of_N (N_of_ascii c).

Definition SP : ascii := chr 32.
Definition LF : ascii := chr 10.

Definition str (s : string) : text := list_ascii_of_string s.

(** *** Output *)

Definition digit_char (d : Z) : ascii := chr (48 + d).

Fixpoint digits_fuel (fuel : nat) (n : Z) : text :=
  match fuel with
  | O => []
  | S f =>
      if n <? 10 then [digit_char n]
      else digits_fuel f (n / 10) ++ [digit_char (n mod 10)]
  end.

(** The decimal digits of [n >= 0], without leading zeros. *)
Definition digits_of (n : Z) : text :=
  digits_fuel (S (Z.to_nat (Z.log2 n))) n.

(** The last [w] decimal digits of [n], zero-padded. *)
Fixpoint digits_fixed (w : nat) (n : Z) : text :=
  match w with
  | O => []
  | S w' => digits_fixed w' (n / 10) ++ [digit_char (n mod 10)]
  end.

(** [%d]. *)
Definition fmt_d (n : Z) : text :=
  if n <? 0 then str "-" ++ digits_of (- n) else digits_of n.

(** The integer [round (v * 10^6)] for [v = m * 2^e]: the digits that
    [%.6f] prints, rounded to nearest, ties to even. *)
Definition micro (m e : Z) : Z :=
  if 0 <=? e then m * 2 ^ e * 10 ^ 6
  else F32.round_half_even (m * 10 ^ 6) (2 ^ (- e)).

Definition fmt_sign (s : bool) : text := if s then str "-" else [].

(** [%.6f] of a [float] argument (promoted to [double] without change of
    value). *)
Definition fmt_f6 (x : F32.float) : text :=
  match x with
  | S754_nan => str "nan"
  | S754_infinity s => fmt_sign s ++ str "inf"
  | S754_zero s => fmt_sign s ++ str "0.000000"
  | S754_finite s m e =>
      let n := micro (Z.pos m) e in
      fmt_sign s ++ digits_of (n / 10 ^ 6) ++ str "." ++ digits_fixed 6 (n mod 10 ^ 6)
  end.

(** *** Input *)

(** [isspace] in the C locale. *)
Definition is_space (c : ascii) : bool :=
  let n := ord c in (n =? 32) || ((9 <=? n) && (n <=? 13)).

Definition is_digit (c : ascii) : bool :=
  let n := ord c in (48 <=? n) && (n <=? 57).

Definition digit_val (c : ascii) : Z := ord c - 48.

Fixpoint skip_ws (inp : text) : text :=
  match inp with
  | c :: t => if is_space c then skip_ws t else inp
  | [] => []
  end.

(** Reads the longest run of decimal digits: the value accumulated from
    [acc], the number of digits read added to [cnt], and the rest. *)
Fixpoint scan_digits (acc cnt : Z) (inp : text) : Z * Z * text :=
  match inp with
  | c :: t =>
      if is_digit c then scan_digits (10 * acc + digit_val c) (cnt + 1) t
      else (acc, cnt, inp)
  | [] => (acc, cnt, [])
  end.

(** An optional sign: [true] for a minus. *)
Definition scan_sign (inp : text) : bool * text :=
  match inp with
  | c :: t =>
      if ord c =? 45 then (true, t)
      else if ord c =? 43 then (false, t)
      else (false, inp)
  | [] => (false, [])
  end.

(** Conversion to [int]; the C standard leaves the result of [%d]
    undefined when the number does not fit, the model wraps. *)
Definition to_int (z : Z) : Z := (z + 2 ^ 31) mod 2 ^ 32 - 2 ^ 31.

(** [%d]: white space, an optional sign, at least one digit. *)
Definition scan_d (inp : text) : option (Z * text) :=
  let '(s, r0) := scan_sign (skip_ws inp) in
  let '(v, cnt, r1) := scan_digits 0 0 r0 in
  if cnt =? 0 then None
  else Some (to_int (if s then - v else v), r1).

Definition lower (c : ascii) : ascii :=
  let n := ord c in if (65 <=? n) && (n <=? 90) then chr (n + 32) else c.

(** Reads the word [w] (given in lower case), ignoring case. *)
Fixpoint eat_word (w inp : text) : option text :=
  match w with
  | [] => Some inp
  | a :: w' =>
      match inp with
      | c :: t => if Ascii.eqb (lower c) a then eat_word w' t else None
      | [] => None
      end
  end.

Definition starts_with (a : ascii) (inp : text) : bool :=
  match inp with
  | c :: _ => Ascii.eqb (lower c) a
  | [] => false
  end.

Definition is_nchar (c : ascii) : bool :=
  let n := ord (lower c) in
  is_digit c || ((97 <=? n) && (n <=? 122)) || (n =? 95).

Fixpoint skip_nchars (inp : text) : text :=
  match inp with
  | c :: t => if is_nchar c then skip_nchars t else inp
  | [] => []
  end.

(** The exponent part of a decimal float: absent ([Some 0]), well formed,
    or begun and not completed ([None], a matching failure). *)
Definition scan_exponent (inp : text) : option (Z * text) :=
  if starts_with (chr 101) inp then
    let '(s, r0) := scan_sign (tl inp) in
    let '(v, cnt, r1) := scan_digits 0 0 r0 in
    if cnt =? 0 then None else Some (if s then - v else v, r1)
  else Some (0, inp).

(** [%f]: white space, an optional sign, then [inf], [infinity], [nan],
    [nan(...)] or a decimal number with an optional fraction and an
    optional exponent, rounded to the nearest [float].  (The hexadecimal
    floating form of C99 is not part of the model.) *)
Definition scan_f (inp : text) : option (F32.float * text) :=
  let '(s, r0) := scan_sign (skip_ws inp) in
  if starts_with (chr 105) r0 then
    match eat_word (str "inf") r0 with
    | Some r1 =>
        if starts_with (chr 105) r1 then
          match eat_word (str "inity") r1 with
          | Some r2 => Some (S754_infinity s, r2)
          | None => None
          end
        else Some (S754_infinity s, r1)
    | None => None
    end
  else if starts_with (chr 110) r0 then
    match eat_word (str "nan") r0 with
    | Some r1 =>
        if starts_with (chr 40) r1 then
          match eat_word [chr 41] (skip_nchars (tl r1)) with
          | Some r2 => Some (S754_nan, r2)
          | None => None
          end
        else Some (S754_nan, r1)
    | None => None
    end
  else
    let '(ip, ci, r1) := scan_digits 0 0 r0 in
    let '(m, cf, r2) :=
      if starts_with (chr 46) r1 then scan_digits ip 0 (tl r1)
      else (ip, 0, r1) in
    if ci + cf =? 0 then None
    else
      match scan_exponent r2 with
      | Some (x, r3) => Some (F32.of_decimal s m (x - cf), r3)
      | None => None
      end.

(** What [fscanf(fp, "%d %d %d %d %d %d %f", ...)] stores when it
    returns 7. *)
Record Scanned : Type := mkScanned {
  s_p : Z; s_k : Z; s_type : Z; s_jid : Z; s_code : Z; s_dir : Z;
  s_th : F32.float
}.

(** One call of that [fscanf]: [Some] with the seven values and the
    unread input when it returns 7; [None] when it returns less (end of
    file or a matching failure at any of the seven directives). *)
Definition fscanf7 (inp : text) : option (Scanned * text) :=
  match scan_d inp with None => None | Some (p, r1) =>
  match scan_d r1 with None => None | Some (k, r2) =>
  match scan_d r2 with None => None | Some (ty, r3) =>
  match scan_d r3 with None => None | Some (j, r4) =>
  match scan_d r4 with None => None | Some (c, r5) =>
  match scan_d r5 with None => None | Some (d, r6) =>
  match scan_f r6 with None => None | Some (th, r7) =>
    Some (mkScanned p k ty j c d th, r7)
  end end end end end end end.
End Stdio.

(* ------------------------------------------------------------------------- *)
(** ** Program state *)
(* ------------------------------------------------------------------------- *)

(** The file [padmap.txt] as [fopen] sees it: its characters when it can
    be opened for reading, and whether it can be opened for writing. *)
Record MapFile : Type := mkMapFile {
  contents : option text;
  writable : bool
}.

(** The global variables of the program, and the mapping file. *)
Record State : Type := mkState {
  gKeyDown : KeyTable;
  gKeyDownPrev : KeyTable;
  gPad : Pads;
  gJoy : JoyTable;
  gEditPad : Z;              (* 0 or 1 *)
  gEditKey : VKey.t;         (* selected virtual control *)
  gLearning : bool;          (* armed? *)
  shouldClose : bool;        (* glfwWindowShouldClose *)
  kMapFile : MapFile
}.

Definition with_gKeyDown (s : State) (v : KeyTable) : State :=
  mkState v (gKeyDownPrev s) (gPad s) (gJoy s) (gEditPad s) (gEditKey s)
    (gLearning s) (shouldClose s) (kMapFile s).
Definition with_gKeyDownPrev (s : State) (v : KeyTable) : State :=
  mkState (gKeyDown s) v (gPad s) (gJoy s) (gEditPad s) (gEditKey s)
    (gLearning s) (shouldClose s) (kMapFile s).
Definition with_gPad (s : State) (v : Pads) : State :=
  mkState (gKeyDown s) (gKeyDownPrev s) v (gJoy s) (gEditPad s) (gEditKey s)
    (gLearning s) (shouldClose s) (kMapFile s).
Definition with_gJoy (s : State) (v : JoyTable) : State :=
  mkState (gKeyDown s) (gKeyDownPrev s) (gPad s) v (gEditPad s) (gEditKey s)
    (gLearning s) (shouldClose s) (kMapFile s).
Definition with_gEditPad (s : State) (v : Z) : State :=
  mkState (gKeyDown s) (gKeyDownPrev s) (gPad s) (gJoy s) v (gEditKey s)
    (gLearning s) (shouldClose s) (kMapFile s).
Definition with_gEditKey (s : State) (v : VKey.t) : State :=
  mkState (gKeyDown s) (gKeyDownPrev s) (gPad s) (gJoy s) (gEditPad s) v
    (gLearning s) (shouldClose s) (kMapFile s).
Definition with_gLearning (s : State) (v : bool) : State :=
  mkState (gKeyDown s) (gKeyDownPrev s) (gPad s) (gJoy s) (gEditPad s)
    (gEditKey s) v (shouldClose s) (kMapFile s).
Definition with_shouldClose (s : State) (v : bool) : State :=
  mkState (gKeyDown s) (gKeyDownPrev s) (gPad s) (gJoy s) (gEditPad s)
    (gEditKey s) (gLearning s) v (kMapFile s).
Definition with_kMapFile (s : State) (v : MapFile) : State :=
  mkState (gKeyDown s) (gKeyDownPrev s) (gPad s) (gJoy s) (gEditPad s)
    (gEditKey s) (gLearning s) (shouldClose s) v.

(* ------------------------------------------------------------------------- *)
(** ** Keyboard *)
(* ------------------------------------------------------------------------- *)

Definition upd_key (t : KeyTable) (k : Z) (v : bool) : KeyTable :=
  fun i => if i =? k then v else t i.

(** The key callback; [action] is [GLFW_PRESS], [GLFW_RELEASE] or
    [GLFW_REPEAT]. *)
Definition onKey (key action : Z) (s : State) : State :=
  let s1 :=
    if (key >=? 0) && (key <=? GLFW.KEY_LAST) then
      if action =? GLFW.PRESS then with_gKeyDown s (upd_key (gKeyDown s) key true)
      else if action =? GLFW.RELEASE then with_gKeyDown s (upd_key (gKeyDown s) key false)
      else s
    else s in
  if (key =? GLFW.KEY_ESCAPE) && (action =? GLFW.PRESS)
  then with_shouldClose s1 true else s1.

Definition keyPressedEdge (s : State) (key : Z) : bool :=
  if (key <? 0) || (key >? GLFW.KEY_LAST) then false
  else gKeyDown s key && negb (gKeyDownPrev s key).

Definition updateKeyPrev (s : State) : State :=
  with_gKeyDownPrev s (gKeyDown s).

(* ------------------------------------------------------------------------- *)
(** ** Learning (rebinding) *)
(* ------------------------------------------------------------------------- *)

Definition clearBinding (padIdx : Z) (k : VKey.t) (s : State) : State :=
  with_gPad s (set_slot (gPad s) padIdx (VKey.to_int k) Binding_default).

Definition keyBinding (key : Z) : Binding :=
  mkBinding BindType.Key (-1) key 0 f0_0.

Definition setDefaultBindings (s : State) : State :=
  with_gPad s
    (mkPads
       (mkPad (keyBinding GLFW.KEY_W) (keyBinding GLFW.KEY_S)
              (keyBinding GLFW.KEY_A) (keyBinding GLFW.KEY_D)
              (keyBinding GLFW.KEY_J) (keyBinding GLFW.KEY_K))
       (mkPad (keyBinding GLFW.KEY_UP) (keyBinding GLFW.KEY_DOWN)
              (keyBinding GLFW.KEY_LEFT) (keyBinding GLFW.KEY_RIGHT)
              (keyBinding GLFW.KEY_N) (keyBinding GLFW.KEY_M))).

(** [gPad[gEditPad].bind[(int)gEditKey] = b; gLearning = false;]. *)
Definition learn (s : State) (b : Binding) : State :=
  with_gLearning
    (with_gPad s (set_slot (gPad s) (gEditPad s) (VKey.to_int (gEditKey s)) b))
    false.

Definition applyLearningIfTriggered (s : State) : State :=
  if negb (gLearning s) then s
  else
    let b := Binding_default in
    match detectAnyKeyPress (gKeyDown s) (gKeyDownPrev s) with
    | Some key =>
        learn s (mkBinding BindType.Key (-1) key (dir b) (threshold b))
    | None =>
    match detectGamepadButtonPress (gJoy s) with
    | Some (j, c) =>
        learn s (mkBinding BindType.GamepadButton j c (dir b) (threshold b))
    | None =>
    match detectGamepadAxisMove (gJoy s) with
    | Some (j, c, d) =>
        learn s (mkBinding BindType.GamepadAxisDir j c d f0_45)
    | None =>
    match detectJoyButtonPress (gJoy s) with
    | Some (j, c) =>
        learn s (mkBinding BindType.JoyButton j c (dir b) (threshold b))
    | None =>
    match detectJoyAxisMove (gJoy s) with
    | Some (j, c, d) =>
        learn s (mkBinding BindType.JoyAxisDir j c d f0_45)
    | None => s
    end end end end end.

(* ------------------------------------------------------------------------- *)
(** ** Save / Load mapping *)
(* ------------------------------------------------------------------------- *)

(** [fprintf(fp, "%d %d %d %d %d %d %.6f\n", p, k, type, jid, code, dir,
    threshold)]. *)
Definition fprintf_line (p k : Z) (b : Binding) : text :=
  Stdio.fmt_d p ++ [Stdio.SP] ++ Stdio.fmt_d k ++ [Stdio.SP] ++
  Stdio.fmt_d (type b) ++ [Stdio.SP] ++ Stdio.fmt_d (jid b) ++ [Stdio.SP] ++
  Stdio.fmt_d (code b) ++ [Stdio.SP] ++ Stdio.fmt_d (dir b) ++ [Stdio.SP] ++
  Stdio.fmt_f6 (threshold b) ++ [Stdio.LF].

(** The characters written by the two nested loops of [saveMappings]. *)
Definition saveText (ps : Pads) : text :=
  for_from 2 0
    (fun p out =>
       for_from (Z.to_nat VKey.Count) 0
         (fun k out => out ++ fprintf_line p k (slot ps p k)) out)
    [].

(** Returns the result of the call and the state after it. *)
Definition saveMappings (s : State) : bool * State :=
  if negb (writable (kMapFile s)) then (false, s)
  else (true, with_kMapFile s (mkMapFile (Some (saveText (gPad s))) true)).

Definition pads_None : Pads :=
  let pad := mkPad Binding_default Binding_default Binding_default
                   Binding_default Binding_default Binding_default in
  mkPads pad pad.

(** One turn of the loop of [loadMappings] after a successful [fscanf]:
    the two range checks ([continue]) and the assignment to the slot. *)
Definition loadRecord (ps : Pads) (r : Stdio.Scanned) : Pads :=
  if (Stdio.s_p r <? 0) || (Stdio.s_p r >=? 2) then ps
  else if (Stdio.s_k r <? 0) || (Stdio.s_k r >=? VKey.Count) then ps
  else
    set_slot ps (Stdio.s_p r) (Stdio.s_k r)
      (mkBinding (Stdio.s_type r) (Stdio.s_jid r) (Stdio.s_code r)
                 (Stdio.s_dir r) (Stdio.s_th r)).

(** The [while (true)] loop of [loadMappings]; each turn that does not
    leave the loop reads at least one character, so [fuel] larger than the
    number of unread characters is never used up. *)
Fixpoint loadLoop (fuel : nat) (inp : text) (ps : Pads) : Pads :=
  match fuel with
  | O => ps
  | S fuel' =>
      match Stdio.fscanf7 inp with
      | None => ps                                     (* r != 7: break *)
      | Some (r, rest) => loadLoop fuel' rest (loadRecord ps r)
      end
  end.

(** The pads after loading a file with the characters [inp]. *)
Definition loadText (inp : text) : Pads :=
  loadLoop (S (List.length inp)) inp pads_None.

Definition loadMappings (s : State) : bool * State :=
  match contents (kMapFile s) with
  | None => (false, s)
  | Some inp => (true, with_gPad s (loadText inp))
  end.

(* ------------------------------------------------------------------------- *)
(** ** Main loop *)
(* ------------------------------------------------------------------------- *)

Definition when (c : bool) (f : State -> State) (s : State) : State :=
  if c then f s else s.

(** The body of [if (keyPressedEdge(GLFW_KEY_BACKSPACE))]. *)
Definition clearSelected (s : State) : State :=
  with_gLearning (clearBinding (gEditPad s) (gEditKey s) s) false.

Definition handleHotkeysOnce (s : State) : State :=
  let s := when (keyPressedEdge s GLFW.KEY_F5) (fun s => snd (saveMappings s)) s in
  let s := when (keyPressedEdge s GLFW.KEY_F9) (fun s => snd (loadMappings s)) s in
  let s := when (keyPressedEdge s GLFW.KEY_F1) (fun s => with_gEditPad s 0) s in
  let s := when (keyPressedEdge s GLFW.KEY_F2) (fun s => with_gEditPad s 1) s in
  let s := when (keyPressedEdge s GLFW.KEY_TAB)
             (fun s => with_gEditPad s (1 - gEditPad s)) s in
  let s := when (keyPressedEdge s GLFW.KEY_1) (fun s => with_gEditKey s VKey.Up) s in
  let s := when (keyPressedEdge s GLFW.KEY_2) (fun s => with_gEditKey s VKey.Down) s in
  let s := when (keyPressedEdge s GLFW.KEY_3) (fun s => with_gEditKey s VKey.Left) s in
  let s := when (keyPressedEdge s GLFW.KEY_4) (fun s => with_gEditKey s VKey.Right) s in
  let s := when (keyPressedEdge s GLFW.KEY_5) (fun s => with_gEditKey s VKey.B1) s in
  let s := when (keyPressedEdge s GLFW.KEY_6) (fun s => with_gEditKey s VKey.B2) s in
  let s := when (keyPressedEdge s GLFW.KEY_SPACE) (fun s => with_gLearning s true) s in
  when (keyPressedEdge s GLFW.KEY_BACKSPACE) clearSelected s.

(** The state at program start, before [main] sets the bindings. *)
Definition State_init (f : MapFile) : State :=
  mkState (fun _ => false) (fun _ => false) pads_None (fun _ => JoyCache_init)
    0 VKey.Up false false f.

(** [setDefaultBindings(); loadMappings();] *)
Definition startup (f : MapFile) : State :=
  snd (loadMappings (setDefaultBindings (State_init f))).

(** [glfwPollEvents]: the key callback runs for each pending key event
    [(key, action)]. *)
Definition pollEvents (evs : list (Z * Z)) (s : State) : State :=
  fold_left (fun s ev => onKey (fst ev) (snd ev) s) evs s.

(** The start of one turn of the main loop: [glfwPollEvents();
    updateJoystickCaches();]. *)
Definition refresh (evs : list (Z * Z)) (g : Glfw) (s : State) : State :=
  let s := pollEvents evs s in
  with_gJoy s (updateJoystickCaches g (gJoy s)).

(** One turn of the main loop, from [glfwPollEvents] to [updateKeyPrev],
    with the two sampled pads that are handed to the renderer. *)
Definition frame (evs : list (Z * Z)) (g : Glfw) (s : State)
  : State * (Digital6 * Digital6) :=
  let s := refresh evs g s in
  let s := handleHotkeysOnce s in
  let s := applyLearningIfTriggered s in
  let s0 := VirtualPad_sample (gKeyDown s) g (pad_at (gPad s) 0) in
  let s1 := VirtualPad_sample (gKeyDown s) g (pad_at (gPad s) 1) in
  (updateKeyPrev s, (s0, s1)).

(* ------------------------------------------------------------------------- *)
(** ** Notions used by the statements *)
(* ------------------------------------------------------------------------- *)

Definition f0_80 : F32.float := Eval vm_compute in F32.of_decimal false 80 (-2).
Definition f1_0 : F32.float := Eval vm_compute in F32.of_decimal false 1 0.

(** A pad index and a control ordinal that designate a slot. *)
Definition slot_index (p k : Z) : Prop := 0 <= p <= 1 /\ 0 <= k <= 5.

(** A value of type [int]. *)
Definition is_int (z : Z) : Prop := - 2 ^ 31 <= z < 2 ^ 31.

(** The binding carries an axis. *)
Definition is_axis (b : Binding) : bool :=
  (type b =? BindType.GamepadAxisDir) || (type b =? BindType.JoyAxisDir).

(** The invariant of the data model: an axis binding has sign -1 or +1
    and a threshold strictly between 0 and 1. *)
Definition binding_inv (b : Binding) : bool :=
  if is_axis b then
    ((dir b =? -1) || (dir b =? 1))
    && F32.lt f0_0 (threshold b) && F32.lt (threshold b) f1_0
  else true.

(** The twelve (pad, control) pairs, pad-major. *)
Definition all_slots : list (Z * Z) :=
  flat_map (fun p => map (fun k => (p, k)) [0; 1; 2; 3; 4; 5]) [0; 1].

(** Every slot of both pads satisfies the invariant. *)
Definition pads_inv (ps : Pads) : bool :=
  forallb (fun pk => binding_inv (slot ps (fst pk) (snd pk))) all_slots.

(** The just-pressed edge of key [k] between the two keyboard tables. *)
Definition key_edge (s : State) (k : Z) : bool :=
  gKeyDown s k && negb (gKeyDownPrev s k).

(** The lowest key code with a just-pressed edge is [k]. *)
Definition lowest_key_edge (s : State) (k : Z) : Prop :=
  0 <= k <= GLFW.KEY_LAST /\ key_edge s k = true /\
  forall k', 0 <= k' < k -> key_edge s k' = false.

(** Joystick [j] is cached as a structured gamepad with a previous and a
    current snapshot. *)
Definition gamepad_ready (jc : JoyCache) : bool :=
  present jc && isGamepad jc && gpHasCur jc && gpHasPrev jc.

(** The just-pressed edge of structured-gamepad button [b]. *)
Definition gp_button_edge (jc : JoyCache) (b : Z) : bool :=
  (buttons (gpCur jc) b =? GLFW.PRESS)
  && negb (buttons (gpPrev jc) b =? GLFW.PRESS).

(** The test of the learning engine on one axis: the previous magnitude
    is below the dead-zone 0.20 and the current value is beyond the
    learning threshold 0.55 in either direction. *)
Definition axis_crossed (prev cur : F32.float) : bool :=
  F32.lt (F32.fabs prev) f0_20
  && (F32.gt cur f0_55 || F32.lt cur (F32.neg f0_55)).

(** The sign learnt for an axis value: +1 if it is positive, else -1. *)
Definition sign_of (cur : F32.float) : Z :=
  if F32.gt cur f0_0 then 1 else -1.

(** Axis [a] of gamepad [j] is the first, in the scan order (ascending
    device slot, then ascending axis index), that crossed. *)
Definition first_gp_axis (t : JoyTable) (j a : Z) : Prop :=
  0 <= j <= GLFW.JOYSTICK_LAST /\ 0 <= a <= GLFW.GAMEPAD_AXIS_LAST /\
  gamepad_ready (t j) = true /\
  axis_crossed (axes (gpPrev (t j)) a) (axes (gpCur (t j)) a) = true /\
  forall j' a',
    0 <= j' <= GLFW.JOYSTICK_LAST -> 0 <= a' <= GLFW.GAMEPAD_AXIS_LAST ->
    j' < j \/ (j' = j /\ a' < a) ->
    gamepad_ready (t j') = true ->
    axis_crossed (axes (gpPrev (t j')) a') (axes (gpCur (t j')) a') = false.

(** The records that successive calls of [fscanf] read from [inp], up to
    the first call that does not return 7. *)
Inductive reads : text -> list Stdio.Scanned -> Prop :=
| reads_stop : forall inp,
    Stdio.fscanf7 inp = None -> reads inp []
| reads_next : forall inp r rest rs,
    Stdio.fscanf7 inp = Some (r, rest) -> reads rest rs -> reads inp (r :: rs).

(** The record addresses slot [(p, k)]. *)
Definition addresses (p k : Z) (r : Stdio.Scanned) : bool :=
  (Stdio.s_p r =? p) && (Stdio.s_k r =? k).

Definition binding_of (r : Stdio.Scanned) : Binding :=
  mkBinding (Stdio.s_type r) (Stdio.s_jid r) (Stdio.s_code r)
            (Stdio.s_dir r) (Stdio.s_th r).

(** The binding of the last record of [rs] that addresses [(p, k)], and
    [d] when there is none. *)
Fixpoint last_for (p k : Z) (rs : list Stdio.Scanned) (d : Binding) : Binding :=
  match rs with
  | [] => d
  | r :: rs' => last_for p k rs' (if addresses p k r then binding_of r else d)
  end.

(** The value of a run of decimal digits read after the value [acc]. *)
Definition val_from (acc : Z) (ds : text) : Z :=
  fold_left (fun a c => 10 * a + Stdio.digit_val c) ds acc.

(** A text made of decimal digits only. *)
Definition all_digits (ds : text) : Prop :=
  Forall (fun c => Stdio.is_digit c = true) ds.

(** What [%f] reads back from what [%.6f] printed for [x]. *)
Definition reread (x : F32.float) : F32.float :=
  match x with
  | S754_finite s m e => F32.of_decimal s (Stdio.micro (Z.pos m) e) (- 6)
  | _ => x
  end.



(** Two thresholds agree within the precision of six decimals: both NaN,
    the same infinity, or two numbers at most [10^-6] apart. *)
Definition th_close (a b : F32.float) : Prop :=
  match a, b with
  | S754_nan, S754_nan => True
  | S754_infinity s, S754_infinity s' => s = s'
  | S754_nan, _ | _, S754_nan => False
  | S754_infinity _, _ | _, S754_infinity _ => False
  | _, _ => (Qabs (F32.to_Q a - F32.to_Q b) <= 1 # 1000000)%Q
  end.

(** The fields of a binding are values of their C types. *)
Definition binding_typed (b : Binding) : Prop :=
  is_int (type b) /\ is_int (jid b) /\ is_int (code b) /\ is_int (dir b) /\
  F32.valid (threshold b) = true.

(** The items written by [saveMappings]: pad, control, binding. *)
Definition item_line (it : Z * Z * Binding) : text :=
  fprintf_line (fst (fst it)) (snd (fst it)) (snd it).

Definition item_record (it : Z * Z * Binding) : Stdio.Scanned :=
  Stdio.mkScanned (fst (fst it)) (snd (fst it)) (type (snd it)) (jid (snd it))
    (code (snd it)) (dir (snd it)) (reread (threshold (snd it))).

Definition item_typed (it : Z * Z * Binding) : Prop :=
  is_int (fst (fst it)) /\ is_int (snd (fst it)) /\ binding_typed (snd it).

Definition pad_items (ps : Pads) : list (Z * Z * Binding) :=
  map (fun pk => (fst pk, snd pk, slot ps (fst pk) (snd pk))) all_slots.

(** The operations that change the program state. *)
Inductive Op : Type :=
| OpDefaults                         (* setDefaultBindings *)
| OpPoll (evs : list (Z * Z))        (* glfwPollEvents *)
| OpCaches (g : Glfw)                (* updateJoystickCaches *)
| OpHotkeys                          (* handleHotkeysOnce *)
| OpLearn                            (* applyLearningIfTriggered *)
| OpClear                            (* the clear-binding action *)
| OpKeyPrev                          (* updateKeyPrev *)
| OpSave                             (* saveMappings *)
| OpLoad                             (* loadMappings *)
| OpFile (f : MapFile).              (* the file is replaced from outside *)

Definition run_op (o : Op) (s : State) : State :=
  match o with
  | OpDefaults => setDefaultBindings s
  | OpPoll evs => pollEvents evs s
  | OpCaches g => with_gJoy s (updateJoystickCaches g (gJoy s))
  | OpHotkeys => handleHotkeysOnce s
  | OpLearn => applyLearningIfTriggered s
  | OpClear => clearSelected s
  | OpKeyPrev => updateKeyPrev s
  | OpSave => snd (saveMappings s)
  | OpLoad => snd (loadMappings s)
  | OpFile f => with_kMapFile s f
  end.

Definition run (ops : list Op) (s : State) : State :=
  fold_left (fun s o => run_op o s) ops s.

(** The records read by the loop of [loadMappings], as a function. *)
Fixpoint scanLoop (fuel : nat) (inp : text) : list Stdio.Scanned :=
  match fuel with
  | O => []
  | S fuel' =>
      match Stdio.fscanf7 inp with
      | None => []
      | Some (r, rest) => r :: scanLoop fuel' rest
      end
  end.

Definition records_of (inp : text) : list Stdio.Scanned :=
  scanLoop (S (List.length inp)) inp.

(** Every record that a load would read from the file satisfies the
    invariant of the data model (also when the file cannot be opened). *)
Definition file_inv (f : MapFile) : bool :=
  match contents f with
  | None => true
  | Some inp => forallb (fun r => binding_inv (binding_of r)) (records_of inp)
  end.

(** The file that operation [o], run in state [s], loads, if it loads
    one.  In [handleHotkeysOnce] the save of F5 comes before the load of
    F9. *)
Definition loaded_file (o : Op) (s : State) : option MapFile :=
  match o with
  | OpLoad => Some (kMapFile s)
  | OpHotkeys =>
      if keyPressedEdge s GLFW.KEY_F9 then
        Some (kMapFile
                (when (keyPressedEdge s GLFW.KEY_F5)
                      (fun s => snd (saveMappings s)) s))
      else None
  | _ => None
  end.

(** Every file loaded while the operations run from [s] satisfies
    [file_inv]. *)
Fixpoint loads_inv (ops : list Op) (s : State) : bool :=
  match ops with
  | [] => true
  | o :: ops' =>
      match loaded_file o s with
      | Some f => file_inv f
      | None => true
      end && loads_inv ops' (run_op o s)
  end.

(** [s'] has the keyboard tables and the joystick cache of [s], and a
    valid pad selection if [s] has one. *)
Definition same_input (s s' : State) : Prop :=
  gKeyDown s' = gKeyDown s /\ gKeyDownPrev s' = gKeyDownPrev s /\
  gJoy s' = gJoy s /\ (0 <= gEditPad s <= 1 -> 0 <= gEditPad s' <= 1).

(* ------------------------------------------------------------------------- *)
(** ** Sample inputs *)
(* ------------------------------------------------------------------------- *)

(** A joystick state with one raw device in slot 0 whose axis 0 is at 0.80. *)
Definition glfw_one_axis : Glfw :=
  mkGlfw (fun j => j =? 0) (fun _ => false) (fun _ => None) (fun _ => None)
         (fun _ => None) (fun j => if j =? 0 then Some [f0_80] else None).

(** A joystick cache with one structured gamepad, in slot 0, that has a
    previous and a current snapshot. *)
Definition joy_gamepad0 (prev cur : GLFWgamepadstate) : JoyTable :=
  fun j =>
    if j =? 0 then
      mkJoyCache true true "pad"%string [] [] [] [] prev cur true true
    else JoyCache_init.

(** Button 3 of gamepad 0 was up and is down. *)
Definition joy_button_edge : JoyTable :=
  joy_gamepad0 GLFWgamepadstate_zero
    (mkGamepadState (fun b => if b =? 3 then 1 else 0) (fun _ => f0_0)).

(** Axis 0 of gamepad 0 moved from 0.0 to 0.80. *)
Definition joy_axis_move : JoyTable :=
  joy_gamepad0 GLFWgamepadstate_zero
    (mkGamepadState (fun _ => 0) (fun a => if a =? 0 then f0_80 else f0_0)).

(** The mapping file does not exist and can be created. *)
Definition no_file : MapFile := mkMapFile None true.

(** Key W goes down while gamepad 0 presses button 3; learning is armed
    for pad 0 / Up. *)
Definition st_key_and_button : State :=
  mkState (fun k => k =? GLFW.KEY_W) (fun _ => false) pads_None
    joy_button_edge 0 VKey.Up true false no_file.

(** Learning is armed for pad 1 / B2; no key moves; axis 0 of gamepad 0
    goes from 0.0 to 0.80. *)
Definition st_axis_move : State :=
  mkState (fun _ => false) (fun _ => false) pads_None
    joy_axis_move 1 VKey.B2 true false no_file.

(** Pad 0 / Up is bound to raw button 2 of joystick 0 and selected. *)
Definition st_raw_button : State :=
  mkState (fun k => k =? GLFW.KEY_BACKSPACE) (fun _ => false)
    (set_slot pads_None 0 0 (mkBinding BindType.JoyButton 0 2 0 f0_45))
    (fun _ => JoyCache_init) 0 VKey.Up true false no_file.

(** Not armed, no key down, pad 0 / B1 selected: the state before the
    tick in which SPACE is pressed. *)
Definition st_space : State :=
  mkState (fun _ => false) (fun _ => false) pads_None
    (fun _ => JoyCache_init) 0 VKey.B1 false false no_file.

(** No joystick is connected. *)
Definition glfw_none : Glfw :=
  mkGlfw (fun _ => false) (fun _ => false) (fun _ => None) (fun _ => None)
         (fun _ => None) (fun _ => None).

(** A cache in which joystick 0 is a present raw device with two buttons
    and one axis. *)
Definition joy_raw0 : JoyTable :=
  fun j =>
    if j =? 0 then
      mkJoyCache true false "stick"%string [0; 0] [f0_0] [1; 0] [f0_80]
        GLFWgamepadstate_zero GLFWgamepadstate_zero false false
    else JoyCache_init.

(** A line of a mapping file: the characters of [s] and a line feed. *)
Definition line (s : string) : text := Stdio.str s ++ [Stdio.LF].

(** A mapping file whose second line is malformed. *)
Definition file_bad_line : text :=
  line "0 0 1 -1 87 0 0.000000" ++
  line "oops" ++
  line "1 5 1 -1 77 0 0.000000".

(** A mapping file with a record for a pad that does not exist. *)
Definition file_bad_pad : text :=
  line "0 0 1 -1 87 0 0.000000" ++
  line "7 0 1 -1 65 0 0.000000" ++
  line "1 5 1 -1 77 0 0.000000".

(** A mapping file that binds pad 0 / Up to an axis with direction 0 and
    threshold 5.0. *)
Definition file_bad_axis : text := line "0 0 3 0 0 0 5.0".

(** A mapping file that binds pad 0 / Up to axis 1 of gamepad 0, negative
    direction, threshold 0.30. *)
Definition file_good_axis : text := line "0 0 3 0 1 -1 0.300000".

(** The default key bindings, with pad 1 / B2 rebound to the positive
    direction of axis 2 of gamepad 0 and pad 0 / B1 cleared; the mapping
    file does not exist yet and can be created. *)
Definition st_mixed : State :=
  let s := setDefaultBindings (State_init no_file) in
  with_gPad s
    (set_slot
       (set_slot (gPad s) 1 5 (mkBinding BindType.GamepadAxisDir 0 2 1 f0_45))
       0 4 Binding_default).

(* ------------------------------------------------------------------------- *)
(** ** Notions used by the further properties *)
(* ------------------------------------------------------------------------- *)

(** The shape shared by the four joystick detectors: devices in ascending
    slot order, skipping those that fail [guard]; for each, indices
    [0 .. cnt j - 1] in ascending order; the first index with an [edge]
    ends the scan with [result j c]. *)
Definition scan_devices {A : Type} (guard : Z -> bool) (cnt : Z -> Z)
  (edge : Z -> Z -> bool) (result : Z -> Z -> A) : option A :=
  first_from (count_incl GLFW.JOYSTICK_1 GLFW.JOYSTICK_LAST) GLFW.JOYSTICK_1
    (fun j =>
       if guard j then
         first_from (Z.to_nat (cnt j)) 0
           (fun c => if edge j c then Some (result j c) else None)
       else None).

(** [(j, c)] is the first edge of such a scan. *)
Definition first_in_scan (guard : Z -> bool) (cnt : Z -> Z)
  (edge : Z -> Z -> bool) (j c : Z) : Prop :=
  0 <= j <= GLFW.JOYSTICK_LAST /\ guard j = true /\ 0 <= c < cnt j /\
  edge j c = true /\
  forall j' c',
    0 <= j' <= GLFW.JOYSTICK_LAST -> guard j' = true -> 0 <= c' < cnt j' ->
    j' < j \/ (j' = j /\ c' < c) -> edge j' c' = false.

(** The scan meets no edge. *)
Definition none_in_scan (guard : Z -> bool) (cnt : Z -> Z)
  (edge : Z -> Z -> bool) : Prop :=
  forall j c,
    0 <= j <= GLFW.JOYSTICK_LAST -> guard j = true -> 0 <= c < cnt j ->
    edge j c = false.

(** The guards and edges of the four detectors on a cache [t]. *)
Definition gp_ready (t : JoyTable) (j : Z) : bool := gamepad_ready (t j).

Definition gp_btn_edge (t : JoyTable) (j b : Z) : bool := gp_button_edge (t j) b.

Definition gp_axis_edge (t : JoyTable) (j a : Z) : bool :=
  axis_crossed (axes (gpPrev (t j)) a) (axes (gpCur (t j)) a).

Definition raw_btn_ready (t : JoyTable) (j : Z) : bool :=
  present (t j) && (len (btnPrev (t j)) =? len (btnCur (t j))).

Definition raw_btn_edge (t : JoyTable) (j b : Z) : bool :=
  (at_Z (btnCur (t j)) b 0 =? GLFW.PRESS)
  && negb (at_Z (btnPrev (t j)) b 0 =? GLFW.PRESS).

Definition raw_axis_ready (t : JoyTable) (j : Z) : bool :=
  present (t j) && (len (axisPrev (t j)) =? len (axisCur (t j))).

Definition raw_axis_edge (t : JoyTable) (j a : Z) : bool :=
  axis_crossed (at_Z (axisPrev (t j)) a f0_0) (at_Z (axisCur (t j)) a f0_0).

(** The selected slot of a state. *)
Definition selected (s : State) : Binding :=
  slot (gPad s) (gEditPad s) (VKey.to_int (gEditKey s)).

(** No event of [evs] presses or releases key [k]. *)
Definition quiet_for (k : Z) (evs : list (Z * Z)) : Prop :=
  forall ev, In ev evs -> fst ev = k ->
             snd ev <> GLFW.PRESS /\ snd ev <> GLFW.RELEASE.

(** [GLFW_REPEAT], from GLFW/glfw3.h. *)
Definition GLFW_REPEAT : Z := 2.

(** Learning is armed for pad 0 / Left; joystick 0 is cached as a raw
    device whose only axis was at 0.0 at the last refresh. *)
Definition st_armed_raw_axis : State :=
  mkState (fun _ => false) (fun _ => false) pads_None
    (fun j =>
       if j =? 0 then
         mkJoyCache true false "stick"%string [] [] [] [f0_0]
           GLFWgamepadstate_zero GLFWgamepadstate_zero false false
       else JoyCache_init)
    0 VKey.Left true false no_file.

(** The flag of control [k] in a sampled digital state, and the state of
    pad [p] in the pair of states sampled in one turn of the main loop. *)
Definition control (d : Digital6) (k : VKey.t) : bool :=
  match k with
  | VKey.Up => up d | VKey.Down => down d | VKey.Left => left d
  | VKey.Right => right d | VKey.B1 => b1 d | VKey.B2 => b2 d
  end.

Definition sampled_pad (out : Digital6 * Digital6) (p : Z) : Digital6 :=
  if p =? 0 then fst out else snd out.

(** [snprintf(buf, sizeof(buf), ...)] into [char buf[256]]: at most 255
    characters are stored. *)
Definition snprintf256 (out : text) : text := firstn 255 out.

(** The integer [round (v * 10^2)] for [v = m * 2^e]: the digits that
    [%.2f] prints, rounded to nearest, ties to even. *)
Definition centi (m e : Z) : Z :=
  if 0 <=? e then m * 2 ^ e * 10 ^ 2
  else F32.round_half_even (m * 10 ^ 2) (2 ^ (- e)).

(** [%.2f] of a [float] argument. *)
Definition fmt_f2 (x : F32.float) : text :=
  match x with
  | S754_nan => Stdio.str "nan"
  | S754_infinity s => Stdio.fmt_sign s ++ Stdio.str "inf"
  | S754_zero s => Stdio.fmt_sign s ++ Stdio.str "0.00"
  | S754_finite s m e =>
      let n := centi (Z.pos m) e in
      Stdio.fmt_sign s ++ Stdio.digits_of (n / 10 ^ 2) ++ Stdio.str "."
        ++ Stdio.digits_fixed 2 (n mod 10 ^ 2)
  end.

(** [(dir < 0 ? "<-" : "->")]. *)
Definition arrow (d : Z) : text :=
  if d <? 0 then Stdio.str "<-" else Stdio.str "->".

(** [Binding::toString]. *)
Definition toString (b : Binding) : text :=
  if type b =? BindType.None then Stdio.str "None"
  else if type b =? BindType.Key then
    snprintf256 (Stdio.str "Key(" ++ Stdio.fmt_d (code b) ++ Stdio.str ")")
  else if type b =? BindType.GamepadButton then
    snprintf256 (Stdio.str "GP(jid=" ++ Stdio.fmt_d (jid b) ++ Stdio.str ") Btn("
                 ++ Stdio.fmt_d (code b) ++ Stdio.str ")")
  else if type b =? BindType.GamepadAxisDir then
    snprintf256 (Stdio.str "GP(jid=" ++ Stdio.fmt_d (jid b) ++ Stdio.str ") Axis("
                 ++ Stdio.fmt_d (code b) ++ Stdio.str ")" ++ arrow (dir b)
                 ++ fmt_f2 (threshold b))
  else if type b =? BindType.JoyButton then
    snprintf256 (Stdio.str "Joy(jid=" ++ Stdio.fmt_d (jid b) ++ Stdio.str ") Btn("
                 ++ Stdio.fmt_d (code b) ++ Stdio.str ")")
  else if type b =? BindType.JoyAxisDir then
    snprintf256 (Stdio.str "Joy(jid=" ++ Stdio.fmt_d (jid b) ++ Stdio.str ") Axis("
                 ++ Stdio.fmt_d (code b) ++ Stdio.str ")" ++ arrow (dir b)
                 ++ fmt_f2 (threshold b))
  else Stdio.str "Unknown".

(** A run of the main loop: one turn ([frame]) per element, with the key
    events that [glfwPollEvents] delivers in that turn and the joystick
    state of that turn. *)
Definition play (turns : list (list (Z * Z) * Glfw)) (s : State) : State :=
  fold_left (fun s t => fst (frame (fst t) (snd t) s)) turns s.

(** Joystick 0 is a connected structured gamepad with no button down and
    axis 0 at [v]; its raw arrays show the same. *)
Definition glfw_gamepad_axis (v : F32.float) : Glfw :=
  mkGlfw (fun j => j =? 0) (fun j => j =? 0)
    (fun j => if j =? 0 then Some "pad"%string else None)
    (fun j =>
       if j =? 0 then
         Some (mkGamepadState (fun _ => 0) (fun a => if a =? 0 then v else f0_0))
       else None)
    (fun j => if j =? 0 then Some [0; 0] else None)
    (fun j => if j =? 0 then Some [v; f0_0] else None).

(** Program start without a mapping file, then one turn in which F2 and 6
    are pressed (pad 1 / B2 becomes the selection) while gamepad 0 rests
    at 0.0. *)
Definition st_selected_b2 : State :=
  play [([(GLFW.KEY_F2, GLFW.PRESS); (GLFW.KEY_6, GLFW.PRESS)],
         glfw_gamepad_axis f0_0)]
       (startup no_file).

(* ========================================================================= *)
(** * Properties *)
(* ========================================================================= *)

(** ** Loops with an early return *)

Section FirstFrom.
Context {A : Type}.
Variable body : Z -> option A.

Lemma first_from_found n i r :
  first_from n i body = Some r ->
  exists j, i <= j < i + Z.of_nat n /\ body j = Some r /\
            forall j', i <= j' < j -> body j' = None.
Proof.
  revert i; induction n as [|n IH]; intros i H; simpl in H; [discriminate|].
  destruct (body i) as [r'|] eqn:Hi.
  - injection H as <-. exists i.
    split; [lia|]. split; [assumption|]. intros; lia.
  - apply IH in H as (j & Hj & Hb & Hlow).
    exists j. split; [lia|]. split; [assumption|].
    intros j' Hj'. destruct (Z.eq_dec j' i) as [->|]; [assumption|].
    apply Hlow; lia.
Qed.

Lemma first_from_none n i :
  first_from n i body = None ->
  forall j, i <= j < i + Z.of_nat n -> body j = None.
Proof.
  revert i; induction n as [|n IH]; intros i H j Hj; simpl in H; [lia|].
  destruct (body i) eqn:Hi; [discriminate|].
  destruct (Z.eq_dec j i) as [->|]; [assumption|].
  apply (IH (i + 1)); [assumption|lia].
Qed.

Lemma first_from_all_none n i :
  (forall j, i <= j < i + Z.of_nat n -> body j = None) ->
  first_from n i body = None.
Proof.
  revert i; induction n as [|n IH]; intros i H; simpl; [reflexivity|].
  rewrite (H i) by lia. apply IH. intros; apply H; lia.
Qed.

Lemma first_from_first n i j r :
  i <= j < i + Z.of_nat n ->
  body j = Some r ->
  (forall j', i <= j' < j -> body j' = None) ->
  first_from n i body = Some r.
Proof.
  revert i; induction n as [|n IH]; intros i Hj Hb Hlow; simpl; [lia|].
  destruct (Z.eq_dec j i) as [->|Hne].
  - now rewrite Hb.
  - rewrite (Hlow i) by lia. apply IH; [lia|assumption|].
    intros; apply Hlow; lia.
Qed.
End FirstFrom.

(** ** Order of binary32 numbers *)

Ltac cmp_cases :=
  repeat match goal with
         | |- context [Z.compare ?a ?b] => destruct (Z.compare_spec a b)
         | H : context [Z.compare ?a ?b] |- _ => destruct (Z.compare_spec a b)
         | |- context [Pos.compare ?a ?b] => destruct (Pos.compare_spec a b)
         | H : context [Pos.compare ?a ?b] |- _ => destruct (Pos.compare_spec a b)
         end.

Ltac float_order :=
  unfold F32.lt, F32.gt, F32.le, F32.neg, SFltb, SFleb, SFcompare, SFopp in *;
  change (Pos.compare_cont Eq) with Pos.compare in *;
  repeat match goal with
         | x : F32.float |- _ => destruct x as [[]|[]| |[] ? ?]
         | x : spec_float |- _ => destruct x as [[]|[]| |[] ? ?]
         end;
  simpl in *; try discriminate; try reflexivity;
  cmp_cases; simpl in *; try discriminate; try reflexivity; try lia.

Lemma F32_le_lt_trans (a b c : F32.float) :
  F32.le a b = true -> F32.lt b c = true -> F32.lt a c = true.
Proof. intros H1 H2. float_order. Qed.

Lemma F32_lt_le_trans (a b c : F32.float) :
  F32.lt a b = true -> F32.le b c = true -> F32.lt a c = true.
Proof. intros H1 H2. float_order. Qed.

Lemma F32_le_neg (a b : F32.float) :
  F32.le a b = true -> F32.le (F32.neg b) (F32.neg a) = true.
Proof. intros H. float_order. Qed.

Lemma F32_lt_asym (a b : F32.float) :
  F32.lt a b = true -> F32.lt b a = false.
Proof. intros H. float_order. Qed.

(** ** Evaluation of a binding *)

(** C8. A Key binding evaluates to the keyboard table's boolean at its
    code when the code lies in [0 .. GLFW_KEY_LAST] and to false for every
    other code; a None binding evaluates to false.  Both hold against any
    keyboard table and any joystick state, whatever the other fields of the
    binding are. *)
Theorem C8_key_and_none_evaluation :
  forall (kd : KeyTable) (g : Glfw) (j c d : Z) (th : F32.float),
    sampleBinding kd g (mkBinding BindType.Key j c d th)
    = (if (0 <=? c) && (c <=? GLFW.KEY_LAST) then kd c else false)
    /\ sampleBinding kd g (mkBinding BindType.None j c d th) = false.
Proof.
  intros kd g j c d th. split; [|reflexivity].
  unfold sampleBinding; simpl.
  destruct (Z.ltb_spec c 0), (Z.gtb_spec c GLFW.KEY_LAST),
           (Z.leb_spec 0 c), (Z.leb_spec c GLFW.KEY_LAST);
    simpl; try reflexivity; lia.
Qed.

Lemma axisDirActive_antitone ty j c d th th' v :
  F32.le th th' = true ->
  axisDirActive (mkBinding ty j c d th') v = true ->
  axisDirActive (mkBinding ty j c d th) v = true.
Proof.
  unfold axisDirActive; simpl. intros Hle.
  destruct (d <? 0).
  - intros H. apply (F32_lt_le_trans _ _ _ H). now apply F32_le_neg.
  - destruct (d >? 0); [|trivial].
    unfold F32.gt. intros H. exact (F32_le_lt_trans _ _ _ Hle H).
Qed.

(** C7. Evaluation of an axis-direction binding (gamepad or raw) is
    antitone in its threshold: for a fixed device state, if the binding
    evaluates to true with a threshold [th'], it evaluates to true with
    every threshold [th <= th'].  Raising the threshold therefore never
    turns false into true. *)
Theorem C7_threshold_antitone :
  forall (kd : KeyTable) (g : Glfw) (ty j c d : Z) (th th' : F32.float),
    ty = BindType.GamepadAxisDir \/ ty = BindType.JoyAxisDir ->
    F32.le th th' = true ->
    sampleBinding kd g (mkBinding ty j c d th') = true ->
    sampleBinding kd g (mkBinding ty j c d th) = true.
Proof.
  intros kd g ty j c d th th' Hty Hle.
  unfold sampleBinding; simpl.
  destruct Hty as [-> | ->]; simpl.
  - destruct ((j <? GLFW.JOYSTICK_1) || (j >? GLFW.JOYSTICK_LAST)); [trivial|].
    destruct (negb (glfwJoystickPresent g j)); [trivial|].
    destruct (negb (glfwJoystickIsGamepad g j)); [trivial|].
    destruct (glfwGetGamepadState g j); [|trivial].
    destruct ((c <? 0) || (c >? GLFW.GAMEPAD_AXIS_LAST)); [trivial|].
    now apply axisDirActive_antitone.
  - destruct ((j <? GLFW.JOYSTICK_1) || (j >? GLFW.JOYSTICK_LAST)); [trivial|].
    destruct (negb (glfwJoystickPresent g j)); [trivial|].
    destruct (glfwGetJoystickAxes g j); [|trivial].
    destruct ((c <? 0) || (c >=? len l)); [trivial|].
    now apply axisDirActive_antitone.
Qed.

Lemma C7_threshold_antitone_witness :
  F32.le f0_45 f0_55 = true /\
  sampleBinding (fun _ => false) glfw_one_axis
    (mkBinding BindType.JoyAxisDir 0 0 1 f0_55) = true /\
  sampleBinding (fun _ => false) glfw_one_axis
    (mkBinding BindType.JoyAxisDir 0 0 1 f0_45) = true.
Proof.
  split; [reflexivity|]. split; [reflexivity|].
  apply (C7_threshold_antitone _ _ BindType.JoyAxisDir 0 0 1 f0_45 f0_55);
    [right; reflexivity | reflexivity | reflexivity].
Defined.

(** ** Pad slots *)

Lemma VKey_to_int_range (k : VKey.t) : 0 <= VKey.to_int k <= 5.
Proof. destruct k; simpl; lia. Qed.

Ltac slot_cases p k :=
  let Hp := fresh in let Hk := fresh in
  assert (Hp : p = 0 \/ p = 1) by lia;
  assert (Hk : k = 0 \/ k = 1 \/ k = 2 \/ k = 3 \/ k = 4 \/ k = 5) by lia;
  destruct Hp as [-> | ->];
  destruct Hk as [-> | [-> | [-> | [-> | [-> | ->]]]]].

Lemma slot_set_slot_same ps p k b :
  0 <= p <= 1 -> 0 <= k <= 5 -> slot (set_slot ps p k b) p k = b.
Proof.
  intros Hp Hk. destruct ps as [[] []]. slot_cases p k; reflexivity.
Qed.

Lemma slot_set_slot_other ps p k b p' k' :
  0 <= p' <= 1 -> 0 <= k' <= 5 -> (p', k') <> (p, k) ->
  slot (set_slot ps p k b) p' k' = slot ps p' k'.
Proof.
  intros Hp Hk Hne. destruct ps as [[] []].
  unfold slot, set_slot, pad_at, set_bind, bind; simpl.
  slot_cases p' k'; simpl;
    repeat match goal with
           | |- context [?a =? ?b] =>
               destruct (Z.eqb_spec a b); try subst; simpl; try congruence
           end.
Qed.

Lemma pads_inv_spec ps :
  pads_inv ps = true <->
  forall p k, slot_index p k -> binding_inv (slot ps p k) = true.
Proof.
  unfold pads_inv, slot_index. rewrite forallb_forall. split.
  - intros H p k [Hp Hk]. apply (H (p, k)).
    slot_cases p k; simpl; auto 20.
  - intros H [p k] Hin. simpl. apply H. simpl in Hin.
    repeat (destruct Hin as [Hin | Hin]; [injection Hin as <- <-; lia|]).
    contradiction.
Qed.

(** ** The hotkey handler reads the keyboard tables and leaves them alone *)

Lemma same_input_refl s : same_input s s.
Proof. unfold same_input; auto. Qed.

Lemma same_input_when c f s0 s :
  (forall x, same_input x (f x)) ->
  same_input s0 s -> same_input s0 (when c f s).
Proof.
  intros Hf (H1 & H2 & H3 & H4). unfold when.
  destruct c; [|unfold same_input; auto].
  destruct (Hf s) as (G1 & G2 & G3 & G4).
  unfold same_input. split; [congruence|]. split; [congruence|].
  split; [congruence|auto].
Qed.

Lemma keyPressedEdge_same s s' key :
  same_input s s' -> keyPressedEdge s' key = keyPressedEdge s key.
Proof.
  intros (H1 & H2 & _). unfold keyPressedEdge. now rewrite H1, H2.
Qed.

Ltac same_input_unfold :=
  intro; unfold same_input, saveMappings, loadMappings, clearSelected,
    clearBinding;
  repeat match goal with
         | |- context [negb (writable ?f)] => destruct (negb (writable f))
         | |- context [contents ?f] => destruct (contents f)
         end;
  cbn [gKeyDown gKeyDownPrev gJoy gEditPad snd with_gPad with_gEditPad
       with_gEditKey with_gLearning with_kMapFile];
  repeat split; auto.

Ltac same_input_step := same_input_unfold; lia.

(** [handleHotkeysOnce] ends with the clear-binding test, made on the
    state [s1] that the earlier hotkeys produced. *)
Lemma handleHotkeysOnce_last s :
  exists s1, same_input s s1 /\
    handleHotkeysOnce s = when (keyPressedEdge s1 GLFW.KEY_BACKSPACE) clearSelected s1.
Proof.
  eexists. split; [|unfold handleHotkeysOnce; cbv zeta; reflexivity].
  repeat (apply same_input_when; [same_input_step|]).
  apply same_input_refl.
Qed.

Lemma handleHotkeysOnce_same_input s : same_input s (handleHotkeysOnce s).
Proof.
  unfold handleHotkeysOnce; cbv zeta.
  repeat (apply same_input_when; [same_input_step|]).
  apply same_input_refl.
Qed.

(** ** Clearing a binding *)

(** C9. The clear-binding action ([clearSelected], the body of the
    BACKSPACE hotkey) sets the selected (pad, control) slot to the None
    binding and the armed flag to false; the cleared slot evaluates to
    false against every keyboard and joystick state; every other slot of
    both pads keeps its binding; and [handleHotkeysOnce] with a
    just-pressed BACKSPACE ends disarmed with the then-selected slot
    cleared. *)
Theorem C9_clear_binding :
  forall s : State,
    0 <= gEditPad s <= 1 ->
    let p := gEditPad s in
    let k := VKey.to_int (gEditKey s) in
    let s' := clearSelected s in
    slot (gPad s') p k = Binding_default
    /\ type (slot (gPad s') p k) = BindType.None
    /\ gLearning s' = false
    /\ (forall kd g, sampleBinding kd g (slot (gPad s') p k) = false)
    /\ (forall p' k', slot_index p' k' -> (p', k') <> (p, k) ->
                      slot (gPad s') p' k' = slot (gPad s) p' k')
    /\ (keyPressedEdge s GLFW.KEY_BACKSPACE = true ->
        let h := handleHotkeysOnce s in
        gLearning h = false /\
        slot (gPad h) (gEditPad h) (VKey.to_int (gEditKey h)) = Binding_default).
Proof.
  intros s Hp p k s'.
  assert (Hslot : slot (gPad s') p k = Binding_default).
  { unfold s', clearSelected, clearBinding; simpl.
    apply slot_set_slot_same; [assumption | apply VKey_to_int_range]. }
  split; [exact Hslot|]. rewrite Hslot.
  split; [reflexivity|]. split; [reflexivity|].
  split; [intros; reflexivity|]. split.
  - intros p' k' [Hp' Hk'] Hne. unfold s', clearSelected, clearBinding; simpl.
    now apply slot_set_slot_other.
  - intros Hedge h. unfold h.
    destruct (handleHotkeysOnce_last s) as (s1 & Hsame & ->).
    rewrite (keyPressedEdge_same _ _ _ Hsame), Hedge. unfold when.
    split; [reflexivity|].
    unfold clearSelected, clearBinding; simpl.
    apply slot_set_slot_same; [|apply VKey_to_int_range].
    destruct Hsame as (_ & _ & _ & H); auto.
Qed.

(** ** Learning detectors *)

Lemma count_incl_Z lo hi :
  lo <= hi + 1 -> Z.of_nat (count_incl lo hi) = hi - lo + 1.
Proof. intros H. unfold count_incl. lia. Qed.

Lemma detectAnyKeyPress_lowest s k :
  detectAnyKeyPress (gKeyDown s) (gKeyDownPrev s) = Some k ->
  lowest_key_edge s k.
Proof.
  unfold detectAnyKeyPress. intros H.
  apply first_from_found in H as (j & Hj & Hb & Hlow).
  rewrite count_incl_Z in Hj by (unfold GLFW.KEY_LAST; lia).
  fold (key_edge s j) in Hb.
  destruct (key_edge s j) eqn:He; [|discriminate]. injection Hb as ->.
  split; [lia|]. split; [assumption|].
  intros k' Hk'. specialize (Hlow k' Hk'). fold (key_edge s k') in Hlow.
  destruct (key_edge s k'); [discriminate|reflexivity].
Qed.

Lemma detectAnyKeyPress_edge s k :
  0 <= k <= GLFW.KEY_LAST -> key_edge s k = true ->
  exists k', k' <= k /\
    detectAnyKeyPress (gKeyDown s) (gKeyDownPrev s) = Some k'.
Proof.
  intros Hk He.
  destruct (detectAnyKeyPress (gKeyDown s) (gKeyDownPrev s)) as [k'|] eqn:Hd.
  - exists k'. split; [|reflexivity].
    apply detectAnyKeyPress_lowest in Hd as (_ & _ & Hlow).
    destruct (Z_le_gt_dec k' k) as [|Hgt]; [assumption|].
    rewrite Hlow in He by lia. discriminate.
  - unfold detectAnyKeyPress in Hd.
    apply first_from_none with (j := k) in Hd.
    + fold (key_edge s k) in Hd. rewrite He in Hd. discriminate.
    + rewrite count_incl_Z by (unfold GLFW.KEY_LAST; lia). lia.
Qed.

Lemma detectAnyKeyPress_no_edge s :
  (forall k, 0 <= k <= GLFW.KEY_LAST -> key_edge s k = false) ->
  detectAnyKeyPress (gKeyDown s) (gKeyDownPrev s) = None.
Proof.
  intros H. unfold detectAnyKeyPress. apply first_from_all_none.
  intros j Hj. rewrite count_incl_Z in Hj by (unfold GLFW.KEY_LAST; lia).
  fold (key_edge s j). rewrite H by lia. reflexivity.
Qed.

Lemma gamepad_ready_flags jc :
  gamepad_ready jc = true ->
  negb (present jc) || negb (isGamepad jc) = false /\
  negb (gpHasCur jc) || negb (gpHasPrev jc) = false.
Proof.
  unfold gamepad_ready.
  destruct (present jc), (isGamepad jc), (gpHasCur jc), (gpHasPrev jc);
    simpl; intros; try discriminate; auto.
Qed.

Lemma gamepad_not_ready jc :
  gamepad_ready jc = false ->
  (if negb (present jc) || negb (isGamepad jc) then true
   else negb (gpHasCur jc) || negb (gpHasPrev jc)) = true.
Proof.
  unfold gamepad_ready.
  destruct (present jc), (isGamepad jc), (gpHasCur jc), (gpHasPrev jc);
    simpl; intros; try discriminate; auto.
Qed.

Lemma detectGamepadButtonPress_no_edge t :
  (forall j b, 0 <= j <= GLFW.JOYSTICK_LAST -> 0 <= b <= GLFW.GAMEPAD_BUTTON_LAST ->
               gamepad_ready (t j) = true -> gp_button_edge (t j) b = false) ->
  detectGamepadButtonPress t = None.
Proof.
  intros H. unfold detectGamepadButtonPress. apply first_from_all_none.
  intros j Hj. rewrite count_incl_Z in Hj by (cbv; discriminate).
  cbv zeta. destruct (gamepad_ready (t j)) eqn:Hr.
  - destruct (gamepad_ready_flags _ Hr) as [-> ->].
    apply first_from_all_none. intros b Hb.
    rewrite count_incl_Z in Hb by (cbv; discriminate).
    fold (gp_button_edge (t j) b).
    rewrite H; [reflexivity | unfold GLFW.JOYSTICK_1 in Hj; lia | lia | assumption].
  - apply gamepad_not_ready in Hr.
    destruct (negb (present (t j)) || negb (isGamepad (t j))); [reflexivity|].
    now rewrite Hr.
Qed.

Lemma F32_gt_055_positive cur :
  F32.gt cur f0_55 = true -> F32.gt cur f0_0 = true.
Proof.
  unfold F32.gt. intros H.
  apply (F32_le_lt_trans f0_0 f0_55 cur); [reflexivity|assumption].
Qed.

Lemma F32_lt_m055_not_positive cur :
  F32.lt cur (F32.neg f0_55) = true -> F32.gt cur f0_0 = false.
Proof.
  unfold F32.gt. intros H. apply F32_lt_asym.
  apply (F32_lt_le_trans cur (F32.neg f0_55) f0_0); [assumption|reflexivity].
Qed.

Lemma axisMove_crossed prev cur :
  axisMove prev cur =
  if axis_crossed prev cur then Some (sign_of cur) else None.
Proof.
  unfold axisMove, axis_crossed, sign_of, gLearnThreshold.
  destruct (F32.lt (F32.fabs prev) f0_20); cbn [andb]; [|reflexivity].
  destruct (F32.gt cur f0_55) eqn:Hgt; cbn [orb].
  - now rewrite (F32_gt_055_positive _ Hgt).
  - destruct (F32.lt cur (F32.neg f0_55)) eqn:Hlt; [|reflexivity].
    now rewrite (F32_lt_m055_not_positive _ Hlt).
Qed.

Lemma detectGamepadAxisMove_first t j a :
  first_gp_axis t j a ->
  detectGamepadAxisMove t = Some (j, a, sign_of (axes (gpCur (t j)) a)).
Proof.
  intros (Hj & Ha & Hr & Hc & Hfirst).
  unfold detectGamepadAxisMove.
  apply first_from_first with (j := j).
  - rewrite count_incl_Z by (cbv; discriminate). unfold GLFW.JOYSTICK_1. lia.
  - cbv zeta. destruct (gamepad_ready_flags _ Hr) as [-> ->].
    apply first_from_first with (j := a).
    + rewrite count_incl_Z by (cbv; discriminate). lia.
    + now rewrite axisMove_crossed, Hc.
    + intros a' Ha'. rewrite axisMove_crossed.
      rewrite (Hfirst j a'); [reflexivity | lia | lia | lia | assumption].
  - intros j' Hj'. cbv zeta. unfold GLFW.JOYSTICK_1 in Hj'.
    destruct (gamepad_ready (t j')) eqn:Hr'.
    + destruct (gamepad_ready_flags _ Hr') as [-> ->].
      apply first_from_all_none. intros a' Ha'.
      rewrite count_incl_Z in Ha' by (cbv; discriminate).
      rewrite axisMove_crossed.
      rewrite (Hfirst j' a'); [reflexivity | lia | lia | lia | assumption].
    + apply gamepad_not_ready in Hr'.
      destruct (negb (present (t j')) || negb (isGamepad (t j'))); [reflexivity|].
      now rewrite Hr'.
Qed.

Lemma learn_result s b :
  0 <= gEditPad s <= 1 ->
  slot (gPad (learn s b)) (gEditPad s) (VKey.to_int (gEditKey s)) = b
  /\ gLearning (learn s b) = false.
Proof.
  intros Hp. split; [|reflexivity]. unfold learn; simpl.
  apply slot_set_slot_same; [assumption | apply VKey_to_int_range].
Qed.

(** ** The learning engine *)

(** C1. While learning is armed: if in one tick a key and a button of a
    structured gamepad both have a just-pressed edge, the engine writes a
    Key binding (for the lowest key code with an edge, which is the key
    itself when it is the only one) into the selected slot and disarms; and
    the five sources are tried in the order keyboard, gamepad buttons,
    gamepad axes, raw buttons, raw axes, the first detector that reports
    deciding the binding; when none reports, the state is unchanged and
    learning stays armed. *)
Theorem C1_learning_priority :
  forall s : State,
    gLearning s = true ->
    0 <= gEditPad s <= 1 ->
    let s' := applyLearningIfTriggered s in
    let learnt := slot (gPad s') (gEditPad s) (VKey.to_int (gEditKey s)) in
    let keys := detectAnyKeyPress (gKeyDown s) (gKeyDownPrev s) in
    (forall key j b,
        0 <= key <= GLFW.KEY_LAST -> key_edge s key = true ->
        0 <= j <= GLFW.JOYSTICK_LAST -> 0 <= b <= GLFW.GAMEPAD_BUTTON_LAST ->
        gamepad_ready (gJoy s j) = true -> gp_button_edge (gJoy s j) b = true ->
        exists key',
          lowest_key_edge s key' /\ key' <= key /\
          learnt = mkBinding BindType.Key (-1) key' 0 f0_45 /\
          gLearning s' = false)
    /\ (forall key, keys = Some key ->
          learnt = mkBinding BindType.Key (-1) key 0 f0_45 /\ gLearning s' = false)
    /\ (keys = None ->
        forall j b, detectGamepadButtonPress (gJoy s) = Some (j, b) ->
          learnt = mkBinding BindType.GamepadButton j b 0 f0_45 /\
          gLearning s' = false)
    /\ (keys = None -> detectGamepadButtonPress (gJoy s) = None ->
        forall j a d, detectGamepadAxisMove (gJoy s) = Some (j, a, d) ->
          learnt = mkBinding BindType.GamepadAxisDir j a d f0_45 /\
          gLearning s' = false)
    /\ (keys = None -> detectGamepadButtonPress (gJoy s) = None ->
        detectGamepadAxisMove (gJoy s) = None ->
        forall j b, detectJoyButtonPress (gJoy s) = Some (j, b) ->
          learnt = mkBinding BindType.JoyButton j b 0 f0_45 /\
          gLearning s' = false)
    /\ (keys = None -> detectGamepadButtonPress (gJoy s) = None ->
        detectGamepadAxisMove (gJoy s) = None ->
        detectJoyButtonPress (gJoy s) = None ->
        forall j a d, detectJoyAxisMove (gJoy s) = Some (j, a, d) ->
          learnt = mkBinding BindType.JoyAxisDir j a d f0_45 /\
          gLearning s' = false)
    /\ (keys = None -> detectGamepadButtonPress (gJoy s) = None ->
        detectGamepadAxisMove (gJoy s) = None ->
        detectJoyButtonPress (gJoy s) = None ->
        detectJoyAxisMove (gJoy s) = None ->
        s' = s).
Proof.
  intros s Harm Hp s' learnt keys.
  unfold learnt, s', keys, applyLearningIfTriggered. rewrite Harm.
  cbn [negb dir threshold Binding_default].
  split.
  { intros key j b Hkey Hedge _ _ _ _.
    destruct (detectAnyKeyPress_edge s key Hkey Hedge) as (key' & Hle & Hd).
    exists key'. rewrite Hd.
    split; [now apply detectAnyKeyPress_lowest|].
    split; [assumption|]. now apply learn_result. }
  split.
  { intros key ->. now apply learn_result. }
  split.
  { intros -> j b ->. now apply learn_result. }
  split.
  { intros -> -> j a d ->. now apply learn_result. }
  split.
  { intros -> -> -> j b ->. now apply learn_result. }
  split.
  { intros -> -> -> -> j a d ->. now apply learn_result. }
  intros -> -> -> -> ->. reflexivity.
Qed.

Lemma C1_learning_priority_witness :
  gLearning st_key_and_button = true /\
  key_edge st_key_and_button GLFW.KEY_W = true /\
  gp_button_edge (gJoy st_key_and_button 0) 3 = true /\
  slot (gPad (applyLearningIfTriggered st_key_and_button)) 0 0
  = mkBinding BindType.Key (-1) GLFW.KEY_W 0 f0_45 /\
  gLearning (applyLearningIfTriggered st_key_and_button) = false.
Proof.
  split; [reflexivity|]. split; [reflexivity|]. split; [reflexivity|].
  assert (Hp : 0 <= gEditPad st_key_and_button <= 1) by (simpl; lia).
  destruct (C1_learning_priority st_key_and_button eq_refl Hp)
    as (_ & Hkey & _).
  apply (Hkey GLFW.KEY_W). vm_compute. reflexivity.
Defined.

(** The engine taken alone, entered armed with no edge on a key or on a
    structured-gamepad button: when axis [a] of gamepad [j] is the first
    axis in scan order whose previous magnitude is below 0.20 and whose
    current value is beyond 0.55 in either direction, it writes
    [GamepadAxisDir (j, a, sign, 0.45)] into the selected slot, with sign
    +1 if the current value is positive and -1 otherwise, and the armed
    flag becomes false.  (No run of the main loop enters the engine in
    such a state: see the section on arming and the joystick sources.) *)
Lemma applyLearningIfTriggered_gamepad_axis :
  forall (s : State) (j a : Z),
    gLearning s = true ->
    0 <= gEditPad s <= 1 ->
    (forall k, 0 <= k <= GLFW.KEY_LAST -> key_edge s k = false) ->
    (forall j b, 0 <= j <= GLFW.JOYSTICK_LAST -> 0 <= b <= GLFW.GAMEPAD_BUTTON_LAST ->
                 gamepad_ready (gJoy s j) = true ->
                 gp_button_edge (gJoy s j) b = false) ->
    first_gp_axis (gJoy s) j a ->
    let s' := applyLearningIfTriggered s in
    let cur := axes (gpCur (gJoy s j)) a in
    slot (gPad s') (gEditPad s) (VKey.to_int (gEditKey s))
    = mkBinding BindType.GamepadAxisDir j a
        (if F32.gt cur f0_0 then 1 else -1) f0_45
    /\ gLearning s' = false.
Proof.
  intros s j a Harm Hp Hkeys Hbtn Hfirst s' cur.
  unfold s', applyLearningIfTriggered. rewrite Harm. cbn [negb].
  rewrite (detectAnyKeyPress_no_edge s Hkeys).
  rewrite (detectGamepadButtonPress_no_edge _ Hbtn).
  rewrite (detectGamepadAxisMove_first _ _ _ Hfirst).
  now apply learn_result.
Qed.

Lemma first_gp_axis_sample : first_gp_axis (gJoy st_axis_move) 0 0.
Proof.
  unfold first_gp_axis. split; [cbv; split; discriminate|].
  split; [cbv; split; discriminate|]. split; [reflexivity|].
  split; [reflexivity|]. intros j' a' Hj' Ha' Hlt. lia.
Qed.

Lemma applyLearningIfTriggered_gamepad_axis_sample :
  axes (gpPrev (gJoy st_axis_move 0)) 0 = f0_0 /\
  axes (gpCur (gJoy st_axis_move 0)) 0 = f0_80 /\
  slot (gPad (applyLearningIfTriggered st_axis_move)) 1 5
  = mkBinding BindType.GamepadAxisDir 0 0 1 f0_45 /\
  gLearning (applyLearningIfTriggered st_axis_move) = false.
Proof.
  split; [reflexivity|]. split; [reflexivity|].
  apply (applyLearningIfTriggered_gamepad_axis st_axis_move 0 0).
  - reflexivity.
  - simpl; lia.
  - intros k _. reflexivity.
  - intros j b _ _ _. unfold gp_button_edge, st_axis_move, joy_axis_move,
      joy_gamepad0; simpl. destruct (j =? 0); reflexivity.
  - exact first_gp_axis_sample.
Defined.

Lemma onKey_gEditPad key action s : gEditPad (onKey key action s) = gEditPad s.
Proof.
  unfold onKey.
  destruct ((key >=? 0) && (key <=? GLFW.KEY_LAST)), (action =? GLFW.PRESS),
    (action =? GLFW.RELEASE), (key =? GLFW.KEY_ESCAPE); reflexivity.
Qed.

Lemma pollEvents_gEditPad evs s : gEditPad (pollEvents evs s) = gEditPad s.
Proof.
  unfold pollEvents. revert s.
  induction evs as [|ev evs IH]; intros s; [reflexivity|].
  cbn [fold_left]. rewrite IH. apply onKey_gEditPad.
Qed.

Lemma frame_state evs g s :
  fst (frame evs g s)
  = updateKeyPrev (applyLearningIfTriggered (handleHotkeysOnce (refresh evs g s))).
Proof. reflexivity. Qed.

Lemma refresh_gEditPad evs g s : gEditPad (refresh evs g s) = gEditPad s.
Proof. unfold refresh. cbn [gEditPad with_gJoy]. apply pollEvents_gEditPad. Qed.

(** C10. In a tick in which SPACE has a just-pressed edge and learning is
    armed when the hotkey handler returns, the learning engine, run next
    in the same tick on the same keyboard tables, finds a key edge: the
    lowest key code with an edge, which is SPACE or a lower code.  It
    writes the Key binding of that code into the selected slot and the
    tick ends disarmed. *)
Theorem C10_arming_key_is_captured :
  forall (evs : list (Z * Z)) (g : Glfw) (s : State),
    0 <= gEditPad s <= 1 ->
    keyPressedEdge (refresh evs g s) GLFW.KEY_SPACE = true ->
    gLearning (handleHotkeysOnce (refresh evs g s)) = true ->
    exists key,
      lowest_key_edge (refresh evs g s) key /\ key <= GLFW.KEY_SPACE /\
      slot (gPad (fst (frame evs g s)))
           (gEditPad (handleHotkeysOnce (refresh evs g s)))
           (VKey.to_int (gEditKey (handleHotkeysOnce (refresh evs g s))))
      = mkBinding BindType.Key (-1) key 0 f0_45 /\
      gLearning (fst (frame evs g s)) = false.
Proof.
  intros evs g s Hp Hspace Harm. rewrite frame_state.
  rewrite <- (refresh_gEditPad evs g) in Hp.
  generalize dependent (refresh evs g s). clear s. intros s0 Hp Hspace.
  destruct (handleHotkeysOnce_same_input s0) as (Hkd & Hkp & _ & Hpad).
  specialize (Hpad Hp).
  generalize dependent (handleHotkeysOnce s0). intros s1 Hkd Hkp Hpad Harm.
  assert (Hedge : key_edge s1 GLFW.KEY_SPACE = true).
  { unfold key_edge. rewrite Hkd, Hkp. exact Hspace. }
  destruct (detectAnyKeyPress_edge s1 GLFW.KEY_SPACE) as (key & Hle & Hd);
    [cbv; split; discriminate | assumption |].
  exists key. split.
  { apply detectAnyKeyPress_lowest in Hd.
    unfold lowest_key_edge, key_edge in *. now rewrite Hkd, Hkp in Hd. }
  split; [assumption|].
  unfold applyLearningIfTriggered. rewrite Harm, Hd.
  unfold updateKeyPrev.
  cbn [negb gPad gLearning with_gKeyDownPrev dir threshold Binding_default].
  exact (learn_result s1 (mkBinding BindType.Key (-1) key 0 f0_45) Hpad).
Qed.

Lemma C9_clear_binding_witness :
  slot (gPad st_raw_button) 0 0 = mkBinding BindType.JoyButton 0 2 0 f0_45 /\
  slot (gPad (clearSelected st_raw_button)) 0 0 = Binding_default /\
  gLearning (clearSelected st_raw_button) = false /\
  gLearning (handleHotkeysOnce st_raw_button) = false.
Proof.
  split; [reflexivity|].
  assert (Hp : 0 <= gEditPad st_raw_button <= 1) by (simpl; lia).
  destruct (C9_clear_binding st_raw_button Hp)
    as (Hslot & _ & Harm & _ & _ & Hhot).
  split; [exact Hslot|]. split; [exact Harm|].
  apply Hhot. reflexivity.
Defined.

Lemma C10_arming_key_is_captured_witness :
  gLearning st_space = false /\
  exists key,
    lowest_key_edge (refresh [(GLFW.KEY_SPACE, GLFW.PRESS)] glfw_none st_space) key /\
    key <= GLFW.KEY_SPACE /\
    slot (gPad (fst (frame [(GLFW.KEY_SPACE, GLFW.PRESS)] glfw_none st_space)))
         (gEditPad (handleHotkeysOnce
                      (refresh [(GLFW.KEY_SPACE, GLFW.PRESS)] glfw_none st_space)))
         (VKey.to_int
            (gEditKey (handleHotkeysOnce
                         (refresh [(GLFW.KEY_SPACE, GLFW.PRESS)] glfw_none st_space))))
    = mkBinding BindType.Key (-1) key 0 f0_45 /\
    gLearning (fst (frame [(GLFW.KEY_SPACE, GLFW.PRESS)] glfw_none st_space)) = false.
Proof.
  split; [reflexivity|].
  apply (C10_arming_key_is_captured [(GLFW.KEY_SPACE, GLFW.PRESS)] glfw_none st_space).
  - simpl; lia.
  - vm_compute; reflexivity.
  - vm_compute; reflexivity.
Defined.

(** ** The joystick cache *)

Lemma for_from_upd_joy (f : Z -> JoyCache -> JoyCache) n i t j :
  for_from n i (fun j t => upd_joy t j (f j (t j))) t j
  = if (i <=? j) && (j <? i + Z.of_nat n) then f j (t j) else t j.
Proof.
  revert i t; induction n as [|n IH]; intros i t.
  - cbn [for_from]. destruct (Z.leb_spec i j), (Z.ltb_spec j (i + Z.of_nat 0));
      simpl; try reflexivity; lia.
  - cbn [for_from]. rewrite IH. unfold upd_joy.
    destruct (Z.eqb_spec j i) as [->|Hne].
    + destruct (Z.leb_spec (i + 1) i), (Z.leb_spec i i),
        (Z.ltb_spec i (i + Z.of_nat (S n))); simpl; try reflexivity; lia.
    + destruct (Z.leb_spec (i + 1) j), (Z.leb_spec i j),
        (Z.ltb_spec j (i + 1 + Z.of_nat n)), (Z.ltb_spec j (i + Z.of_nat (S n)));
        simpl; try reflexivity; lia.
Qed.

Lemma updateJoystickCaches_at g t j :
  0 <= j <= GLFW.JOYSTICK_LAST ->
  updateJoystickCaches g t j = updateJoystickCache g j (t j).
Proof.
  intros Hj. unfold updateJoystickCaches.
  rewrite (for_from_upd_joy (updateJoystickCache g)).
  rewrite count_incl_Z by (cbv; discriminate).
  unfold GLFW.JOYSTICK_1, GLFW.JOYSTICK_LAST in *.
  destruct (Z.leb_spec 0 j), (Z.ltb_spec j (0 + (15 - 0 + 1)));
    simpl; try reflexivity; lia.
Qed.

(** What a detector reports comes from a cached device that passed the
    detector's guards. *)
Lemma detectGamepadButtonPress_reports t j b :
  detectGamepadButtonPress t = Some (j, b) ->
  present (t j) = true /\ gpHasPrev (t j) = true.
Proof.
  unfold detectGamepadButtonPress. intros H.
  apply first_from_found in H as (i & _ & H & _). cbv zeta in H.
  destruct (present (t i)) eqn:Hp; [|discriminate].
  destruct (isGamepad (t i)); [|discriminate].
  destruct (gpHasCur (t i)); [|discriminate].
  destruct (gpHasPrev (t i)) eqn:Hq; [|discriminate]. cbn [negb orb] in H.
  apply first_from_found in H as (c & _ & H & _).
  destruct (_ && _) in H; [|discriminate].
  injection H as <- _. now rewrite Hp, Hq.
Qed.

Lemma detectGamepadAxisMove_reports t j a d :
  detectGamepadAxisMove t = Some (j, a, d) ->
  present (t j) = true /\ gpHasPrev (t j) = true.
Proof.
  unfold detectGamepadAxisMove. intros H.
  apply first_from_found in H as (i & _ & H & _). cbv zeta in H.
  destruct (present (t i)) eqn:Hp; [|discriminate].
  destruct (isGamepad (t i)); [|discriminate].
  destruct (gpHasCur (t i)); [|discriminate].
  destruct (gpHasPrev (t i)) eqn:Hq; [|discriminate]. cbn [negb orb] in H.
  apply first_from_found in H as (c & _ & H & _).
  destruct (axisMove _ _) in H; [|discriminate].
  injection H as <- _ _. now rewrite Hp, Hq.
Qed.

Lemma detectJoyButtonPress_reports t j b :
  detectJoyButtonPress t = Some (j, b) ->
  present (t j) = true /\ len (btnPrev (t j)) = len (btnCur (t j)).
Proof.
  unfold detectJoyButtonPress. intros H.
  apply first_from_found in H as (i & _ & H & _). cbv zeta in H.
  destruct (present (t i)) eqn:Hp; [|discriminate]. cbn [negb] in H.
  destruct (Z.eqb_spec (len (btnPrev (t i))) (len (btnCur (t i)))) as [Hl|];
    [|discriminate].
  cbn [negb] in H.
  apply first_from_found in H as (c & _ & H & _).
  destruct (_ && _) in H; [|discriminate].
  injection H as <- _. now rewrite Hp.
Qed.

Lemma detectJoyAxisMove_reports t j a d :
  detectJoyAxisMove t = Some (j, a, d) ->
  present (t j) = true /\ len (axisPrev (t j)) = len (axisCur (t j)).
Proof.
  unfold detectJoyAxisMove. intros H.
  apply first_from_found in H as (i & _ & H & _). cbv zeta in H.
  destruct (present (t i)) eqn:Hp; [|discriminate]. cbn [negb] in H.
  destruct (Z.eqb_spec (len (axisPrev (t i))) (len (axisCur (t i)))) as [Hl|];
    [|discriminate].
  cbn [negb] in H.
  apply first_from_found in H as (c & _ & H & _).
  destruct (axisMove _ _) in H; [|discriminate].
  injection H as <- _ _. now rewrite Hp.
Qed.

(** C6. When joystick [j] is absent at a refresh, [updateJoystickCaches]
    empties its four cached raw arrays and resets its has-previous (and
    has-current) gamepad-snapshot flags, and none of the four joystick
    detectors reports an edge for device [j] on the refreshed cache.  And
    on any cache, a device whose previous and current raw button arrays
    differ in length is not reported by the raw-button detector, and one
    whose raw axis arrays differ in length is not reported by the raw-axis
    detector. *)
Theorem C6_disconnect_yields_no_edges :
  forall (g : Glfw) (t : JoyTable) (j : Z),
    0 <= j <= GLFW.JOYSTICK_LAST ->
    glfwJoystickPresent g j = false ->
    let t' := updateJoystickCaches g t in
    (btnPrev (t' j) = [] /\ btnCur (t' j) = [] /\
     axisPrev (t' j) = [] /\ axisCur (t' j) = [] /\
     gpHasPrev (t' j) = false /\ gpHasCur (t' j) = false /\
     present (t' j) = false)
    /\ (forall b, detectGamepadButtonPress t' <> Some (j, b))
    /\ (forall a d, detectGamepadAxisMove t' <> Some (j, a, d))
    /\ (forall b, detectJoyButtonPress t' <> Some (j, b))
    /\ (forall a d, detectJoyAxisMove t' <> Some (j, a, d))
    /\ (forall t0 : JoyTable,
          len (btnPrev (t0 j)) <> len (btnCur (t0 j)) ->
          forall b, detectJoyButtonPress t0 <> Some (j, b))
    /\ (forall t0 : JoyTable,
          len (axisPrev (t0 j)) <> len (axisCur (t0 j)) ->
          forall a d, detectJoyAxisMove t0 <> Some (j, a, d)).
Proof.
  intros g t j Hj Habs t'.
  assert (Hc : t' j = mkJoyCache false false EmptyString [] [] [] []
                        (gpPrev (t j)) (gpCur (t j)) false false).
  { unfold t'. rewrite updateJoystickCaches_at by assumption.
    unfold updateJoystickCache. now rewrite Habs. }
  assert (Hpres : present (t' j) = false) by now rewrite Hc.
  split; [rewrite Hc; repeat split|].
  split.
  { intros b H. apply detectGamepadButtonPress_reports in H as [H _]. congruence. }
  split.
  { intros a d H. apply detectGamepadAxisMove_reports in H as [H _]. congruence. }
  split.
  { intros b H. apply detectJoyButtonPress_reports in H as [H _]. congruence. }
  split.
  { intros a d H. apply detectJoyAxisMove_reports in H as [H _]. congruence. }
  split.
  - intros t0 Hne b H. apply detectJoyButtonPress_reports in H as [_ H].
    contradiction.
  - intros t0 Hne a d H. apply detectJoyAxisMove_reports in H as [_ H].
    contradiction.
Qed.

Lemma C6_disconnect_yields_no_edges_witness :
  present (joy_raw0 0) = true /\
  btnCur (updateJoystickCaches glfw_none joy_raw0 0) = [] /\
  gpHasPrev (updateJoystickCaches glfw_none joy_raw0 0) = false /\
  forall b, detectJoyButtonPress (updateJoystickCaches glfw_none joy_raw0)
            <> Some (0, b).
Proof.
  split; [reflexivity|].
  assert (Hj : 0 <= 0 <= GLFW.JOYSTICK_LAST) by (cbv; split; discriminate).
  destruct (C6_disconnect_yields_no_edges glfw_none joy_raw0 0 Hj eq_refl)
    as ((_ & Hcur & _ & _ & Hprev & _) & _ & _ & Hraw & _).
  split; [exact Hcur|]. split; [exact Hprev|exact Hraw].
Defined.

(** ** Reading the mapping file *)

Lemma skip_ws_length inp : (length (Stdio.skip_ws inp) <= length inp)%nat.
Proof.
  induction inp as [|c t IH]; simpl; [lia|].
  destruct (Stdio.is_space c); simpl; lia.
Qed.

Lemma scan_sign_length inp :
  (length (snd (Stdio.scan_sign inp)) <= length inp)%nat.
Proof.
  destruct inp as [|c t]; simpl; [lia|].
  destruct (Stdio.ord c =? 45); [simpl; lia|].
  destruct (Stdio.ord c =? 43); simpl; lia.
Qed.

Lemma scan_digits_length inp acc cnt v cnt' rest :
  Stdio.scan_digits acc cnt inp = (v, cnt', rest) ->
  cnt <= cnt' /\ (length rest <= length inp)%nat /\
  (cnt' <> cnt -> (length rest < length inp)%nat).
Proof.
  revert acc cnt; induction inp as [|c t IH]; intros acc cnt H; simpl in H.
  - injection H as <- <- <-. simpl. lia.
  - destruct (Stdio.is_digit c).
    + apply IH in H. simpl. lia.
    + injection H as <- <- <-. simpl. lia.
Qed.

Lemma scan_d_length inp v rest :
  Stdio.scan_d inp = Some (v, rest) -> (length rest < length inp)%nat.
Proof.
  unfold Stdio.scan_d. intros H.
  pose proof (skip_ws_length inp) as Hw.
  pose proof (scan_sign_length (Stdio.skip_ws inp)) as Hs.
  destruct (Stdio.scan_sign (Stdio.skip_ws inp)) as [sg r0]. simpl in Hs.
  destruct (Stdio.scan_digits 0 0 r0) as [[n cnt] r1] eqn:Hd.
  apply scan_digits_length in Hd as (_ & _ & Hlt).
  destruct (Z.eqb_spec cnt 0); [discriminate|].
  injection H as _ <-. specialize (Hlt ltac:(assumption)). lia.
Qed.

Lemma fscanf7_length inp r rest :
  Stdio.fscanf7 inp = Some (r, rest) ->
  exists r6 th, Stdio.scan_f r6 = Some (th, rest) /\
                (length r6 < length inp)%nat.
Proof.
  unfold Stdio.fscanf7. intros H.
  repeat match type of H with
         | match Stdio.scan_d ?i with _ => _ end = _ =>
             let E := fresh "E" in
             destruct (Stdio.scan_d i) as [[? ?]|] eqn:E; [|discriminate];
             apply scan_d_length in E
         end.
  destruct (Stdio.scan_f _) as [[th r7]|] eqn:Ef; [|discriminate].
  injection H as _ <-. eexists _, _. split; [exact Ef|]. lia.
Qed.

Lemma eat_word_length w inp rest :
  Stdio.eat_word w inp = Some rest -> (length rest <= length inp)%nat.
Proof.
  revert inp; induction w as [|a w IH]; intros inp H; simpl in H.
  - injection H as <-. lia.
  - destruct inp as [|c t]; [discriminate|].
    destruct (Ascii.eqb (Stdio.lower c) a); [|discriminate].
    apply IH in H. simpl. lia.
Qed.

Lemma skip_nchars_length inp : (length (Stdio.skip_nchars inp) <= length inp)%nat.
Proof.
  induction inp as [|c t IH]; simpl; [lia|].
  destruct (Stdio.is_nchar c); simpl; lia.
Qed.

Lemma tl_length (inp : text) : (length (tl inp) <= length inp)%nat.
Proof. destruct inp; simpl; lia. Qed.

Lemma scan_exponent_length inp x rest :
  Stdio.scan_exponent inp = Some (x, rest) -> (length rest <= length inp)%nat.
Proof.
  unfold Stdio.scan_exponent. intros H.
  destruct (Stdio.starts_with (Stdio.chr 101) inp).
  - pose proof (tl_length inp) as Ht.
    pose proof (scan_sign_length (tl inp)) as Hs.
    destruct (Stdio.scan_sign (tl inp)) as [sg r0]. simpl in Hs.
    destruct (Stdio.scan_digits 0 0 r0) as [[n cnt] r1] eqn:Hd.
    apply scan_digits_length in Hd as (_ & Hle & _).
    destruct (cnt =? 0); [discriminate|]. injection H as _ <-. lia.
  - injection H as _ <-. lia.
Qed.

Lemma scan_f_length inp th rest :
  Stdio.scan_f inp = Some (th, rest) -> (length rest <= length inp)%nat.
Proof.
  unfold Stdio.scan_f. intros H.
  pose proof (skip_ws_length inp) as Hw.
  pose proof (scan_sign_length (Stdio.skip_ws inp)) as Hs.
  destruct (Stdio.scan_sign (Stdio.skip_ws inp)) as [sg r0]. simpl in Hs.
  destruct (Stdio.starts_with (Stdio.chr 105) r0).
  { destruct (Stdio.eat_word (Stdio.str "inf") r0) as [r1|] eqn:E1; [|discriminate].
    apply eat_word_length in E1.
    destruct (Stdio.starts_with (Stdio.chr 105) r1).
    - destruct (Stdio.eat_word (Stdio.str "inity") r1) as [r2|] eqn:E2;
        [|discriminate].
      apply eat_word_length in E2. injection H as _ <-. lia.
    - injection H as _ <-. lia. }
  destruct (Stdio.starts_with (Stdio.chr 110) r0).
  { destruct (Stdio.eat_word (Stdio.str "nan") r0) as [r1|] eqn:E1; [|discriminate].
    apply eat_word_length in E1.
    destruct (Stdio.starts_with (Stdio.chr 40) r1).
    - destruct (Stdio.eat_word [Stdio.chr 41] (Stdio.skip_nchars (tl r1)))
        as [r2|] eqn:E2; [|discriminate].
      apply eat_word_length in E2.
      pose proof (skip_nchars_length (tl r1)). pose proof (tl_length r1).
      injection H as _ <-. lia.
    - injection H as _ <-. lia. }
  destruct (Stdio.scan_digits 0 0 r0) as [[ip ci] r1] eqn:D1.
  apply scan_digits_length in D1 as (_ & L1 & _).
  assert (exists m cf r2,
             (if Stdio.starts_with (Stdio.chr 46) r1
              then Stdio.scan_digits ip 0 (tl r1) else (ip, 0, r1)) = (m, cf, r2)
             /\ (length r2 <= length r1)%nat) as (m & cf & r2 & E2 & L2).
  { destruct (Stdio.starts_with (Stdio.chr 46) r1).
    - destruct (Stdio.scan_digits ip 0 (tl r1)) as [[m cf] r2] eqn:D2.
      apply scan_digits_length in D2 as (_ & L2 & _).
      pose proof (tl_length r1). exists m, cf, r2. split; [reflexivity|lia].
    - exists ip, 0, r1. split; [reflexivity|lia]. }
  rewrite E2 in H.
  destruct (ci + cf =? 0); [discriminate|].
  destruct (Stdio.scan_exponent r2) as [[x r3]|] eqn:E3; [|discriminate].
  apply scan_exponent_length in E3. injection H as _ <-. lia.
Qed.

Lemma fscanf7_shorter inp r rest :
  Stdio.fscanf7 inp = Some (r, rest) -> (length rest < length inp)%nat.
Proof.
  intros H. apply fscanf7_length in H as (r6 & th & Hf & Hlt).
  apply scan_f_length in Hf. lia.
Qed.

(** With enough fuel the loops stop at the first failing [fscanf]. *)
Lemma scanLoop_reads fuel inp :
  (length inp < fuel)%nat -> reads inp (scanLoop fuel inp).
Proof.
  revert inp; induction fuel as [|fuel IH]; intros inp Hlen; [lia|].
  cbn [scanLoop]. destruct (Stdio.fscanf7 inp) as [[r rest]|] eqn:Hs.
  - apply (reads_next _ _ _ _ Hs). apply IH.
    apply fscanf7_shorter in Hs. lia.
  - now apply reads_stop.
Qed.

Lemma reads_unique inp rs rs' : reads inp rs -> reads inp rs' -> rs = rs'.
Proof.
  intros H; revert rs'; induction H as [inp Hn | inp r rest rs Hs _ IH];
    intros rs' H'; inversion H'; subst; try congruence.
  assert (Heq : (r, rest) = (r0, rest0)) by congruence.
  injection Heq as <- <-. f_equal. now apply IH.
Qed.

Lemma records_of_reads inp : reads inp (records_of inp).
Proof. apply scanLoop_reads. lia. Qed.

Lemma loadLoop_scanLoop fuel inp ps :
  loadLoop fuel inp ps = fold_left loadRecord (scanLoop fuel inp) ps.
Proof.
  revert inp ps; induction fuel as [|fuel IH]; intros inp ps; [reflexivity|].
  cbn [loadLoop scanLoop]. destruct (Stdio.fscanf7 inp) as [[r rest]|];
    [|reflexivity].
  cbn [fold_left]. apply IH.
Qed.

Lemma loadText_records inp :
  loadText inp = fold_left loadRecord (records_of inp) pads_None.
Proof. apply loadLoop_scanLoop. Qed.

(** More fuel than the length of the input changes nothing. *)
Lemma loadLoop_fuel fuel inp ps :
  (length inp < fuel)%nat ->
  loadLoop fuel inp ps = loadLoop (S (length inp)) inp ps.
Proof.
  intros H. rewrite !loadLoop_scanLoop. f_equal.
  apply (reads_unique inp); apply scanLoop_reads; lia.
Qed.

Lemma slot_loadRecord ps r p k :
  slot_index p k ->
  slot (loadRecord ps r) p k
  = if addresses p k r then binding_of r else slot ps p k.
Proof.
  intros [Hp Hk]. unfold loadRecord, addresses, VKey.Count.
  destruct (Z.ltb_spec (Stdio.s_p r) 0), (Z.geb_spec (Stdio.s_p r) 2);
    cbn [orb];
    try (destruct (Z.eqb_spec (Stdio.s_p r) p); [lia|reflexivity]).
  destruct (Z.ltb_spec (Stdio.s_k r) 0), (Z.geb_spec (Stdio.s_k r) 6);
    cbn [orb];
    try (destruct (Z.eqb_spec (Stdio.s_k r) k);
         [lia|now rewrite andb_false_r]).
  destruct (Z.eqb_spec (Stdio.s_p r) p) as [->|Hnp];
    destruct (Z.eqb_spec (Stdio.s_k r) k) as [->|Hnk]; cbn [andb];
    try (apply slot_set_slot_other; try lia; congruence).
  apply slot_set_slot_same; lia.
Qed.

Lemma slot_fold_loadRecord rs ps p k :
  slot_index p k ->
  slot (fold_left loadRecord rs ps) p k = last_for p k rs (slot ps p k).
Proof.
  intros Hpk. revert ps; induction rs as [|r rs IH]; intros ps; [reflexivity|].
  cbn [fold_left last_for]. rewrite IH. now rewrite slot_loadRecord.
Qed.

Lemma slot_pads_None p k : slot pads_None p k = Binding_default.
Proof.
  unfold slot, pads_None, pad_at, bind. cbn.
  repeat match goal with
         | |- context [if ?c then _ else _] => destruct c
         end; reflexivity.
Qed.

(** C3 (as the code has it). When the mapping file can be opened,
    [loadMappings] succeeds and the pads it leaves are determined by the
    records [rs] that successive [fscanf] calls read up to the first call
    that fails: every slot holds the binding of the last of these records
    that addresses it, and the None binding if there is none.  So all
    slots are reset first, a record with a pad index outside 0..1 or a
    control ordinal outside 0..5 addresses no slot and is passed over
    without ending the load, and nothing after the first failing [fscanf]
    is read. *)
Theorem C3_load_stops_at_first_malformed_record :
  forall (s : State) (inp : text),
    contents (kMapFile s) = Some inp ->
    fst (loadMappings s) = true
    /\ exists rs,
         reads inp rs /\
         forall p k, slot_index p k ->
           slot (gPad (snd (loadMappings s))) p k
           = last_for p k rs Binding_default.
Proof.
  intros s inp Hc. unfold loadMappings. rewrite Hc. split; [reflexivity|].
  exists (records_of inp). split; [apply records_of_reads|].
  intros p k Hpk. cbn [snd gPad with_gPad].
  rewrite loadText_records, slot_fold_loadRecord by assumption.
  now rewrite slot_pads_None.
Qed.

Lemma reads_file_bad_pad :
  reads file_bad_pad
    [Stdio.mkScanned 0 0 1 (-1) 87 0 f0_0;
     Stdio.mkScanned 7 0 1 (-1) 65 0 f0_0;
     Stdio.mkScanned 1 5 1 (-1) 77 0 f0_0].
Proof.
  assert (H : records_of file_bad_pad =
              [Stdio.mkScanned 0 0 1 (-1) 87 0 f0_0;
               Stdio.mkScanned 7 0 1 (-1) 65 0 f0_0;
               Stdio.mkScanned 1 5 1 (-1) 77 0 f0_0]) by (vm_compute; reflexivity).
  rewrite <- H. apply records_of_reads.
Qed.

Lemma C3_load_stops_at_first_malformed_record_witness :
  slot (gPad (snd (loadMappings (State_init (mkMapFile (Some file_bad_pad) true))))) 0 0
  = keyBinding GLFW.KEY_W /\
  slot (gPad (snd (loadMappings (State_init (mkMapFile (Some file_bad_pad) true))))) 1 5
  = keyBinding GLFW.KEY_M /\
  slot (gPad (snd (loadMappings (State_init (mkMapFile (Some file_bad_pad) true))))) 1 0
  = Binding_default.
Proof.
  destruct (C3_load_stops_at_first_malformed_record
              (State_init (mkMapFile (Some file_bad_pad) true)) file_bad_pad eq_refl)
    as (_ & rs & Hrs & Hslot).
  rewrite (reads_unique _ _ _ Hrs reads_file_bad_pad) in Hslot.
  repeat split; rewrite Hslot by (unfold slot_index; lia); reflexivity.
Defined.

(** C3, counterexample. In [file_bad_line] the third line is well
    formed: read on its own it gives the record (1, 5, Key, -1, 77, 0,
    0.0).  It follows a malformed line, and after loading the file slot
    (1, 5) holds the None binding, not that record's binding: the load
    ended at the malformed line. *)
Lemma C3_counterexample_malformed_line_ends_load :
  Stdio.fscanf7 (line "1 5 1 -1 77 0 0.000000")
  = Some (Stdio.mkScanned 1 5 1 (-1) 77 0 f0_0, [Stdio.LF])
  /\ slot (loadText file_bad_line) 0 0 = keyBinding GLFW.KEY_W
  /\ slot (loadText file_bad_line) 1 5 = Binding_default
  /\ slot (loadText file_bad_line) 1 5 <> keyBinding GLFW.KEY_M.
Proof.
  split; [vm_compute; reflexivity|].
  split; [vm_compute; reflexivity|].
  split; [vm_compute; reflexivity|].
  vm_compute. discriminate.
Qed.

(** ** The invariant of the data model *)

Lemma pads_inv_set_slot ps p k b :
  pads_inv ps = true -> binding_inv b = true ->
  pads_inv (set_slot ps p k b) = true.
Proof.
  rewrite !pads_inv_spec. intros H Hb p' k' Hpk.
  destruct (Z.eq_dec p' p) as [->|Hp]; [destruct (Z.eq_dec k' k) as [->|Hk]|].
  - destruct Hpk. now rewrite slot_set_slot_same.
  - destruct Hpk. rewrite slot_set_slot_other by (try assumption; congruence).
    apply H. now split.
  - destruct Hpk. rewrite slot_set_slot_other by (try assumption; congruence).
    apply H. now split.
Qed.

Lemma pads_inv_loadRecord ps r :
  pads_inv ps = true -> binding_inv (binding_of r) = true ->
  pads_inv (loadRecord ps r) = true.
Proof.
  intros H Hr. unfold loadRecord.
  destruct (_ || _); [assumption|]. destruct (_ || _); [assumption|].
  now apply pads_inv_set_slot.
Qed.

Lemma pads_inv_fold_loadRecord rs ps :
  pads_inv ps = true ->
  forallb (fun r => binding_inv (binding_of r)) rs = true ->
  pads_inv (fold_left loadRecord rs ps) = true.
Proof.
  revert ps; induction rs as [|r rs IH]; intros ps H Hrs; [assumption|].
  cbn [forallb] in Hrs. apply andb_true_iff in Hrs as [Hr Hrs].
  cbn [fold_left]. apply IH; [|assumption]. now apply pads_inv_loadRecord.
Qed.

Lemma pads_inv_loadMappings s :
  pads_inv (gPad s) = true -> file_inv (kMapFile s) = true ->
  pads_inv (gPad (snd (loadMappings s))) = true.
Proof.
  unfold loadMappings, file_inv. intros H Hf.
  destruct (contents (kMapFile s)) as [inp|]; [|assumption].
  cbn [snd gPad with_gPad]. rewrite loadText_records.
  now apply pads_inv_fold_loadRecord.
Qed.

Lemma axisMove_dir prev cur d :
  axisMove prev cur = Some d -> d = 1 \/ d = -1.
Proof.
  unfold axisMove. intros H.
  destruct (F32.lt _ _); [|discriminate].
  destruct (F32.gt _ _); [injection H as <-; auto|].
  destruct (F32.lt _ _); [injection H as <-; auto|discriminate].
Qed.

Lemma detectGamepadAxisMove_dir t j a d :
  detectGamepadAxisMove t = Some (j, a, d) -> d = 1 \/ d = -1.
Proof.
  unfold detectGamepadAxisMove. intros H.
  apply first_from_found in H as (i & _ & H & _). cbv zeta in H.
  destruct (_ || _) in H; [discriminate|].
  destruct (_ || _) in H; [discriminate|].
  apply first_from_found in H as (c & _ & H & _).
  destruct (axisMove _ _) as [d'|] eqn:Hm; [|discriminate].
  injection H as _ _ <-. exact (axisMove_dir _ _ _ Hm).
Qed.

Lemma detectJoyAxisMove_dir t j a d :
  detectJoyAxisMove t = Some (j, a, d) -> d = 1 \/ d = -1.
Proof.
  unfold detectJoyAxisMove. intros H.
  apply first_from_found in H as (i & _ & H & _). cbv zeta in H.
  destruct (negb (present (t i))); [discriminate|].
  destruct (negb _) in H; [discriminate|].
  apply first_from_found in H as (c & _ & H & _).
  destruct (axisMove _ _) as [d'|] eqn:Hm; [|discriminate].
  injection H as _ _ <-. exact (axisMove_dir _ _ _ Hm).
Qed.

Lemma pads_inv_learn s b :
  pads_inv (gPad s) = true -> binding_inv b = true ->
  pads_inv (gPad (learn s b)) = true.
Proof. intros. unfold learn; cbn [gPad with_gPad with_gLearning]. now apply pads_inv_set_slot. Qed.

Lemma pads_inv_applyLearning s :
  pads_inv (gPad s) = true ->
  pads_inv (gPad (applyLearningIfTriggered s)) = true.
Proof.
  intros H. unfold applyLearningIfTriggered.
  destruct (negb (gLearning s)); [assumption|].
  destruct (detectAnyKeyPress _ _); [now apply pads_inv_learn|].
  destruct (detectGamepadButtonPress _) as [[j c]|]; [now apply pads_inv_learn|].
  destruct (detectGamepadAxisMove _) as [[[j c] d]|] eqn:Hg.
  { apply pads_inv_learn; [assumption|].
    destruct (detectGamepadAxisMove_dir _ _ _ _ Hg) as [-> | ->]; reflexivity. }
  destruct (detectJoyButtonPress _) as [[j c]|]; [now apply pads_inv_learn|].
  destruct (detectJoyAxisMove _) as [[[j c] d]|] eqn:Hr; [|assumption].
  apply pads_inv_learn; [assumption|].
  destruct (detectJoyAxisMove_dir _ _ _ _ Hr) as [-> | ->]; reflexivity.
Qed.

Lemma pads_inv_clearSelected s :
  pads_inv (gPad s) = true -> pads_inv (gPad (clearSelected s)) = true.
Proof.
  intros H. unfold clearSelected, clearBinding.
  cbn [gPad with_gPad with_gLearning]. now apply pads_inv_set_slot.
Qed.

Lemma pollEvents_gPad evs s : gPad (pollEvents evs s) = gPad s.
Proof.
  unfold pollEvents. revert s.
  induction evs as [|ev evs IH]; intros s; [reflexivity|].
  cbn [fold_left]. rewrite IH. unfold onKey.
  destruct ((fst ev >=? 0) && (fst ev <=? GLFW.KEY_LAST)),
    (snd ev =? GLFW.PRESS), (snd ev =? GLFW.RELEASE),
    (fst ev =? GLFW.KEY_ESCAPE); reflexivity.
Qed.

Lemma pads_inv_when c f s :
  (forall x, pads_inv (gPad x) = true -> pads_inv (gPad (f x)) = true) ->
  pads_inv (gPad s) = true -> pads_inv (gPad (when c f s)) = true.
Proof. intros Hf H. unfold when. destruct c; auto. Qed.

Ltac pads_inv_step :=
  intros ? ?;
  first [ assumption
        | now apply pads_inv_clearSelected
        | unfold saveMappings;
          match goal with
          | |- context [negb (writable ?f)] => destruct (negb (writable f))
          end; assumption ].

Lemma pads_inv_handleHotkeysOnce s :
  pads_inv (gPad s) = true ->
  (forall f, loaded_file OpHotkeys s = Some f -> file_inv f = true) ->
  pads_inv (gPad (handleHotkeysOnce s)) = true.
Proof.
  intros H Hload. unfold handleHotkeysOnce; cbv zeta.
  do 11 (apply pads_inv_when; [pads_inv_step|]).
  set (s1 := when (keyPressedEdge s GLFW.KEY_F5) (fun s => snd (saveMappings s)) s).
  assert (H1 : pads_inv (gPad s1) = true).
  { unfold s1. apply pads_inv_when; [pads_inv_step|assumption]. }
  assert (Hsame : same_input s s1).
  { unfold s1. apply same_input_when; [same_input_step|apply same_input_refl]. }
  unfold when at 1. rewrite (keyPressedEdge_same _ _ _ Hsame).
  destruct (keyPressedEdge s GLFW.KEY_F9) eqn:Hf9; [|assumption].
  apply pads_inv_loadMappings; [assumption|].
  apply Hload. unfold loaded_file. now rewrite Hf9.
Qed.

Lemma pads_inv_run_op o s :
  pads_inv (gPad s) = true ->
  (forall f, loaded_file o s = Some f -> file_inv f = true) ->
  pads_inv (gPad (run_op o s)) = true.
Proof.
  intros H Hload. destruct o; cbn [run_op].
  - reflexivity.
  - now rewrite pollEvents_gPad.
  - assumption.
  - now apply pads_inv_handleHotkeysOnce.
  - now apply pads_inv_applyLearning.
  - now apply pads_inv_clearSelected.
  - assumption.
  - unfold saveMappings. destruct (negb (writable (kMapFile s))); assumption.
  - apply pads_inv_loadMappings; [assumption|]. now apply Hload.
  - assumption.
Qed.

(** C5 (as the code has it). Starting from pads that satisfy the
    invariant (all slots None at program start), after any sequence of
    operations - defaults, event polling, cache refresh, hotkeys,
    learning, clearing, saving, loading - every binding of every slot
    satisfies the invariant, provided every file that is loaded on the
    way contains only records that satisfy it.  The loader itself stores
    the kind, direction and threshold of a record as read. *)
Theorem C5_binding_invariant_preserved :
  forall (ops : list Op) (s : State),
    pads_inv (gPad s) = true ->
    loads_inv ops s = true ->
    pads_inv (gPad (run ops s)) = true.
Proof.
  unfold run. induction ops as [|o ops IH]; intros s H Hl; [assumption|].
  cbn [fold_left]. cbn [loads_inv] in Hl. apply andb_true_iff in Hl as [Ho Hl].
  apply IH; [|assumption]. apply pads_inv_run_op; [assumption|].
  intros f Hf. now rewrite Hf in Ho.
Qed.

Lemma C5_binding_invariant_preserved_witness :
  pads_inv
    (gPad (run [OpDefaults; OpLoad; OpPoll [(GLFW.KEY_SPACE, GLFW.PRESS)];
                OpCaches glfw_one_axis; OpHotkeys; OpLearn; OpKeyPrev]
               (State_init (mkMapFile (Some file_good_axis) true)))) = true.
Proof.
  apply C5_binding_invariant_preserved; vm_compute; reflexivity.
Defined.

(** C5, counterexample. Program start with a mapping file whose only
    record is (0, 0, GamepadAxisDir, 0, 0, direction 0, threshold 5.0):
    after [setDefaultBindings(); loadMappings();] pad 0 / Up holds an axis
    binding whose direction is 0 and whose threshold is 5.0, so the
    invariant fails. *)
Lemma C5_counterexample_loaded_axis_binding :
  let b := slot (gPad (startup (mkMapFile (Some file_bad_axis) true))) 0 0 in
  type b = BindType.GamepadAxisDir /\ dir b = 0 /\
  F32.lt (threshold b) f1_0 = false /\ binding_inv b = false.
Proof. vm_compute. repeat split. Qed.

(** ** Printing and reading back decimal digits *)

Lemma digit_char_ok d :
  0 <= d <= 9 ->
  Stdio.is_digit (Stdio.digit_char d) = true /\
  Stdio.digit_val (Stdio.digit_char d) = d /\
  Stdio.is_space (Stdio.digit_char d) = false /\
  Stdio.ord (Stdio.digit_char d) <> 45 /\
  Stdio.ord (Stdio.digit_char d) <> 43 /\
  Stdio.lower (Stdio.digit_char d) = Stdio.digit_char d /\
  Stdio.digit_char d <> Stdio.chr 105 /\
  Stdio.digit_char d <> Stdio.chr 110.
Proof.
  intros H.
  assert (Hd : d = 0 \/ d = 1 \/ d = 2 \/ d = 3 \/ d = 4 \/ d = 5 \/ d = 6 \/
               d = 7 \/ d = 8 \/ d = 9) by lia.
  repeat destruct Hd as [-> | Hd]; try subst d;
    (repeat split; try reflexivity; vm_compute; discriminate).
Qed.


Lemma val_from_app acc ds1 ds2 :
  val_from acc (ds1 ++ ds2) = val_from (val_from acc ds1) ds2.
Proof. unfold val_from. apply fold_left_app. Qed.

Lemma scan_digits_run ds acc cnt rest :
  all_digits ds ->
  Stdio.scan_digits acc cnt (ds ++ rest)
  = Stdio.scan_digits (val_from acc ds) (cnt + len ds) rest.
Proof.
  intros H; revert acc cnt; induction H as [|c ds Hc _ IH]; intros acc cnt.
  - simpl. unfold len; simpl. now rewrite Z.add_0_r.
  - cbn [app Stdio.scan_digits]. rewrite Hc, IH. unfold val_from; cbn [fold_left].
    f_equal. unfold len. cbn [length]. lia.
Qed.

Lemma scan_digits_stop c rest acc cnt :
  Stdio.is_digit c = false ->
  Stdio.scan_digits acc cnt (c :: rest) = (acc, cnt, c :: rest).
Proof. intros H. cbn [Stdio.scan_digits]. now rewrite H. Qed.

Lemma digits_fuel_S fuel n :
  Stdio.digits_fuel (S fuel) n
  = if n <? 10 then [Stdio.digit_char n]
    else Stdio.digits_fuel fuel (n / 10) ++ [Stdio.digit_char (n mod 10)].
Proof. reflexivity. Qed.

Lemma digits_fuel_ok fuel n :
  0 <= n < 2 ^ Z.of_nat (S fuel) ->
  all_digits (Stdio.digits_fuel (S fuel) n) /\
  val_from 0 (Stdio.digits_fuel (S fuel) n) = n /\
  exists d ds,
    Stdio.digits_fuel (S fuel) n = Stdio.digit_char d :: ds /\ 0 <= d <= 9.
Proof.
  revert n; induction fuel as [|fuel IH]; intros n Hn;
    rewrite digits_fuel_S; destruct (Z.ltb_spec n 10) as [Hlt|Hge].
  - destruct (digit_char_ok n ltac:(lia)) as (Hd & Hv & _).
    split; [repeat constructor; assumption|].
    split; [unfold val_from; cbn [fold_left]; lia|].
    exists n, []. split; [reflexivity|lia].
  - change (2 ^ Z.of_nat 1) with 2 in Hn. lia.
  - destruct (digit_char_ok n ltac:(lia)) as (Hd & Hv & _).
    split; [repeat constructor; assumption|].
    split; [unfold val_from; cbn [fold_left]; lia|].
    exists n, []. split; [reflexivity|lia].
  - assert (Hq : 0 <= n / 10 < 2 ^ Z.of_nat (S fuel)).
    { split; [apply Z.div_pos; lia|].
      apply Z.div_lt_upper_bound; [lia|].
      rewrite (Nat2Z.inj_succ (S fuel)), Z.pow_succ_r in Hn by lia. lia. }
    destruct (IH _ Hq) as (Hall & Hval & d & ds & Heq & Hd).
    pose proof (Z.mod_pos_bound n 10 ltac:(lia)) as Hm.
    destruct (digit_char_ok (n mod 10) ltac:(lia)) as (Hdm & Hvm & _).
    split; [apply Forall_app; split; [assumption|repeat constructor; assumption]|].
    split.
    + rewrite val_from_app, Hval. unfold val_from; cbn [fold_left].
      rewrite Hvm. pose proof (Z.div_mod n 10 ltac:(lia)). lia.
    + exists d, (ds ++ [Stdio.digit_char (n mod 10)]).
      split; [now rewrite Heq|assumption].
Qed.

Lemma digits_of_ok n :
  0 <= n ->
  all_digits (Stdio.digits_of n) /\
  val_from 0 (Stdio.digits_of n) = n /\
  exists d ds, Stdio.digits_of n = Stdio.digit_char d :: ds /\ 0 <= d <= 9.
Proof.
  intros Hn. unfold Stdio.digits_of. apply digits_fuel_ok.
  split; [assumption|].
  rewrite Nat2Z.inj_succ, Z2Nat.id by apply Z.log2_nonneg.
  destruct (Z.eq_dec n 0) as [->|]; [reflexivity|].
  apply Z.log2_spec. lia.
Qed.

Lemma digits_fixed_ok w n acc :
  0 <= n ->
  all_digits (Stdio.digits_fixed w n) /\
  len (Stdio.digits_fixed w n) = Z.of_nat w /\
  val_from acc (Stdio.digits_fixed w n)
  = acc * 10 ^ Z.of_nat w + n mod 10 ^ Z.of_nat w.
Proof.
  revert n acc; induction w as [|w IH]; intros n acc Hn.
  - cbn [Stdio.digits_fixed]. split; [constructor|]. split; [reflexivity|].
    unfold val_from; simpl. rewrite Z.mod_1_r. lia.
  - cbn [Stdio.digits_fixed].
    assert (Hq : 0 <= n / 10) by (apply Z.div_pos; lia).
    destruct (IH (n / 10) acc Hq) as (Hall & Hlen & Hval).
    pose proof (Z.mod_pos_bound n 10 ltac:(lia)) as Hm.
    destruct (digit_char_ok (n mod 10) ltac:(lia)) as (Hdm & Hvm & _).
    split; [apply Forall_app; split; [assumption|repeat constructor; assumption]|].
    split.
    + unfold len in *. rewrite length_app. cbn [length]. lia.
    + rewrite val_from_app, Hval. unfold val_from; cbn [fold_left]. rewrite Hvm.
      rewrite Nat2Z.inj_succ, Z.pow_succ_r by lia.
      rewrite (Z.rem_mul_r n 10 (10 ^ Z.of_nat w)) by lia. lia.
Qed.

Lemma to_int_id n : is_int n -> Stdio.to_int n = n.
Proof.
  unfold is_int, Stdio.to_int. intros H.
  rewrite Z.mod_small by (change (2 ^ 32) with (2 ^ 31 + 2 ^ 31); lia). lia.
Qed.

Lemma skip_ws_nonspace c t :
  Stdio.is_space c = false -> Stdio.skip_ws (c :: t) = c :: t.
Proof. intros H. cbn [Stdio.skip_ws]. now rewrite H. Qed.

Lemma scan_sign_none c t :
  Stdio.ord c <> 45 -> Stdio.ord c <> 43 -> Stdio.scan_sign (c :: t) = (false, c :: t).
Proof.
  intros H1 H2. cbn [Stdio.scan_sign].
  destruct (Z.eqb_spec (Stdio.ord c) 45); [contradiction|].
  destruct (Z.eqb_spec (Stdio.ord c) 43); [contradiction|reflexivity].
Qed.

(** A text that starts with a decimal digit has no white space and no
    sign in front. *)
Lemma sign_then_digit s d t :
  0 <= d <= 9 ->
  Stdio.scan_sign (Stdio.skip_ws (Stdio.fmt_sign s ++ Stdio.digit_char d :: t))
  = (s, Stdio.digit_char d :: t).
Proof.
  intros Hd. destruct (digit_char_ok d Hd) as (_ & _ & Hsp & H45 & H43 & _).
  destruct s.
  - reflexivity.
  - cbn [Stdio.fmt_sign app]. rewrite skip_ws_nonspace by assumption.
    now apply scan_sign_none.
Qed.

Lemma unsigned_then_digit d t :
  0 <= d <= 9 ->
  Stdio.scan_sign (Stdio.skip_ws (Stdio.digit_char d :: t))
  = (false, Stdio.digit_char d :: t).
Proof. exact (sign_then_digit false d t). Qed.

Lemma len_nonneg {A} (l : list A) : 0 <= len l.
Proof. unfold len. lia. Qed.

(** [%d] reads back what [%d] printed, up to a following character that
    is not a digit. *)
Lemma scan_d_fmt_d n c rest :
  is_int n -> Stdio.is_digit c = false ->
  Stdio.scan_d (Stdio.fmt_d n ++ c :: rest) = Some (n, c :: rest).
Proof.
  intros Hn Hc. unfold Stdio.fmt_d.
  destruct (Z.ltb_spec n 0) as [Hneg|Hpos].
  - destruct (digits_of_ok (- n) ltac:(lia)) as (Hall & Hval & d & ds & Heq & Hd).
    unfold Stdio.scan_d.
    change (Stdio.str "-") with (Stdio.fmt_sign true). rewrite <- app_assoc.
    rewrite Heq at 1. cbn [app]. rewrite sign_then_digit by assumption.
    change (Stdio.digit_char d :: ds ++ c :: rest)
      with ((Stdio.digit_char d :: ds) ++ c :: rest).
    rewrite <- Heq. rewrite scan_digits_run, scan_digits_stop by assumption.
    rewrite Hval.
    assert (Hl : (0 + len (Stdio.digits_of (- n)) =? 0) = false).
    { rewrite Heq. unfold len. cbn [length]. apply Z.eqb_neq. lia. }
    rewrite Hl. rewrite Z.opp_involutive. now rewrite to_int_id.
  - destruct (digits_of_ok n Hpos) as (Hall & Hval & d & ds & Heq & Hd).
    unfold Stdio.scan_d.
    rewrite Heq at 1. cbn [app]. rewrite unsigned_then_digit by assumption.
    change (Stdio.digit_char d :: ds ++ c :: rest)
      with ((Stdio.digit_char d :: ds) ++ c :: rest).
    rewrite <- Heq. rewrite scan_digits_run, scan_digits_stop by assumption.
    rewrite Hval.
    assert (Hl : (0 + len (Stdio.digits_of n) =? 0) = false).
    { rewrite Heq. unfold len. cbn [length]. apply Z.eqb_neq. lia. }
    rewrite Hl. now rewrite to_int_id.
Qed.

Lemma scan_d_space c inp :
  Stdio.is_space c = true -> Stdio.scan_d (c :: inp) = Stdio.scan_d inp.
Proof. intros H. unfold Stdio.scan_d. cbn [Stdio.skip_ws]. now rewrite H. Qed.

Lemma scan_f_space c inp :
  Stdio.is_space c = true -> Stdio.scan_f (c :: inp) = Stdio.scan_f inp.
Proof. intros H. unfold Stdio.scan_f. cbn [Stdio.skip_ws]. now rewrite H. Qed.

Lemma starts_with_digit a d t :
  0 <= d <= 9 -> a = Stdio.chr 105 \/ a = Stdio.chr 110 ->
  Stdio.starts_with a (Stdio.digit_char d :: t) = false.
Proof.
  intros Hd Ha.
  destruct (digit_char_ok d Hd) as (_ & _ & _ & _ & _ & Hlow & Hi & Hn).
  cbn [Stdio.starts_with]. rewrite Hlow. apply Ascii.eqb_neq.
  destruct Ha as [-> | ->]; assumption.
Qed.

(** [%f] reads a printed number: sign, integer digits, a point and six
    fraction digits, followed by a line feed. *)
Lemma scan_f_number s i f rest :
  0 <= i -> 0 <= f ->
  Stdio.scan_f (Stdio.fmt_sign s ++ Stdio.digits_of i ++ Stdio.str "." ++
                Stdio.digits_fixed 6 f ++ Stdio.LF :: rest)
  = Some (F32.of_decimal s (i * 10 ^ 6 + f mod 10 ^ 6) (- 6), Stdio.LF :: rest).
Proof.
  intros Hi Hf.
  destruct (digits_of_ok i Hi) as (Hall & Hval & d & ds & Heq & Hd).
  destruct (digits_fixed_ok 6 f i Hf) as (Hall6 & Hlen6 & Hval6).
  unfold Stdio.scan_f.
  rewrite Heq at 1. cbn [app]. rewrite sign_then_digit by assumption.
  rewrite !starts_with_digit by auto.
  change (Stdio.digit_char d :: ds ++ Stdio.str "." ++
          Stdio.digits_fixed 6 f ++ Stdio.LF :: rest)
    with ((Stdio.digit_char d :: ds) ++ Stdio.chr 46 ::
          Stdio.digits_fixed 6 f ++ Stdio.LF :: rest).
  rewrite <- Heq.
  rewrite scan_digits_run, scan_digits_stop, Hval by (assumption || reflexivity).
  change (Stdio.starts_with (Stdio.chr 46) (Stdio.chr 46 :: ?t)) with true.
  cbn [tl Stdio.starts_with].
  change (Ascii.eqb (Stdio.lower (Stdio.chr 46)) (Stdio.chr 46)) with true.
  cbn iota.
  rewrite scan_digits_run, scan_digits_stop, Hval6, Hlen6
    by (assumption || reflexivity).
  assert (Hl : (0 + len (Stdio.digits_of i) + (0 + Z.of_nat 6) =? 0) = false).
  { apply Z.eqb_neq. pose proof (len_nonneg (Stdio.digits_of i)). lia. }
  rewrite Hl.
  change (Stdio.scan_exponent (Stdio.LF :: rest)) with (Some (0, Stdio.LF :: rest)).
  change (Z.of_nat 6) with 6. reflexivity.
Qed.

Lemma round_half_even_nonneg a b : 0 <= a -> 0 < b -> 0 <= F32.round_half_even a b.
Proof.
  intros Ha Hb. unfold F32.round_half_even.
  assert (0 <= a / b) by (apply Z.div_pos; lia).
  destruct (2 * (a mod b) ?= b); [destruct (Z.even (a / b))| |]; lia.
Qed.

Lemma micro_nonneg m e : 0 <= Stdio.micro (Z.pos m) e.
Proof.
  unfold Stdio.micro. destruct (Z.leb_spec 0 e).
  - pose proof (Z.pow_nonneg 2 e ltac:(lia)).
    apply Z.mul_nonneg_nonneg; [apply Z.mul_nonneg_nonneg|]; lia.
  - apply round_half_even_nonneg; [lia|]. apply Z.pow_pos_nonneg; lia.
Qed.

(** [%f] reads back what [%.6f] printed. *)
Lemma scan_f_fmt_f6 x rest :
  Stdio.scan_f (Stdio.fmt_f6 x ++ Stdio.LF :: rest)
  = Some (reread x, Stdio.LF :: rest).
Proof.
  destruct x as [s|s| |s m e].
  - destruct s; reflexivity.
  - destruct s; reflexivity.
  - reflexivity.
  - cbn [Stdio.fmt_f6 reread]. rewrite <- !app_assoc.
    pose proof (micro_nonneg m e) as Hn.
    set (n := Stdio.micro (Z.pos m) e) in *.
    rewrite scan_f_number
      by (try (apply Z.div_pos; lia); apply Z.mod_pos_bound; lia).
    rewrite Z.mod_mod by lia.
    replace (n / 10 ^ 6 * 10 ^ 6 + n mod 10 ^ 6) with n
      by (pose proof (Z.div_mod n (10 ^ 6) ltac:(lia)); lia).
    reflexivity.
Qed.

Lemma SP_facts :
  Stdio.is_digit Stdio.SP = false /\ Stdio.is_space Stdio.SP = true /\
  Stdio.is_space Stdio.LF = true.
Proof. repeat split. Qed.

(** One [fscanf] reads back one printed line and stops before its line
    feed. *)
Lemma fscanf7_fprintf_line p k b rest :
  is_int p -> is_int k -> binding_typed b ->
  Stdio.fscanf7 (fprintf_line p k b ++ rest)
  = Some (Stdio.mkScanned p k (type b) (jid b) (code b) (dir b)
            (reread (threshold b)), Stdio.LF :: rest).
Proof.
  intros Hp Hk (Ht & Hj & Hc & Hd & _).
  destruct SP_facts as (Hsd & Hss & _).
  unfold fprintf_line, Stdio.fscanf7. rewrite <- !app_assoc. cbn [app].
  rewrite scan_d_fmt_d by assumption.
  rewrite scan_d_space, scan_d_fmt_d by assumption.
  rewrite scan_d_space, scan_d_fmt_d by assumption.
  rewrite scan_d_space, scan_d_fmt_d by assumption.
  rewrite scan_d_space, scan_d_fmt_d by assumption.
  rewrite scan_d_space, scan_d_fmt_d by assumption.
  rewrite scan_f_space, scan_f_fmt_f6 by assumption.
  reflexivity.
Qed.

Lemma fscanf7_line_feed inp :
  Stdio.fscanf7 (Stdio.LF :: inp) = Stdio.fscanf7 inp.
Proof.
  unfold Stdio.fscanf7. now rewrite scan_d_space by reflexivity.
Qed.

Lemma reads_items its :
  Forall item_typed its ->
  reads (Stdio.LF :: concat (map item_line its)) (map item_record its)
  /\ reads (concat (map item_line its)) (map item_record its).
Proof.
  induction 1 as [|it its (Hp & Hk & Hb) _ [IH _]].
  - split; apply reads_stop; reflexivity.
  - cbn [map concat].
    assert (Hs : Stdio.fscanf7 (item_line it ++ concat (map item_line its))
                 = Some (item_record it, Stdio.LF :: concat (map item_line its))).
    { unfold item_line, item_record. now apply fscanf7_fprintf_line. }
    split.
    + eapply reads_next; [|exact IH]. now rewrite fscanf7_line_feed.
    + eapply reads_next; [exact Hs|exact IH].
Qed.

Lemma saveText_items ps : saveText ps = concat (map item_line (pad_items ps)).
Proof.
  unfold saveText, pad_items, all_slots, item_line.
  change (Z.to_nat VKey.Count) with 6%nat.
  cbn [for_from flat_map map app concat fst snd Z.add Pos.add Pos.succ].
  rewrite <- !app_assoc. cbn [app]. now rewrite app_nil_r.
Qed.

(** ** Rounding to the nearest integer *)

Lemma round_half_even_cases a b :
  0 < b ->
  let q := a / b in
  let r := a mod b in
  (F32.round_half_even a b = q /\ 2 * r <= b) \/
  (F32.round_half_even a b = q + 1 /\ b <= 2 * r).
Proof.
  intros Hb q r. unfold F32.round_half_even. fold q r.
  destruct (Z.compare_spec (2 * r) b); [destruct (Z.even q)| |]; lia.
Qed.




Lemma round_half_even_upper a b c :
  0 < b -> a < b * c -> F32.round_half_even a b <= c.
Proof.
  intros Hb Hc.
  assert (a / b < c) by (apply Z.div_lt_upper_bound; lia).
  destruct (round_half_even_cases a b Hb) as [[-> _] | [-> _]]; lia.
Qed.

Lemma round_half_even_lower a b c :
  0 < b -> b * c <= a -> c <= F32.round_half_even a b.
Proof.
  intros Hb Hc.
  assert (c <= a / b) by (apply Z.div_le_lower_bound; lia).
  destruct (round_half_even_cases a b Hb) as [[-> _] | [-> _]]; lia.
Qed.

(** ** Valid binary32 numbers *)

Lemma digits2_pos_bound m : Z.pos m < 2 ^ Z.pos (digits2_pos m).
Proof.
  induction m as [m IH|m IH|]; cbn [digits2_pos].
  - rewrite Pos2Z.inj_succ, Z.pow_succ_r by lia. lia.
  - rewrite Pos2Z.inj_succ, Z.pow_succ_r by lia. lia.
  - reflexivity.
Qed.

Lemma valid_finite_bounds s m e :
  F32.valid (S754_finite s m e) = true ->
  Z.pos m < 2 ^ 24 /\ F32.e_min <= e <= F32.e_max.
Proof.
  unfold F32.valid, valid_binary, bounded, canonical_mantissa, fexp.
  intros H. apply andb_true_iff in H as [Hc He].
  apply Z.eqb_eq in Hc. apply Z.leb_le in He.
  change (emin F32.prec F32.emax) with F32.e_min in Hc.
  change (F32.emax - F32.prec) with F32.e_max in He.
  unfold F32.prec, F32.e_min, F32.e_max, F32.emax in *.
  change (emin 24 128) with (-149) in *.
  pose proof (digits2_pos_bound m) as Hd.
  assert (Hle : Z.pos (digits2_pos m) <= 24) by lia.
  split; [|lia].
  apply (Z.lt_le_trans _ _ _ Hd). apply Z.pow_le_mono_r; lia.
Qed.

(** ** Reading back a printed threshold *)







(** ** Values of floats as rationals *)






(** ** Saving and loading back *)

Lemma pad_items_typed ps :
  (forall p k, slot_index p k -> binding_typed (slot ps p k)) ->
  Forall item_typed (pad_items ps).
Proof.
  intros H. unfold pad_items, all_slots. cbn [flat_map map app].
  repeat constructor; cbn [fst snd]; try (unfold is_int; lia);
    apply H; unfold slot_index; lia.
Qed.

Lemma records_of_saveText ps :
  (forall p k, slot_index p k -> binding_typed (slot ps p k)) ->
  records_of (saveText ps) = map item_record (pad_items ps).
Proof.
  intros H. apply (reads_unique (saveText ps)); [apply records_of_reads|].
  rewrite saveText_items. now apply reads_items, pad_items_typed.
Qed.



Lemma st_mixed_typed :
  forall p k, slot_index p k -> binding_typed (slot (gPad st_mixed) p k).
Proof.
  intros p k [Hp Hk].
  slot_cases p k; (repeat split; try reflexivity; vm_compute; congruence).
Qed.


(** The relation [th_close] separates thresholds that differ in the first
    decimal, and a threshold below the printed precision is read back as
    zero. *)
Lemma th_close_separates :
  ~ th_close f0_45 f0_55 /\
  reread (F32.of_decimal false 1 (-7)) = f0_0.
Proof.
  split; [|vm_compute; reflexivity].
  unfold th_close, f0_45, f0_55. intros H.
  apply Qabs_Qle_condition in H as [H _]. vm_compute in H. now apply H.
Qed.

(* ========================================================================= *)
(** * Further properties of the code *)
(* ========================================================================= *)

(** ** The packed digital state *)

Lemma packBits_bit d :
  Z.testbit (packBits d) 0 = up d /\ Z.testbit (packBits d) 1 = down d /\
  Z.testbit (packBits d) 2 = left d /\ Z.testbit (packBits d) 3 = right d /\
  Z.testbit (packBits d) 4 = b1 d /\ Z.testbit (packBits d) 5 = b2 d.
Proof. destruct d as [[] [] [] [] [] []]; repeat split. Qed.

(** X1. [packBits] puts control [i] in bit [i] (0 = Up .. 5 = B2) and
    sets no other bit: the result lies in [0 .. 63], fits the [uint8_t]
    it is returned in, and two digital states with the same packed value
    are equal. *)
Theorem X1_packBits_bits :
  forall d : Digital6,
    0 <= packBits d < 64
    /\ (Z.testbit (packBits d) 0 = up d /\ Z.testbit (packBits d) 1 = down d /\
        Z.testbit (packBits d) 2 = left d /\ Z.testbit (packBits d) 3 = right d /\
        Z.testbit (packBits d) 4 = b1 d /\ Z.testbit (packBits d) 5 = b2 d)
    /\ (forall i, 6 <= i -> Z.testbit (packBits d) i = false)
    /\ (forall d', packBits d = packBits d' -> d = d').
Proof.
  intros d.
  assert (Hr : 0 <= packBits d < 64)
    by (destruct d as [[] [] [] [] [] []]; vm_compute; split; congruence).
  split; [exact Hr|]. split; [apply packBits_bit|]. split.
  - intros i Hi. destruct (Z.eq_dec (packBits d) 0) as [->|Hnz].
    + apply Z.testbit_0_l.
    + apply Z.bits_above_log2; [lia|].
      assert (Z.log2 (packBits d) < 6) by (apply Z.log2_lt_pow2; lia). lia.
  - intros d' Heq.
    pose proof (packBits_bit d) as (H0 & H1 & H2 & H3 & H4 & H5).
    pose proof (packBits_bit d') as (G0 & G1 & G2 & G3 & G4 & G5).
    rewrite Heq in *. destruct d, d'; simpl in *. congruence.
Qed.

(** X2. Bit [(int)k] of the packed state sampled from a pad is the
    evaluation of the binding in the pad's slot [k]: the six flags of
    [VirtualPad::sample] are the six bindings evaluated in the order of
    [VKey]. *)
Theorem X2_sample_bit_is_binding :
  forall (kd : KeyTable) (g : Glfw) (pad : VirtualPad) (k : VKey.t),
    Z.testbit (packBits (VirtualPad_sample kd g pad)) (VKey.to_int k)
    = sampleBinding kd g (bind pad (VKey.to_int k)).
Proof.
  intros kd g pad k.
  pose proof (packBits_bit (VirtualPad_sample kd g pad))
    as (H0 & H1 & H2 & H3 & H4 & H5).
  destruct k; cbn [VKey.to_int]; assumption.
Qed.

(** ** Bindings that cannot be active *)

(** X3. A binding of any kind other than Key evaluates to false when its
    joystick id lies outside [0 .. GLFW_JOYSTICK_LAST] or names a joystick
    that is not present, whatever the keyboard and the other fields are;
    and a binding whose kind is none of the six enumerators evaluates to
    false against every state. *)
Theorem X3_absent_device_is_inactive :
  forall (kd : KeyTable) (g : Glfw) (b : Binding),
    (type b <> BindType.Key ->
     jid b < GLFW.JOYSTICK_1 \/ jid b > GLFW.JOYSTICK_LAST \/
     glfwJoystickPresent g (jid b) = false ->
     sampleBinding kd g b = false)
    /\ (type b < 0 \/ type b > 5 -> sampleBinding kd g b = false).
Proof.
  intros kd g b. split.
  - intros Hk Hj. unfold sampleBinding.
    destruct (type b =? BindType.None); [reflexivity|].
    destruct (Z.eqb_spec (type b) BindType.Key); [contradiction|].
    destruct (Z.ltb_spec (jid b) GLFW.JOYSTICK_1); [reflexivity|].
    destruct (Z.gtb_spec (jid b) GLFW.JOYSTICK_LAST); [reflexivity|].
    cbn [orb]. destruct Hj as [Hj | [Hj | Hj]]; try lia.
    now rewrite Hj.
  - intros Ht. unfold sampleBinding, BindType.None, BindType.Key,
      BindType.GamepadButton, BindType.GamepadAxisDir, BindType.JoyButton,
      BindType.JoyAxisDir.
    destruct (Z.eqb_spec (type b) 0); [lia|].
    destruct (Z.eqb_spec (type b) 1); [lia|].
    destruct (Z.eqb_spec (type b) 2); [lia|].
    destruct (Z.eqb_spec (type b) 3); [lia|].
    destruct (Z.eqb_spec (type b) 4); [lia|].
    destruct (Z.eqb_spec (type b) 5); [lia|].
    cbn [orb].
    destruct (_ || _); [reflexivity|]. destruct (negb _); reflexivity.
Qed.

Lemma X3_absent_device_is_inactive_witness :
  sampleBinding (fun _ => true) glfw_none
    (mkBinding BindType.JoyButton 0 2 0 f0_45) = false /\
  sampleBinding (fun _ => true) glfw_one_axis
    (mkBinding 9 0 0 1 f0_45) = false.
Proof.
  split.
  - destruct (X3_absent_device_is_inactive (fun _ => true) glfw_none
                (mkBinding BindType.JoyButton 0 2 0 f0_45)) as [H _].
    apply H.
    + intros E. vm_compute in E. discriminate E.
    + right; right; reflexivity.
  - destruct (X3_absent_device_is_inactive (fun _ => true) glfw_one_axis
                (mkBinding 9 0 0 1 f0_45)) as [_ H].
    apply H. right. simpl. lia.
Defined.

Lemma axisDirActive_inert b v :
  dir b = 0 \/ threshold b = S754_nan \/ v = S754_nan ->
  axisDirActive b v = false.
Proof.
  unfold axisDirActive. intros [Hd | [Ht | Hv]].
  - now rewrite Hd.
  - rewrite Ht. destruct (dir b <? 0); [destruct v as [[]|[]| |[] ? ?]; reflexivity|].
    destruct (dir b >? 0); [|reflexivity]. reflexivity.
  - rewrite Hv. destruct (dir b <? 0); [reflexivity|].
    destruct (dir b >? 0); [|reflexivity].
    destruct (threshold b) as [[]|[]| |[] ? ?]; reflexivity.
Qed.

(** X4. An axis binding (gamepad or raw) whose direction is 0, or whose
    threshold is a NaN, is never active: it evaluates to false against
    every keyboard and joystick state.  Such bindings can be loaded from
    a mapping file. *)
Theorem X4_inert_axis_binding :
  forall (kd : KeyTable) (g : Glfw) (b : Binding),
    is_axis b = true ->
    dir b = 0 \/ threshold b = S754_nan ->
    sampleBinding kd g b = false.
Proof.
  intros kd g b Hax Hin.
  assert (Hv : forall v, axisDirActive b v = false).
  { intros v. apply axisDirActive_inert. tauto. }
  unfold is_axis in Hax. unfold sampleBinding.
  destruct (Z.eqb_spec (type b) BindType.GamepadAxisDir) as [Hty|Hty].
  - rewrite Hty. cbn - [axisDirActive].
    repeat match goal with
           | |- context [if ?c then _ else _] => destruct c
           | |- context [match ?c with Some _ => _ | None => _ end] => destruct c
           end; auto.
  - cbn [orb] in Hax. apply Z.eqb_eq in Hax. rewrite Hax. cbn - [axisDirActive].
    repeat match goal with
           | |- context [if ?c then _ else _] => destruct c
           | |- context [match ?c with Some _ => _ | None => _ end] => destruct c
           end; auto.
Qed.

Lemma X4_inert_axis_binding_witness :
  sampleBinding (fun _ => false) glfw_one_axis
    (mkBinding BindType.JoyAxisDir 0 0 0 f0_45) = false.
Proof.
  apply X4_inert_axis_binding; [reflexivity | left; reflexivity].
Defined.

(** ** The keyboard tables *)

Lemma onKey_tables key action s k :
  gKeyDownPrev (onKey key action s) = gKeyDownPrev s /\
  (key <> k \/ (action <> GLFW.PRESS /\ action <> GLFW.RELEASE) ->
   gKeyDown (onKey key action s) k = gKeyDown s k) /\
  (0 <= k <= GLFW.KEY_LAST -> key = k ->
   (action = GLFW.PRESS -> gKeyDown (onKey key action s) k = true) /\
   (action = GLFW.RELEASE -> gKeyDown (onKey key action s) k = false)).
Proof.
  unfold onKey, GLFW.PRESS, GLFW.RELEASE, GLFW.KEY_LAST.
  destruct (Z.geb_spec key 0), (Z.leb_spec key 348),
    (Z.eqb_spec action 1), (Z.eqb_spec action 0),
    (key =? GLFW.KEY_ESCAPE); cbn [andb];
    cbn [gKeyDown gKeyDownPrev with_gKeyDown with_shouldClose];
    unfold upd_key;
    (split; [reflexivity|]);
    (split; [intros [Hne | [Hp Hr]];
             try destruct (Z.eqb_spec k key); try reflexivity; try lia
            | intros Hk <-; rewrite ?Z.eqb_refl; split; intros; try lia;
              try reflexivity]).
Qed.

Lemma pollEvents_app a b s :
  pollEvents (a ++ b) s = pollEvents b (pollEvents a s).
Proof. unfold pollEvents. apply fold_left_app. Qed.

Lemma pollEvents_quiet evs s k :
  quiet_for k evs ->
  gKeyDown (pollEvents evs s) k = gKeyDown s k.
Proof.
  revert s; induction evs as [|ev evs IH]; intros s Hq; [reflexivity|].
  change (pollEvents (ev :: evs) s)
    with (pollEvents evs (onKey (fst ev) (snd ev) s)).
  rewrite IH by (intros e He; apply Hq; now right).
  apply (onKey_tables (fst ev) (snd ev) s k).
  destruct (Z.eq_dec (fst ev) k) as [He|He]; [right|now left].
  apply (Hq ev); [now left|assumption].
Qed.

Lemma pollEvents_gKeyDownPrev evs s :
  gKeyDownPrev (pollEvents evs s) = gKeyDownPrev s.
Proof.
  revert s; induction evs as [|ev evs IH]; intros s; [reflexivity|].
  change (pollEvents (ev :: evs) s)
    with (pollEvents evs (onKey (fst ev) (snd ev) s)).
  rewrite IH. apply (onKey_tables (fst ev) (snd ev) s 0).
Qed.

(** X5. After [glfwPollEvents] a key [k] in [0 .. GLFW_KEY_LAST] is down
    iff the last press-or-release event delivered for it was a press; it
    keeps its state when no such event was delivered (repeat events and
    events of other keys do not count), and the previous-state table is
    not touched.  In particular a press and a release of the same key
    delivered in one poll leave the key up, so that tap makes no edge. *)
Theorem X5_poll_last_event_wins :
  forall (evs : list (Z * Z)) (s : State) (k : Z),
    0 <= k <= GLFW.KEY_LAST ->
    gKeyDownPrev (pollEvents evs s) = gKeyDownPrev s
    /\ (quiet_for k evs -> gKeyDown (pollEvents evs s) k = gKeyDown s k)
    /\ (forall evs1 evs2 a,
          evs = evs1 ++ (k, a) :: evs2 -> quiet_for k evs2 ->
          (a = GLFW.PRESS -> gKeyDown (pollEvents evs s) k = true) /\
          (a = GLFW.RELEASE -> gKeyDown (pollEvents evs s) k = false)).
Proof.
  intros evs s k Hk. split; [apply pollEvents_gKeyDownPrev|].
  split; [apply pollEvents_quiet|].
  intros evs1 evs2 a -> Hq.
  rewrite pollEvents_app.
  change (pollEvents ((k, a) :: evs2) (pollEvents evs1 s))
    with (pollEvents evs2 (onKey k a (pollEvents evs1 s))).
  rewrite pollEvents_quiet by assumption.
  destruct (onKey_tables k a (pollEvents evs1 s) k) as (_ & _ & H).
  now apply H.
Qed.

Lemma X5_poll_last_event_wins_witness :
  gKeyDown (pollEvents [(GLFW.KEY_W, GLFW.PRESS); (GLFW.KEY_A, GLFW.PRESS);
                        (GLFW.KEY_W, GLFW_REPEAT); (GLFW.KEY_W, GLFW.RELEASE)]
              st_space) GLFW.KEY_W = false.
Proof.
  assert (Hk : 0 <= GLFW.KEY_W <= GLFW.KEY_LAST) by (cbv; split; discriminate).
  destruct (X5_poll_last_event_wins
              [(GLFW.KEY_W, GLFW.PRESS); (GLFW.KEY_A, GLFW.PRESS);
               (GLFW.KEY_W, GLFW_REPEAT); (GLFW.KEY_W, GLFW.RELEASE)]
              st_space GLFW.KEY_W Hk) as (_ & _ & H).
  apply (H [(GLFW.KEY_W, GLFW.PRESS); (GLFW.KEY_A, GLFW.PRESS);
            (GLFW.KEY_W, GLFW_REPEAT)] [] GLFW.RELEASE).
  - reflexivity.
  - intros ev [].
  - reflexivity.
Defined.

(** ** What the hotkey handler keeps *)

Lemma when_keeps (P : State -> Prop) c f s :
  (forall x, P x -> P (f x)) -> P s -> P (when c f s).
Proof. intros Hf H. unfold when. destruct c; auto. Qed.

(** A property kept by saving, loading, every selection, arming and
    clearing is kept by [handleHotkeysOnce]. *)
Lemma handleHotkeysOnce_keeps (P : State -> Prop) s :
  (forall x, P x -> P (snd (saveMappings x))) ->
  (forall x, P x -> P (snd (loadMappings x))) ->
  (forall x v, 0 <= v <= 1 -> 0 <= gEditPad x <= 1 -> P x -> P (with_gEditPad x v)) ->
  (forall x v, P x -> P (with_gEditKey x v)) ->
  (forall x, P x -> P (with_gLearning x true)) ->
  (forall x, P x -> P (clearSelected x)) ->
  0 <= gEditPad s <= 1 ->
  P s -> P (handleHotkeysOnce s).
Proof.
  intros Hsave Hload Hpad Hkey Harm Hclear Hsel HP.
  assert (H : (fun x => P x /\ 0 <= gEditPad x <= 1) (handleHotkeysOnce s));
    [|exact (proj1 H)].
  unfold handleHotkeysOnce; cbv zeta.
  repeat (apply when_keeps;
          [ intros x [Hx Hr];
            first
              [ split; [now apply Hclear|exact Hr]
              | split; [now apply Harm|exact Hr]
              | split; [now apply Hkey|exact Hr]
              | split; [apply Hpad; [lia|exact Hr|exact Hx]
                       | cbn [gEditPad with_gEditPad]; lia]
              | split; [now apply Hload
                       | unfold loadMappings;
                         destruct (contents (kMapFile x)); exact Hr]
              | split; [now apply Hsave
                       | unfold saveMappings;
                         destruct (negb (writable (kMapFile x))); exact Hr] ]
          | ]).
  now split.
Qed.

(** A step of the handler whose key has no edge in [s] does nothing; one
    whose key has an edge must keep [R].  All steps see the keyboard
    tables of [s]. *)
Lemma when_edge (R : State -> Prop) s k f x :
  (forall y, gKeyDown y = gKeyDown s /\ gKeyDownPrev y = gKeyDownPrev s ->
             gKeyDown (f y) = gKeyDown s /\ gKeyDownPrev (f y) = gKeyDownPrev s) ->
  (keyPressedEdge s k = true -> forall y, R y -> R (f y)) ->
  (gKeyDown x = gKeyDown s /\ gKeyDownPrev x = gKeyDownPrev s) /\ R x ->
  (gKeyDown (when (keyPressedEdge x k) f x) = gKeyDown s /\
   gKeyDownPrev (when (keyPressedEdge x k) f x) = gKeyDownPrev s) /\
  R (when (keyPressedEdge x k) f x).
Proof.
  intros Hkeys Hstep [[H1 H2] HR].
  assert (He : keyPressedEdge x k = keyPressedEdge s k)
    by (unfold keyPressedEdge; now rewrite H1, H2).
  rewrite He. unfold when. destruct (keyPressedEdge s k); [|now repeat split].
  split; [apply Hkeys; now split | now apply Hstep].
Qed.

Ltac keeps_tables :=
  let y := fresh "y" in
  intros y [? ?];
  unfold saveMappings, loadMappings, clearSelected, clearBinding;
  repeat match goal with
         | |- context [negb (writable ?f)] => destruct (negb (writable f))
         | |- context [contents ?f] => destruct (contents f)
         end;
  cbn [gKeyDown gKeyDownPrev snd with_gPad with_gEditPad with_gEditKey
       with_gLearning with_kMapFile];
  now split.

Lemma handleHotkeysOnce_no_edge s :
  (forall k, keyPressedEdge s k = false) -> handleHotkeysOnce s = s.
Proof.
  intros H.
  assert (G : (gKeyDown (handleHotkeysOnce s) = gKeyDown s /\
               gKeyDownPrev (handleHotkeysOnce s) = gKeyDownPrev s) /\
              handleHotkeysOnce s = s); [|exact (proj2 G)].
  unfold handleHotkeysOnce; cbv zeta.
  repeat (apply (when_edge (fun y => y = s));
          [keeps_tables | intros E; rewrite H in E; discriminate E |]).
  now repeat split.
Qed.

Lemma handleHotkeysOnce_gPad s :
  keyPressedEdge s GLFW.KEY_F9 = false ->
  keyPressedEdge s GLFW.KEY_BACKSPACE = false ->
  gPad (handleHotkeysOnce s) = gPad s.
Proof.
  intros H9 Hb.
  assert (G : (gKeyDown (handleHotkeysOnce s) = gKeyDown s /\
               gKeyDownPrev (handleHotkeysOnce s) = gKeyDownPrev s) /\
              gPad (handleHotkeysOnce s) = gPad s); [|exact (proj2 G)].
  unfold handleHotkeysOnce; cbv zeta.
  repeat (apply (when_edge (fun y => gPad y = gPad s));
          [ keeps_tables
          | intros E y Hy;
            first [ rewrite H9 in E; discriminate E
                  | rewrite Hb in E; discriminate E
                  | unfold saveMappings;
                    destruct (negb (writable (kMapFile y))); exact Hy
                  | exact Hy ]
          | ]).
  now repeat split.
Qed.

(** X6. [handleHotkeysOnce] acts on edges only.  When none of its keys
    has a just-pressed edge it returns the state unchanged, however many
    keys are held; and unless F9 or BACKSPACE has an edge it leaves all
    twelve bindings as they are, and unless F5 has an edge it leaves the
    mapping file as it is. *)
Theorem X6_hotkeys_act_on_edges_only :
  forall s : State,
    ((forall k, keyPressedEdge s k = false) -> handleHotkeysOnce s = s)
    /\ (keyPressedEdge s GLFW.KEY_F9 = false ->
        keyPressedEdge s GLFW.KEY_BACKSPACE = false ->
        gPad (handleHotkeysOnce s) = gPad s)
    /\ (keyPressedEdge s GLFW.KEY_F5 = false ->
        kMapFile (handleHotkeysOnce s) = kMapFile s).
Proof.
  intros s. split; [|split].
  - apply handleHotkeysOnce_no_edge.
  - apply handleHotkeysOnce_gPad.
  - intros H5.
    assert (G : (gKeyDown (handleHotkeysOnce s) = gKeyDown s /\
                 gKeyDownPrev (handleHotkeysOnce s) = gKeyDownPrev s) /\
                kMapFile (handleHotkeysOnce s) = kMapFile s); [|exact (proj2 G)].
    unfold handleHotkeysOnce; cbv zeta.
    repeat (apply (when_edge (fun y => kMapFile y = kMapFile s));
            [ keeps_tables
            | intros E y Hy;
              first [ rewrite H5 in E; discriminate E
                    | unfold loadMappings;
                      destruct (contents (kMapFile y)); exact Hy
                    | exact Hy ]
            | ]).
    now repeat split.
Qed.

Lemma X6_hotkeys_act_on_edges_only_witness :
  gKeyDown (updateKeyPrev (pollEvents [(GLFW.KEY_TAB, GLFW.PRESS)] st_mixed))
    GLFW.KEY_TAB = true /\
  handleHotkeysOnce
    (updateKeyPrev (pollEvents [(GLFW.KEY_TAB, GLFW.PRESS)] st_mixed))
  = updateKeyPrev (pollEvents [(GLFW.KEY_TAB, GLFW.PRESS)] st_mixed).
Proof.
  split; [reflexivity|].
  apply X6_hotkeys_act_on_edges_only.
  intros k. unfold keyPressedEdge, updateKeyPrev.
  cbn [gKeyDown gKeyDownPrev with_gKeyDownPrev].
  destruct (_ || _); [reflexivity|]. apply andb_negb_r.
Defined.

(** ** Edges last one turn of the main loop *)

Lemma keyPressedEdge_eq_tables s k :
  gKeyDownPrev s k = gKeyDown s k -> keyPressedEdge s k = false.
Proof.
  intros H. unfold keyPressedEdge. rewrite H.
  destruct (_ || _); [reflexivity | apply andb_negb_r].
Qed.

Lemma applyLearningIfTriggered_tables s :
  gKeyDown (applyLearningIfTriggered s) = gKeyDown s /\
  gKeyDownPrev (applyLearningIfTriggered s) = gKeyDownPrev s /\
  gJoy (applyLearningIfTriggered s) = gJoy s /\
  gEditPad (applyLearningIfTriggered s) = gEditPad s /\
  gEditKey (applyLearningIfTriggered s) = gEditKey s /\
  shouldClose (applyLearningIfTriggered s) = shouldClose s /\
  kMapFile (applyLearningIfTriggered s) = kMapFile s.
Proof.
  unfold applyLearningIfTriggered, learn.
  destruct (negb (gLearning s)); [now repeat split|].
  destruct (detectAnyKeyPress _ _); [now repeat split|].
  destruct (detectGamepadButtonPress _) as [[? ?]|]; [now repeat split|].
  destruct (detectGamepadAxisMove _) as [[[? ?] ?]|]; [now repeat split|].
  destruct (detectJoyButtonPress _) as [[? ?]|]; [now repeat split|].
  destruct (detectJoyAxisMove _) as [[[? ?] ?]|]; now repeat split.
Qed.

Lemma updateKeyPrev_tables x :
  gKeyDownPrev (updateKeyPrev x) = gKeyDown (updateKeyPrev x).
Proof. reflexivity. Qed.

Lemma frame_tables evs g s :
  gKeyDownPrev (fst (frame evs g s)) = gKeyDown (fst (frame evs g s)).
Proof.
  exact (eq_ind_r (fun y => gKeyDownPrev y = gKeyDown y)
           (updateKeyPrev_tables _) (frame_state evs g s)).
Qed.

Lemma refresh_tables evs g s :
  gKeyDown (refresh evs g s) = gKeyDown (pollEvents evs s) /\
  gKeyDownPrev (refresh evs g s) = gKeyDownPrev s.
Proof.
  unfold refresh. cbn [gKeyDown gKeyDownPrev with_gJoy].
  split; [reflexivity | apply pollEvents_gKeyDownPrev].
Qed.

(** X7. A key edge lasts one turn of the main loop.  After a turn
    ([frame]) a key has no just-pressed edge in the next turn unless a
    press or release event for that key arrives in between: holding the
    key, with or without repeat events, does not trigger a hotkey twice.
    When the next poll brings no press or release at all, the hotkey
    handler changes nothing and the key detector of learning reports no
    key. *)
Theorem X7_key_edge_lasts_one_frame :
  forall (evs evs' : list (Z * Z)) (g g' : Glfw) (s : State),
    (forall k, quiet_for k evs' ->
               keyPressedEdge (refresh evs' g' (fst (frame evs g s))) k = false)
    /\ ((forall k, quiet_for k evs') ->
        handleHotkeysOnce (refresh evs' g' (fst (frame evs g s)))
        = refresh evs' g' (fst (frame evs g s))
        /\ detectAnyKeyPress
             (gKeyDown (refresh evs' g' (fst (frame evs g s))))
             (gKeyDownPrev (refresh evs' g' (fst (frame evs g s)))) = None).
Proof.
  intros evs evs' g g' s.
  pose proof (frame_tables evs g s) as Hf.
  generalize dependent (fst (frame evs g s)). intros x Hf.
  assert (Hedge : forall k, quiet_for k evs' ->
                            keyPressedEdge (refresh evs' g' x) k = false).
  { intros k Hq. apply keyPressedEdge_eq_tables.
    destruct (refresh_tables evs' g' x) as [-> ->].
    rewrite pollEvents_quiet by assumption. now rewrite Hf. }
  split; [exact Hedge|]. intros Hq. split.
  - apply handleHotkeysOnce_no_edge. intros k. now apply Hedge.
  - apply first_from_all_none. intros k Hk.
    destruct (refresh_tables evs' g' x) as [-> ->].
    rewrite pollEvents_quiet by apply Hq. rewrite Hf.
    now rewrite andb_negb_r.
Qed.

Lemma X7_key_edge_lasts_one_frame_witness :
  keyPressedEdge
    (refresh [(GLFW.KEY_SPACE, GLFW_REPEAT)] glfw_none
       (fst (frame [(GLFW.KEY_SPACE, GLFW.PRESS)] glfw_none st_mixed)))
    GLFW.KEY_SPACE = false.
Proof.
  apply X7_key_edge_lasts_one_frame.
  intros ev [<- | []] _. split; discriminate.
Defined.

(** ** The joystick detectors as scans *)

Lemma first_from_ext {A : Type} (f h : Z -> option A) n i :
  (forall j, f j = h j) -> first_from n i f = first_from n i h.
Proof.
  intros H. revert i; induction n as [|n IH]; intros i; cbn [first_from];
    [reflexivity|].
  rewrite H, IH. reflexivity.
Qed.

Section Scan.
Context {A : Type}.
Variable guard : Z -> bool.
Variable cnt : Z -> Z.
Variable edge : Z -> Z -> bool.
Variable result : Z -> Z -> A.

Lemma inner_scan_none j :
  first_from (Z.to_nat (cnt j)) 0
    (fun c => if edge j c then Some (result j c) else None) = None ->
  forall c, 0 <= c < cnt j -> edge j c = false.
Proof.
  intros H c Hc.
  pose proof (first_from_none _ _ _ H c) as Hn. cbv beta in Hn.
  destruct (edge j c); [|reflexivity].
  assert (Some (result j c) = None) by (apply Hn; lia). discriminate.
Qed.

Lemma scan_devices_found r :
  scan_devices guard cnt edge result = Some r ->
  exists j c, first_in_scan guard cnt edge j c /\ r = result j c.
Proof.
  unfold scan_devices. intros H.
  apply first_from_found in H as (j & Hj & Hb & Hlow). cbv beta in Hb, Hlow.
  rewrite count_incl_Z in Hj by (cbv; discriminate).
  unfold GLFW.JOYSTICK_1, GLFW.JOYSTICK_LAST in Hj.
  destruct (guard j) eqn:Hg; [|discriminate].
  apply first_from_found in Hb as (c & Hc & Hb & Hlowc). cbv beta in Hb, Hlowc.
  destruct (edge j c) eqn:He; [|discriminate]. injection Hb as <-.
  exists j, c. split; [|reflexivity].
  unfold first_in_scan, GLFW.JOYSTICK_LAST.
  split; [lia|]. split; [assumption|]. split; [lia|]. split; [assumption|].
  intros j' c' Hj' Hg' Hc' [Hlt | [-> Hlt]].
  - assert (Hn := Hlow j'). rewrite Hg' in Hn.
    apply inner_scan_none; [apply Hn; unfold GLFW.JOYSTICK_1; lia | assumption].
  - assert (Hn := Hlowc c'). destruct (edge j c'); [|reflexivity].
    assert (Some (result j c') = None) by (apply Hn; lia). discriminate.
Qed.

Lemma scan_devices_first j c :
  first_in_scan guard cnt edge j c ->
  scan_devices guard cnt edge result = Some (result j c).
Proof.
  unfold first_in_scan, GLFW.JOYSTICK_LAST.
  intros (Hj & Hg & Hc & He & Hlow). unfold scan_devices.
  apply (first_from_first _ _ _ j).
  - rewrite count_incl_Z by (cbv; discriminate).
    unfold GLFW.JOYSTICK_1, GLFW.JOYSTICK_LAST. lia.
  - rewrite Hg. apply (first_from_first _ _ _ c); [lia | now rewrite He |].
    intros c' Hc'. rewrite (Hlow j c'); [reflexivity|lia|assumption|lia|].
    right; split; [reflexivity|lia].
  - unfold GLFW.JOYSTICK_1. intros j' Hj'.
    destruct (guard j') eqn:Hg'; [|reflexivity].
    apply first_from_all_none. intros c' Hc'.
    rewrite (Hlow j' c'); [reflexivity|lia|assumption|lia|]. left; lia.
Qed.

Lemma scan_devices_none :
  scan_devices guard cnt edge result = None <->
  none_in_scan guard cnt edge.
Proof.
  unfold scan_devices, none_in_scan, GLFW.JOYSTICK_LAST. split.
  - intros H j c Hj Hg Hc.
    pose proof (first_from_none _ _ _ H j) as Hn. cbv beta in Hn.
    rewrite Hg in Hn. apply inner_scan_none; [|assumption].
    apply Hn. rewrite count_incl_Z by (cbv; discriminate).
    unfold GLFW.JOYSTICK_1, GLFW.JOYSTICK_LAST. lia.
  - intros H. apply first_from_all_none. intros j Hj.
    rewrite count_incl_Z in Hj by (cbv; discriminate).
    unfold GLFW.JOYSTICK_1, GLFW.JOYSTICK_LAST in Hj.
    destruct (guard j) eqn:Hg; [|reflexivity].
    apply first_from_all_none. intros c Hc.
    rewrite (H j c); [reflexivity|lia|assumption|lia].
Qed.

Lemma first_in_scan_unique j c j' c' :
  first_in_scan guard cnt edge j c -> first_in_scan guard cnt edge j' c' ->
  j = j' /\ c = c'.
Proof.
  intros (Hj & Hg & Hc & He & Hlow) (Hj' & Hg' & Hc' & He' & Hlow').
  assert (~ (j' < j \/ (j' = j /\ c' < c))).
  { intros Hx. rewrite (Hlow j' c') in He'; [discriminate|assumption..]. }
  assert (~ (j < j' \/ (j = j' /\ c < c'))).
  { intros Hx. rewrite (Hlow' j c) in He; [discriminate|assumption..]. }
  lia.
Qed.

Lemma scan_devices_iff (inj : forall j c j' c', result j c = result j' c' ->
                                                j = j' /\ c = c') j c :
  scan_devices guard cnt edge result = Some (result j c) <->
  first_in_scan guard cnt edge j c.
Proof.
  split; [|apply scan_devices_first].
  intros H. apply scan_devices_found in H as (j' & c' & Hf & Heq).
  apply inj in Heq as [-> ->]. exact Hf.
Qed.
End Scan.

Lemma detectGamepadButtonPress_scan t :
  detectGamepadButtonPress t
  = scan_devices (gp_ready t) (fun _ => GLFW.GAMEPAD_BUTTON_LAST + 1)
      (gp_btn_edge t) pair.
Proof.
  unfold detectGamepadButtonPress, scan_devices. apply first_from_ext.
  intros j. cbv zeta. unfold gp_ready, gamepad_ready.
  destruct (present (t j)), (isGamepad (t j)), (gpHasCur (t j)),
    (gpHasPrev (t j)); reflexivity.
Qed.

Lemma detectGamepadAxisMove_scan t :
  detectGamepadAxisMove t
  = scan_devices (gp_ready t) (fun _ => GLFW.GAMEPAD_AXIS_LAST + 1)
      (gp_axis_edge t)
      (fun j a => (j, a, sign_of (axes (gpCur (t j)) a))).
Proof.
  unfold detectGamepadAxisMove, scan_devices. apply first_from_ext.
  intros j. cbv zeta. unfold gp_ready, gamepad_ready.
  destruct (present (t j)), (isGamepad (t j)), (gpHasCur (t j)),
    (gpHasPrev (t j)); try reflexivity.
  cbn [negb orb andb]. apply first_from_ext. intros a.
  rewrite axisMove_crossed. unfold gp_axis_edge.
  destruct (axis_crossed _ _); reflexivity.
Qed.

Lemma detectJoyButtonPress_scan t :
  detectJoyButtonPress t
  = scan_devices (raw_btn_ready t) (fun j => len (btnCur (t j)))
      (raw_btn_edge t) pair.
Proof.
  unfold detectJoyButtonPress, scan_devices. apply first_from_ext.
  intros j. cbv zeta. unfold raw_btn_ready.
  destruct (present (t j)); [|reflexivity]. cbn [negb andb].
  destruct (len (btnPrev (t j)) =? len (btnCur (t j))); reflexivity.
Qed.

Lemma detectJoyAxisMove_scan t :
  detectJoyAxisMove t
  = scan_devices (raw_axis_ready t) (fun j => len (axisCur (t j)))
      (raw_axis_edge t)
      (fun j a => (j, a, sign_of (at_Z (axisCur (t j)) a f0_0))).
Proof.
  unfold detectJoyAxisMove, scan_devices. apply first_from_ext.
  intros j. cbv zeta. unfold raw_axis_ready.
  destruct (present (t j)); [|reflexivity]. cbn [negb andb].
  destruct (len (axisPrev (t j)) =? len (axisCur (t j))); [|reflexivity].
  cbn [negb]. apply first_from_ext. intros a.
  rewrite axisMove_crossed. unfold raw_axis_edge.
  destruct (axis_crossed _ _); reflexivity.
Qed.

(** X8. The two button detectors report the first just-pressed edge in
    scan order.  [detectGamepadButtonPress] returns [(j, b)] exactly when
    [j] is the lowest device slot, cached as a structured gamepad with a
    previous and a current snapshot, that has a button pressed now and not
    before, and [b] is the lowest such button of [j]; it returns nothing
    exactly when no such device has such a button.  The same holds for
    [detectJoyButtonPress] over the present devices whose previous and
    current raw button arrays have the same length. *)
Theorem X8_button_detectors_first_edge :
  forall t : JoyTable,
    (forall j b,
        detectGamepadButtonPress t = Some (j, b) <->
        first_in_scan (gp_ready t) (fun _ => GLFW.GAMEPAD_BUTTON_LAST + 1)
          (gp_btn_edge t) j b)
    /\ (detectGamepadButtonPress t = None <->
        none_in_scan (gp_ready t) (fun _ => GLFW.GAMEPAD_BUTTON_LAST + 1)
          (gp_btn_edge t))
    /\ (forall j b,
        detectJoyButtonPress t = Some (j, b) <->
        first_in_scan (raw_btn_ready t) (fun j => len (btnCur (t j)))
          (raw_btn_edge t) j b)
    /\ (detectJoyButtonPress t = None <->
        none_in_scan (raw_btn_ready t) (fun j => len (btnCur (t j)))
          (raw_btn_edge t)).
Proof.
  intros t.
  rewrite detectGamepadButtonPress_scan, detectJoyButtonPress_scan.
  assert (inj : forall j c j' c' : Z, (j, c) = (j', c') -> j = j' /\ c = c')
    by (intros j c j' c' H; now injection H).
  split; [intros j b; apply (scan_devices_iff _ _ _ pair inj)|].
  split; [apply scan_devices_none|].
  split; [intros j b; apply (scan_devices_iff _ _ _ pair inj)|].
  apply scan_devices_none.
Qed.

(** X9. [detectJoyAxisMove] reports the first raw axis, in scan order
    (ascending device slot, then ascending axis index, over the present
    devices whose previous and current raw axis arrays have the same
    length), whose previous magnitude was below 0.20 and whose current
    value is beyond 0.55 in either direction, with the sign of the current
    value as direction; it reports nothing exactly when there is no such
    axis.  A reported direction is never 0. *)
Theorem X9_raw_axis_detector_first_move :
  forall t : JoyTable,
    (forall j a d,
        detectJoyAxisMove t = Some (j, a, d) <->
        first_in_scan (raw_axis_ready t) (fun j => len (axisCur (t j)))
          (raw_axis_edge t) j a
        /\ d = sign_of (at_Z (axisCur (t j)) a f0_0))
    /\ (detectJoyAxisMove t = None <->
        none_in_scan (raw_axis_ready t) (fun j => len (axisCur (t j)))
          (raw_axis_edge t))
    /\ (forall j a d, detectJoyAxisMove t = Some (j, a, d) -> d = 1 \/ d = -1).
Proof.
  intros t. rewrite detectJoyAxisMove_scan.
  assert (Hiff : forall j a d,
             scan_devices (raw_axis_ready t) (fun j => len (axisCur (t j)))
               (raw_axis_edge t)
               (fun j a => (j, a, sign_of (at_Z (axisCur (t j)) a f0_0)))
             = Some (j, a, d) <->
             first_in_scan (raw_axis_ready t) (fun j => len (axisCur (t j)))
               (raw_axis_edge t) j a
             /\ d = sign_of (at_Z (axisCur (t j)) a f0_0)).
  { intros j a d. split.
    - intros H. apply scan_devices_found in H as (j' & a' & Hf & Heq).
      injection Heq as -> -> ->. now split.
    - intros [Hf ->].
      exact (scan_devices_first _ _ _
               (fun j a => (j, a, sign_of (at_Z (axisCur (t j)) a f0_0)))
               j a Hf). }
  split; [exact Hiff|]. split; [apply scan_devices_none|].
  intros j a d H. apply Hiff in H as [_ ->]. unfold sign_of.
  destruct (F32.gt _ _); [now left | now right].
Qed.

(** ** Joystick edges last one refresh *)

Lemma F32_lt_neg (a b : F32.float) :
  F32.lt (F32.neg a) (F32.neg b) = F32.lt b a.
Proof.
  unfold F32.lt, F32.neg, SFltb, SFcompare, SFopp.
  change (Pos.compare_cont Eq) with Pos.compare.
  destruct a as [[]|[]| |[] ma ea], b as [[]|[]| |[] mb eb]; try reflexivity;
    cbn [negb]; rewrite (Z.compare_antisym ea eb);
    destruct (ea ?= eb); cbn [CompOpp]; try reflexivity;
    rewrite (Pos.compare_antisym ma mb); destruct (ma ?= mb)%positive;
    reflexivity.
Qed.

(** A value whose magnitude is below 0.20 is not beyond 0.55. *)
Lemma axis_crossed_same v : axis_crossed v v = false.
Proof.
  unfold axis_crossed.
  destruct (F32.lt (F32.fabs v) f0_20) eqn:H1; [|reflexivity].
  cbn [andb].
  assert (H2 : F32.lt f0_55 (F32.fabs v) = false).
  { apply F32_lt_asym.
    apply (F32_lt_le_trans _ f0_20); [assumption|reflexivity]. }
  destruct v as [s|s| |[] m e]; try (destruct s); try reflexivity;
    try discriminate H1.
  - change (S754_finite true m e)
      with (F32.neg (F32.fabs (S754_finite true m e))).
    rewrite F32_lt_neg. unfold F32.gt, F32.lt in *.
    rewrite H2. reflexivity.
  - change (F32.fabs (S754_finite false m e)) with (S754_finite false m e) in H2.
    unfold F32.gt, F32.lt in *. rewrite H2. reflexivity.
Qed.

(** The cache of one device after two refreshes against the same
    joystick state. *)
Lemma updateJoystickCache_twice g j jc :
  let c2 := updateJoystickCache g j (updateJoystickCache g j jc) in
  btnPrev c2 = btnCur c2 /\ axisPrev c2 = axisCur c2 /\
  (gpHasCur c2 = true -> gpPrev c2 = gpCur c2).
Proof.
  unfold updateJoystickCache.
  destruct (negb (glfwJoystickPresent g j)); [now repeat split|].
  cbv zeta.
  cbn [btnPrev btnCur axisPrev axisCur gpPrev gpCur gpHasPrev gpHasCur snd fst].
  split; [reflexivity|]. split; [reflexivity|].
  destruct (glfwJoystickIsGamepad g j); [|discriminate].
  destruct (glfwGetGamepadState g j); [reflexivity|discriminate].
Qed.

(** The cache of one device after a refresh, when its raw arrays were
    empty and it had no gamepad snapshot before. *)
Lemma updateJoystickCache_fresh g j jc :
  btnCur jc = [] -> axisCur jc = [] -> gpHasCur jc = false ->
  let c := updateJoystickCache g j jc in
  btnPrev c = [] /\ axisPrev c = [] /\ gpHasPrev c = false.
Proof.
  intros Hb Ha Hg. unfold updateJoystickCache.
  destruct (negb (glfwJoystickPresent g j)); [now repeat split|].
  cbv zeta. cbn [btnPrev axisPrev gpHasPrev]. now repeat split.
Qed.

Lemma len_nil_iff {A : Type} (l : list A) : len l = 0 <-> l = [].
Proof.
  unfold len. destruct l; cbn [List.length]; split;
    try reflexivity; try discriminate; lia.
Qed.

(** A device with empty previous arrays and no previous snapshot passes no
    guard with a non-empty scan range. *)
Lemma fresh_device_silent t j :
  btnPrev (t j) = [] -> axisPrev (t j) = [] -> gpHasPrev (t j) = false ->
  gp_ready t j = false
  /\ (raw_btn_ready t j = true -> len (btnCur (t j)) = 0)
  /\ (raw_axis_ready t j = true -> len (axisCur (t j)) = 0).
Proof.
  intros Hb Ha Hg. unfold gp_ready, gamepad_ready, raw_btn_ready, raw_axis_ready.
  rewrite Hb, Ha, Hg. split; [apply andb_false_r|].
  change (len (@nil Z)) with 0. change (len (@nil F32.float)) with 0.
  split; intros H; apply andb_prop in H as [_ H];
    apply Z.eqb_eq in H; now rewrite <- H.
Qed.

Lemma fresh_device_not_reported t j :
  btnPrev (t j) = [] -> axisPrev (t j) = [] -> gpHasPrev (t j) = false ->
  (forall b, detectGamepadButtonPress t <> Some (j, b))
  /\ (forall a d, detectGamepadAxisMove t <> Some (j, a, d))
  /\ (forall b, detectJoyButtonPress t <> Some (j, b))
  /\ (forall a d, detectJoyAxisMove t <> Some (j, a, d)).
Proof.
  intros Hb Ha Hg.
  destruct (fresh_device_silent t j Hb Ha Hg) as (Hgp & Hrb & Hra).
  split; [|split; [|split]].
  - intros b H. rewrite detectGamepadButtonPress_scan in H.
    apply scan_devices_found in H as (j' & b' & (_ & Hr & _) & Heq).
    injection Heq as -> ->. congruence.
  - intros a d H. rewrite detectGamepadAxisMove_scan in H.
    apply scan_devices_found in H as (j' & a' & (_ & Hr & _) & Heq).
    injection Heq as -> -> _. congruence.
  - intros b H. rewrite detectJoyButtonPress_scan in H.
    apply scan_devices_found in H as (j' & b' & (_ & Hr & Hc & _) & Heq).
    injection Heq as -> ->. apply Hrb in Hr. lia.
  - intros a d H. rewrite detectJoyAxisMove_scan in H.
    apply scan_devices_found in H as (j' & a' & (_ & Hr & Hc & _) & Heq).
    injection Heq as -> -> _. apply Hra in Hr. lia.
Qed.

(** X10. An edge of a joystick is reported for one refresh only.  After
    two successive refreshes against the same joystick state (buttons and
    axes held as they are), none of the four joystick detectors reports
    anything, whatever the cache held before: a held button or a held
    stick teaches at most one binding. *)
Theorem X10_steady_joysticks_report_nothing :
  forall (g : Glfw) (t : JoyTable),
    detectGamepadButtonPress
      (updateJoystickCaches g (updateJoystickCaches g t)) = None
    /\ detectGamepadAxisMove
         (updateJoystickCaches g (updateJoystickCaches g t)) = None
    /\ detectJoyButtonPress
         (updateJoystickCaches g (updateJoystickCaches g t)) = None
    /\ detectJoyAxisMove
         (updateJoystickCaches g (updateJoystickCaches g t)) = None.
Proof.
  intros g t.
  assert (Hc : forall j, 0 <= j <= GLFW.JOYSTICK_LAST ->
             btnPrev (updateJoystickCaches g (updateJoystickCaches g t) j)
             = btnCur (updateJoystickCaches g (updateJoystickCaches g t) j)
             /\ axisPrev (updateJoystickCaches g (updateJoystickCaches g t) j)
                = axisCur (updateJoystickCaches g (updateJoystickCaches g t) j)
             /\ (gpHasCur (updateJoystickCaches g (updateJoystickCaches g t) j)
                 = true ->
                 gpPrev (updateJoystickCaches g (updateJoystickCaches g t) j)
                 = gpCur (updateJoystickCaches g (updateJoystickCaches g t) j))).
  { intros j Hj. rewrite !updateJoystickCaches_at by assumption.
    apply updateJoystickCache_twice. }
  generalize dependent (updateJoystickCaches g (updateJoystickCaches g t)).
  intros t2 Hc.
  rewrite detectGamepadButtonPress_scan, detectGamepadAxisMove_scan,
    detectJoyButtonPress_scan, detectJoyAxisMove_scan.
  split; [|split; [|split]]; apply scan_devices_none; intros j c Hj Hg _;
    destruct (Hc j Hj) as (Hb & Ha & Hgp).
  - unfold gp_ready, gamepad_ready in Hg. unfold gp_btn_edge, gp_button_edge.
    destruct (gpHasCur (t2 j));
      [|rewrite andb_false_r in Hg; discriminate].
    rewrite Hgp by reflexivity. apply andb_negb_r.
  - unfold gp_ready, gamepad_ready in Hg. unfold gp_axis_edge.
    destruct (gpHasCur (t2 j));
      [|rewrite andb_false_r in Hg; discriminate].
    rewrite Hgp by reflexivity. apply axis_crossed_same.
  - unfold raw_btn_edge. rewrite Hb. apply andb_negb_r.
  - unfold raw_axis_edge. rewrite Ha. apply axis_crossed_same.
Qed.

(** X11. A device gives no edge in the refresh in which it appears.  If
    joystick [j] was absent at one refresh, no joystick detector reports
    [j] after the next refresh, whatever buttons or axes it then shows;
    and after the first refresh of the program no joystick detector
    reports anything at all. *)
Theorem X11_new_device_reports_nothing :
  forall (g0 g : Glfw) (t : JoyTable) (j : Z),
    0 <= j <= GLFW.JOYSTICK_LAST ->
    glfwJoystickPresent g0 j = false ->
    ((forall b, detectGamepadButtonPress
                  (updateJoystickCaches g (updateJoystickCaches g0 t))
                <> Some (j, b))
     /\ (forall a d, detectGamepadAxisMove
                       (updateJoystickCaches g (updateJoystickCaches g0 t))
                     <> Some (j, a, d))
     /\ (forall b, detectJoyButtonPress
                     (updateJoystickCaches g (updateJoystickCaches g0 t))
                   <> Some (j, b))
     /\ (forall a d, detectJoyAxisMove
                       (updateJoystickCaches g (updateJoystickCaches g0 t))
                     <> Some (j, a, d)))
    /\ detectGamepadButtonPress
         (updateJoystickCaches g (fun _ => JoyCache_init)) = None
    /\ detectGamepadAxisMove
         (updateJoystickCaches g (fun _ => JoyCache_init)) = None
    /\ detectJoyButtonPress
         (updateJoystickCaches g (fun _ => JoyCache_init)) = None
    /\ detectJoyAxisMove
         (updateJoystickCaches g (fun _ => JoyCache_init)) = None.
Proof.
  intros g0 g t j Hj Habs. split.
  - assert (H : btnPrev (updateJoystickCaches g (updateJoystickCaches g0 t) j) = []
             /\ axisPrev (updateJoystickCaches g (updateJoystickCaches g0 t) j) = []
             /\ gpHasPrev (updateJoystickCaches g (updateJoystickCaches g0 t) j)
                = false).
    { rewrite (updateJoystickCaches_at g) by assumption.
      apply updateJoystickCache_fresh;
        rewrite updateJoystickCaches_at by assumption;
        unfold updateJoystickCache; now rewrite Habs. }
    destruct H as (Hb & Ha & Hg).
    now apply fresh_device_not_reported.
  - assert (H : forall i, 0 <= i <= GLFW.JOYSTICK_LAST ->
               btnPrev (updateJoystickCaches g (fun _ => JoyCache_init) i) = []
               /\ axisPrev (updateJoystickCaches g (fun _ => JoyCache_init) i) = []
               /\ gpHasPrev (updateJoystickCaches g (fun _ => JoyCache_init) i)
                  = false).
    { intros i Hi. rewrite updateJoystickCaches_at by assumption.
      now apply updateJoystickCache_fresh. }
    generalize dependent (updateJoystickCaches g (fun _ => JoyCache_init)).
    intros t1 H.
    rewrite detectGamepadButtonPress_scan, detectGamepadAxisMove_scan,
      detectJoyButtonPress_scan, detectJoyAxisMove_scan.
    split; [|split; [|split]]; apply scan_devices_none; intros i c Hi Hg Hc;
      destruct (H i Hi) as (Hb & Ha & Hp);
      destruct (fresh_device_silent t1 i Hb Ha Hp) as (Hgp & Hrb & Hra).
    + congruence.
    + congruence.
    + apply Hrb in Hg. lia.
    + apply Hra in Hg. lia.
Qed.

Lemma X11_new_device_reports_nothing_witness :
  glfwJoystickPresent glfw_none 0 = false /\
  glfwJoystickPresent glfw_one_axis 0 = true /\
  forall a d,
    detectJoyAxisMove
      (updateJoystickCaches glfw_one_axis
         (updateJoystickCaches glfw_none joy_raw0)) <> Some (0, a, d).
Proof.
  split; [reflexivity|]. split; [reflexivity|].
  assert (Hj : 0 <= 0 <= GLFW.JOYSTICK_LAST) by (cbv; split; discriminate).
  destruct (X11_new_device_reports_nothing glfw_none glfw_one_axis joy_raw0 0
              Hj eq_refl) as ((_ & _ & _ & H) & _).
  exact H.
Defined.

(** ** A learnt binding in the turn that learnt it *)

Lemma updateJoystickCache_present g j jc :
  present (updateJoystickCache g j jc) = true ->
  glfwJoystickPresent g j = true
  /\ btnCur (updateJoystickCache g j jc)
     = match glfwGetJoystickButtons g j with Some l => l | None => [] end
  /\ axisCur (updateJoystickCache g j jc)
     = match glfwGetJoystickAxes g j with Some l => l | None => [] end
  /\ (isGamepad (updateJoystickCache g j jc) = true ->
      gpHasCur (updateJoystickCache g j jc) = true ->
      glfwJoystickIsGamepad g j = true
      /\ glfwGetGamepadState g j = Some (gpCur (updateJoystickCache g j jc))).
Proof.
  unfold updateJoystickCache.
  destruct (glfwJoystickPresent g j); cbn [negb]; [|discriminate].
  cbv zeta. cbn [present btnCur axisCur isGamepad gpHasCur gpCur].
  intros _. split; [reflexivity|]. split; [reflexivity|].
  split; [reflexivity|].
  destruct (glfwJoystickIsGamepad g j); [|discriminate]. intros _.
  destruct (glfwGetGamepadState g j); [|discriminate]. now split.
Qed.

Lemma axis_learnt_active ty j a p v :
  axis_crossed p v = true ->
  axisDirActive (mkBinding ty j a (sign_of v) f0_45) v = true.
Proof.
  unfold axis_crossed, axisDirActive, sign_of. cbn [dir threshold].
  intros H. apply andb_prop in H as [_ H].
  destruct (F32.gt v f0_55) eqn:Hgt.
  - rewrite (F32_gt_055_positive _ Hgt). cbn.
    unfold F32.gt in *.
    apply (F32_le_lt_trans f0_45 f0_55 v); [reflexivity|assumption].
  - cbn [orb] in H. rewrite (F32_lt_m055_not_positive _ H). cbn.
    apply (F32_lt_le_trans v (F32.neg f0_55)); [assumption|reflexivity].
Qed.

Lemma in_range_tests lo hi c :
  lo <= c <= hi -> (c <? lo) || (c >? hi) = false.
Proof.
  intros H. destruct (Z.ltb_spec c lo), (Z.gtb_spec c hi);
    try reflexivity; lia.
Qed.

Lemma in_len_tests {A : Type} (l : list A) c :
  0 <= c < len l -> (c <? 0) || (c >=? len l) = false.
Proof.
  intros H. destruct (Z.ltb_spec c 0), (Z.geb_spec c (len l));
    try reflexivity; lia.
Qed.

Lemma selected_learn s b :
  0 <= gEditPad s <= 1 -> selected (learn s b) = b.
Proof. intros Hp. apply (learn_result s b Hp). Qed.

(** What [applyLearningIfTriggered] learns from a cache that was refreshed
    against [g] is active against [g]. *)
Lemma learnt_is_active g t s :
  gJoy s = updateJoystickCaches g t ->
  0 <= gEditPad s <= 1 ->
  gLearning s = true ->
  gLearning (applyLearningIfTriggered s) = false ->
  sampleBinding (gKeyDown (applyLearningIfTriggered s)) g
    (selected (applyLearningIfTriggered s)) = true.
Proof.
  intros Hjoy Hp Harm. unfold applyLearningIfTriggered. rewrite Harm.
  cbn [negb dir threshold Binding_default].
  assert (Hcache : forall j, 0 <= j <= GLFW.JOYSTICK_LAST ->
                     gJoy s j = updateJoystickCache g j (t j)).
  { intros j Hj. rewrite Hjoy. now apply updateJoystickCaches_at. }
  destruct (detectAnyKeyPress _ _) as [key|] eqn:Hk.
  { intros _. rewrite selected_learn by assumption.
    apply detectAnyKeyPress_lowest in Hk as (Hr & He & _).
    unfold key_edge in He. apply andb_prop in He as [He _].
    unfold sampleBinding. cbn [type code]. cbn.
    rewrite in_range_tests by assumption. exact He. }
  destruct (detectGamepadButtonPress _) as [[j b]|] eqn:Hb.
  { intros _. rewrite selected_learn by assumption.
    rewrite detectGamepadButtonPress_scan in Hb.
    apply scan_devices_found in Hb as (j' & b' & (Hj & Hr & Hc & He & _) & Heq).
    injection Heq as -> ->.
    unfold gp_ready, gamepad_ready in Hr. unfold gp_btn_edge, gp_button_edge in He.
    rewrite (Hcache j' Hj) in Hr, He.
    apply andb_prop in Hr as [Hr _]. apply andb_prop in Hr as [Hr Hcur].
    apply andb_prop in Hr as [Hpres Hgp].
    destruct (updateJoystickCache_present g j' (t j') Hpres)
      as (Hq & _ & _ & Hst).
    destruct (Hst Hgp Hcur) as (Hig & Hget).
    apply andb_prop in He as [He _].
    unfold sampleBinding. cbn [type jid code]. cbn.
    rewrite (in_range_tests GLFW.JOYSTICK_1 GLFW.JOYSTICK_LAST j') by exact Hj.
    rewrite Hq, Hig, Hget. cbn [negb].
    rewrite in_range_tests by (unfold GLFW.GAMEPAD_BUTTON_LAST in *; lia).
    exact He. }
  destruct (detectGamepadAxisMove _) as [[[j a] d]|] eqn:Ha.
  { intros _. rewrite selected_learn by assumption.
    rewrite detectGamepadAxisMove_scan in Ha.
    apply scan_devices_found in Ha as (j' & a' & (Hj & Hr & Hc & He & _) & Heq).
    injection Heq as -> -> ->.
    unfold gp_ready, gamepad_ready in Hr. unfold gp_axis_edge in He.
    rewrite (Hcache j' Hj) in Hr, He. rewrite (Hcache j' Hj).
    apply andb_prop in Hr as [Hr _]. apply andb_prop in Hr as [Hr Hcur].
    apply andb_prop in Hr as [Hpres Hgp].
    destruct (updateJoystickCache_present g j' (t j') Hpres)
      as (Hq & _ & _ & Hst).
    destruct (Hst Hgp Hcur) as (Hig & Hget).
    unfold sampleBinding. cbn [type jid code]. cbn.
    rewrite (in_range_tests GLFW.JOYSTICK_1 GLFW.JOYSTICK_LAST j') by exact Hj.
    rewrite Hq, Hig, Hget. cbn [negb].
    rewrite in_range_tests by (unfold GLFW.GAMEPAD_AXIS_LAST in *; lia).
    exact (axis_learnt_active _ _ _ _ _ He). }
  destruct (detectJoyButtonPress _) as [[j b]|] eqn:Hrb.
  { intros _. rewrite selected_learn by assumption.
    rewrite detectJoyButtonPress_scan in Hrb.
    apply scan_devices_found in Hrb as (j' & b' & (Hj & Hr & Hc & He & _) & Heq).
    injection Heq as -> ->.
    unfold raw_btn_ready in Hr. unfold raw_btn_edge in He.
    rewrite (Hcache j' Hj) in Hr, He, Hc.
    apply andb_prop in Hr as [Hpres _].
    destruct (updateJoystickCache_present g j' (t j') Hpres)
      as (Hq & Hbtn & _ & _).
    rewrite Hbtn in He, Hc.
    apply andb_prop in He as [He _].
    unfold sampleBinding. cbn [type jid code]. cbn.
    rewrite (in_range_tests GLFW.JOYSTICK_1 GLFW.JOYSTICK_LAST j') by exact Hj.
    rewrite Hq. cbn [negb].
    destruct (glfwGetJoystickButtons g j') as [l|];
      [|change (len (@nil Z)) with 0 in Hc; lia].
    rewrite in_len_tests by assumption. exact He. }
  destruct (detectJoyAxisMove _) as [[[j a] d]|] eqn:Hra.
  { intros _. rewrite selected_learn by assumption.
    rewrite detectJoyAxisMove_scan in Hra.
    apply scan_devices_found in Hra as (j' & a' & (Hj & Hr & Hc & He & _) & Heq).
    injection Heq as -> -> ->.
    unfold raw_axis_ready in Hr. unfold raw_axis_edge in He.
    rewrite (Hcache j' Hj) in Hr, He, Hc. rewrite (Hcache j' Hj).
    apply andb_prop in Hr as [Hpres _].
    destruct (updateJoystickCache_present g j' (t j') Hpres)
      as (Hq & _ & Hax & _).
    rewrite Hax in He, Hc. rewrite Hax.
    unfold sampleBinding. cbn [type jid code]. cbn.
    rewrite (in_range_tests GLFW.JOYSTICK_1 GLFW.JOYSTICK_LAST j') by exact Hj.
    rewrite Hq. cbn [negb].
    destruct (glfwGetJoystickAxes g j') as [l|];
      [|change (len (@nil F32.float)) with 0 in Hc; lia].
    rewrite in_len_tests by assumption.
    exact (axis_learnt_active _ _ _ _ _ He). }
  intros H. congruence.
Qed.

Lemma frame_sampled evs g s :
  snd (frame evs g s)
  = (VirtualPad_sample
       (gKeyDown (applyLearningIfTriggered (handleHotkeysOnce (refresh evs g s))))
       g
       (pad_at (gPad (applyLearningIfTriggered
                        (handleHotkeysOnce (refresh evs g s)))) 0),
     VirtualPad_sample
       (gKeyDown (applyLearningIfTriggered (handleHotkeysOnce (refresh evs g s))))
       g
       (pad_at (gPad (applyLearningIfTriggered
                        (handleHotkeysOnce (refresh evs g s)))) 1)).
Proof. reflexivity. Qed.

Lemma control_sample kd g pad k :
  control (VirtualPad_sample kd g pad) k
  = sampleBinding kd g (bind pad (VKey.to_int k)).
Proof. destruct k; reflexivity. Qed.

Lemma refresh_gJoy evs g s :
  gJoy (refresh evs g s) = updateJoystickCaches g (gJoy (pollEvents evs s)).
Proof. reflexivity. Qed.

(** The control selected in [x], as sampled from the pads of [x]. *)
Lemma sampled_selected kd g x :
  0 <= gEditPad x <= 1 ->
  control
    (sampled_pad (VirtualPad_sample kd g (pad_at (gPad x) 0),
                  VirtualPad_sample kd g (pad_at (gPad x) 1)) (gEditPad x))
    (gEditKey x)
  = sampleBinding kd g (selected x).
Proof.
  intros Hp. unfold sampled_pad, selected, slot. cbn [fst snd].
  assert (Hc : gEditPad x = 0 \/ gEditPad x = 1) by lia.
  destruct Hc as [-> | ->]; apply control_sample.
Qed.

(** X12. The turn of the main loop that learns a binding shows the
    learnt control as pressed.  If learning is armed when the hotkey
    handler returns and disarmed at the end of the turn (a detector
    reported), then in the pad states sampled in that same turn the
    selected control of the selected pad is on: what was pressed or moved
    to teach the binding also activates it, for a key, a gamepad button,
    a gamepad axis, a raw button and a raw axis alike.  The joystick state
    [g] is the same at the cache refresh and at the sampling of the
    turn. *)
Theorem X12_learnt_control_reads_pressed :
  forall (evs : list (Z * Z)) (g : Glfw) (s : State),
    0 <= gEditPad s <= 1 ->
    gLearning (handleHotkeysOnce (refresh evs g s)) = true ->
    gLearning (fst (frame evs g s)) = false ->
    control
      (sampled_pad (snd (frame evs g s)) (gEditPad (fst (frame evs g s))))
      (gEditKey (fst (frame evs g s))) = true.
Proof.
  intros evs g s Hp Harm Hdone.
  rewrite frame_sampled. rewrite frame_state in *.
  pose proof (handleHotkeysOnce_same_input (refresh evs g s))
    as (_ & _ & Hjoy & Hsel).
  rewrite refresh_gJoy in Hjoy.
  specialize (Hsel (eq_ind_r (fun v => 0 <= v <= 1) Hp (refresh_gEditPad evs g s))).
  generalize dependent (handleHotkeysOnce (refresh evs g s)). intros x Harm Hdone Hjoy Hsel.
  destruct (applyLearningIfTriggered_tables x) as (_ & _ & _ & Hpad & Hkey & _).
  pose proof (learnt_is_active g _ x Hjoy Hsel Harm Hdone) as Hact.
  generalize dependent (applyLearningIfTriggered x). intros y _ Hpad Hkey Hact.
  change (gEditPad (updateKeyPrev y)) with (gEditPad y).
  change (gEditKey (updateKeyPrev y)) with (gEditKey y).
  rewrite sampled_selected by (rewrite Hpad; exact Hsel).
  exact Hact.
Qed.

Lemma X12_learnt_control_reads_pressed_witness :
  selected (fst (frame [] glfw_one_axis st_armed_raw_axis))
  = mkBinding BindType.JoyAxisDir 0 0 1 f0_45 /\
  left (fst (snd (frame [] glfw_one_axis st_armed_raw_axis))) = true.
Proof.
  split; [vm_compute; reflexivity|].
  apply (X12_learnt_control_reads_pressed [] glfw_one_axis st_armed_raw_axis).
  - cbn; lia.
  - vm_compute; reflexivity.
  - vm_compute; reflexivity.
Defined.

(** ** What the learning engine writes *)

Lemma applyLearningIfTriggered_not_armed s :
  gLearning s = false -> applyLearningIfTriggered s = s.
Proof. intros H. unfold applyLearningIfTriggered. now rewrite H. Qed.

Lemma applyLearningIfTriggered_cases s :
  applyLearningIfTriggered s = s
  \/ (gLearning s = true /\
      exists b, applyLearningIfTriggered s = learn s b
                /\ type b <> BindType.None).
Proof.
  unfold applyLearningIfTriggered.
  destruct (gLearning s); cbn [negb]; [|now left].
  destruct (detectAnyKeyPress _ _);
    [right; split; [reflexivity|]; eexists; split; [reflexivity|discriminate]|].
  destruct (detectGamepadButtonPress _) as [[? ?]|];
    [right; split; [reflexivity|]; eexists; split; [reflexivity|discriminate]|].
  destruct (detectGamepadAxisMove _) as [[[? ?] ?]|];
    [right; split; [reflexivity|]; eexists; split; [reflexivity|discriminate]|].
  destruct (detectJoyButtonPress _) as [[? ?]|];
    [right; split; [reflexivity|]; eexists; split; [reflexivity|discriminate]|].
  destruct (detectJoyAxisMove _) as [[[? ?] ?]|];
    [right; split; [reflexivity|]; eexists; split; [reflexivity|discriminate]|].
  now left.
Qed.

(** X13. [applyLearningIfTriggered] writes at most the selected slot and
    the armed flag.  Every other slot of both pads, the keyboard tables,
    the joystick cache, the selection, the close request and the mapping
    file are as before.  When learning is not armed it changes nothing;
    when it is still armed afterwards it has changed nothing; when it has
    disarmed, the selected slot holds a binding of a kind other than None.
    A second call right after the first changes nothing. *)
Theorem X13_learning_writes_selected_slot_only :
  forall s : State,
    (gLearning s = false -> applyLearningIfTriggered s = s)
    /\ (gLearning (applyLearningIfTriggered s) = true ->
        applyLearningIfTriggered s = s)
    /\ (forall p k, slot_index p k ->
          (p, k) <> (gEditPad s, VKey.to_int (gEditKey s)) ->
          slot (gPad (applyLearningIfTriggered s)) p k = slot (gPad s) p k)
    /\ (0 <= gEditPad s <= 1 -> gLearning s = true ->
        gLearning (applyLearningIfTriggered s) = false ->
        type (selected (applyLearningIfTriggered s)) <> BindType.None)
    /\ applyLearningIfTriggered (applyLearningIfTriggered s)
       = applyLearningIfTriggered s
    /\ (gKeyDown (applyLearningIfTriggered s) = gKeyDown s /\
        gKeyDownPrev (applyLearningIfTriggered s) = gKeyDownPrev s /\
        gJoy (applyLearningIfTriggered s) = gJoy s /\
        gEditPad (applyLearningIfTriggered s) = gEditPad s /\
        gEditKey (applyLearningIfTriggered s) = gEditKey s /\
        shouldClose (applyLearningIfTriggered s) = shouldClose s /\
        kMapFile (applyLearningIfTriggered s) = kMapFile s).
Proof.
  intros s.
  split; [apply applyLearningIfTriggered_not_armed|].
  split.
  { intros H. destruct (applyLearningIfTriggered_cases s)
      as [E | (_ & b & E & _)]; [exact E|].
    rewrite E in H. discriminate H. }
  split.
  { intros p k [Hp Hk] Hne.
    destruct (applyLearningIfTriggered_cases s) as [E | (_ & b & E & _)];
      rewrite E; [reflexivity|].
    unfold learn. cbn [gPad with_gPad with_gLearning].
    now apply slot_set_slot_other. }
  split.
  { intros Hp Harm Hdone.
    destruct (applyLearningIfTriggered_cases s) as [E | (_ & b & E & Hb)].
    - rewrite E in Hdone. congruence.
    - rewrite E, selected_learn by assumption. exact Hb. }
  split.
  { destruct (applyLearningIfTriggered_cases s) as [E | (_ & b & E & _)].
    - now rewrite !E.
    - rewrite E. now apply applyLearningIfTriggered_not_armed. }
  apply applyLearningIfTriggered_tables.
Qed.

(** ** The selection and the close request *)

Lemma onKey_shouldClose key action s :
  (shouldClose s = true -> shouldClose (onKey key action s) = true)
  /\ (key = GLFW.KEY_ESCAPE -> action = GLFW.PRESS ->
      shouldClose (onKey key action s) = true).
Proof.
  unfold onKey. split.
  - intros H.
    destruct ((key >=? 0) && (key <=? GLFW.KEY_LAST)), (action =? GLFW.PRESS),
      (action =? GLFW.RELEASE), (key =? GLFW.KEY_ESCAPE); cbn [andb];
      cbn [shouldClose with_shouldClose with_gKeyDown]; try reflexivity;
      exact H.
  - intros -> ->. rewrite !Z.eqb_refl. reflexivity.
Qed.

Lemma pollEvents_shouldClose evs s :
  (shouldClose s = true -> shouldClose (pollEvents evs s) = true)
  /\ (In (GLFW.KEY_ESCAPE, GLFW.PRESS) evs ->
      shouldClose (pollEvents evs s) = true).
Proof.
  revert s; induction evs as [|ev evs IH]; intros s.
  - split; [trivial | intros []].
  - change (pollEvents (ev :: evs) s)
      with (pollEvents evs (onKey (fst ev) (snd ev) s)).
    destruct (IH (onKey (fst ev) (snd ev) s)) as [IH1 IH2].
    destruct (onKey_shouldClose (fst ev) (snd ev) s) as [H1 H2].
    split.
    + intros H. apply IH1, H1, H.
    + intros [-> | Hin]; [apply IH1, H2; reflexivity | now apply IH2].
Qed.

Lemma run_app ops ops' s : run (ops ++ ops') s = run ops' (run ops s).
Proof. unfold run. apply fold_left_app. Qed.

Lemma run_op_selection o s :
  0 <= gEditPad s <= 1 -> 0 <= gEditPad (run_op o s) <= 1.
Proof.
  intros Hp. destruct o; cbn [run_op]; try exact Hp.
  - now rewrite pollEvents_gEditPad.
  - now apply (handleHotkeysOnce_same_input s).
  - destruct (applyLearningIfTriggered_tables s) as (_ & _ & _ & -> & _).
    exact Hp.
  - unfold saveMappings. destruct (negb (writable (kMapFile s))); exact Hp.
  - unfold loadMappings. destruct (contents (kMapFile s)); exact Hp.
Qed.

Lemma run_op_shouldClose o s :
  0 <= gEditPad s <= 1 ->
  shouldClose s = true -> shouldClose (run_op o s) = true.
Proof.
  intros Hp H. destruct o; cbn [run_op]; try exact H.
  - exact (proj1 (pollEvents_shouldClose evs s) H).
  - apply (handleHotkeysOnce_keeps (fun x => shouldClose x = true));
      try assumption; try (intros; assumption).
    + intros x Hx. unfold saveMappings.
      destruct (negb (writable (kMapFile x))); exact Hx.
    + intros x Hx. unfold loadMappings.
      destruct (contents (kMapFile x)); exact Hx.
  - destruct (applyLearningIfTriggered_tables s)
      as (_ & _ & _ & _ & _ & -> & _). exact H.
  - unfold saveMappings. destruct (negb (writable (kMapFile s))); exact H.
  - unfold loadMappings. destruct (contents (kMapFile s)); exact H.
Qed.

Lemma run_selection_close ops s :
  0 <= gEditPad s <= 1 ->
  0 <= gEditPad (run ops s) <= 1
  /\ (shouldClose s = true -> shouldClose (run ops s) = true).
Proof.
  unfold run. revert s; induction ops as [|o ops IH]; intros s Hp;
    [now split|].
  cbn [fold_left].
  destruct (IH (run_op o s) (run_op_selection o s Hp)) as [IH1 IH2].
  split; [exact IH1|]. intros H. apply IH2. now apply run_op_shouldClose.
Qed.

(** X14. Across any sequence of operations of the program the selected
    pad stays 0 or 1, so [gPad[gEditPad]] is always in bounds, and a close
    request is never withdrawn: once the key callback has seen a press of
    ESCAPE, the close flag is set whatever runs afterwards. *)
Theorem X14_selection_in_bounds_and_close_kept :
  forall (ops : list Op) (s : State),
    0 <= gEditPad s <= 1 ->
    0 <= gEditPad (run ops s) <= 1
    /\ (shouldClose s = true -> shouldClose (run ops s) = true)
    /\ (forall evs ops',
          In (GLFW.KEY_ESCAPE, GLFW.PRESS) evs ->
          shouldClose (run (ops ++ OpPoll evs :: ops') s) = true).
Proof.
  intros ops s Hp.
  destruct (run_selection_close ops s Hp) as [Hsel Hclose].
  split; [exact Hsel|]. split; [exact Hclose|].
  intros evs ops' Hin. rewrite run_app.
  change (run (OpPoll evs :: ops') (run ops s))
    with (run ops' (pollEvents evs (run ops s))).
  refine (proj2 (run_selection_close ops' _ _) _).
  - now rewrite pollEvents_gEditPad.
  - exact (proj2 (pollEvents_shouldClose evs _) Hin).
Qed.

Lemma X14_selection_in_bounds_and_close_kept_witness :
  shouldClose st_space = false /\
  shouldClose
    (run ([OpHotkeys] ++
          OpPoll [(GLFW.KEY_TAB, GLFW.PRESS); (GLFW.KEY_ESCAPE, GLFW.PRESS)]
          :: [OpCaches glfw_none; OpHotkeys; OpLearn; OpKeyPrev])
       st_space) = true.
Proof.
  split; [reflexivity|].
  assert (Hp : 0 <= gEditPad st_space <= 1) by (cbn; lia).
  destruct (X14_selection_in_bounds_and_close_kept [OpHotkeys] st_space Hp)
    as (_ & _ & H).
  apply H. right; left; reflexivity.
Defined.

(** ** The bindings at program start *)

Lemma last_for_unaddressed p k rs d :
  (forall r, In r rs -> addresses p k r = false) ->
  last_for p k rs d = d.
Proof.
  revert d; induction rs as [|r rs IH]; intros d H; [reflexivity|].
  cbn [last_for]. rewrite (H r) by now left.
  apply IH. intros r' Hr'. apply H. now right.
Qed.

(** X15. The default key bindings are in force after [setDefaultBindings();
    loadMappings();] only when the mapping file cannot be opened.  When it
    can, every slot that no record of the file addresses holds the None
    binding, not its default key: a file that exists but is empty, or
    begins with a malformed record, leaves all twelve controls unbound.
    In both cases pad 0 / Up is selected and learning is not armed. *)
Theorem X15_startup_bindings :
  forall f : MapFile,
    (contents f = None ->
     gPad (startup f) = gPad (setDefaultBindings (State_init f))
     /\ forall p k, slot_index p k ->
          type (slot (gPad (startup f)) p k) = BindType.Key)
    /\ (forall inp p k,
          contents f = Some inp -> slot_index p k ->
          (forall r, In r (records_of inp) -> addresses p k r = false) ->
          slot (gPad (startup f)) p k = Binding_default)
    /\ (forall inp,
          contents f = Some inp -> Stdio.fscanf7 inp = None ->
          gPad (startup f) = pads_None)
    /\ gEditPad (startup f) = 0 /\ gEditKey (startup f) = VKey.Up
    /\ gLearning (startup f) = false.
Proof.
  intros f. unfold startup, loadMappings.
  cbn [kMapFile setDefaultBindings State_init with_gPad].
  split; [|split; [|split]].
  - intros ->. cbn [snd]. split; [reflexivity|].
    intros p k [Hp Hk]. slot_cases p k; reflexivity.
  - intros inp p k -> Hpk Hno. cbn [snd gPad with_gPad].
    rewrite loadText_records, slot_fold_loadRecord by assumption.
    rewrite slot_pads_None. now apply last_for_unaddressed.
  - intros inp -> Hf. cbn [snd gPad with_gPad].
    unfold loadText. cbn [loadLoop]. now rewrite Hf.
  - destruct (contents f); now repeat split.
Qed.

Lemma X15_startup_bindings_witness :
  slot (gPad (setDefaultBindings (State_init no_file))) 1 5
  = keyBinding GLFW.KEY_M /\
  slot (gPad (startup (mkMapFile (Some file_good_axis) true))) 1 5
  = Binding_default.
Proof.
  split; [reflexivity|].
  destruct (X15_startup_bindings (mkMapFile (Some file_good_axis) true))
    as (_ & H & _).
  apply (H file_good_axis 1 5).
  - reflexivity.
  - unfold slot_index; lia.
  - assert (Hr : records_of file_good_axis
                 = [Stdio.mkScanned 0 0 3 0 1 (-1)
                      (F32.of_decimal false 300000 (-6))])
      by (vm_compute; reflexivity).
    rewrite Hr. intros r [<- | []]. reflexivity.
Defined.

(** ** Saving and loading what the program itself binds *)





(** ** The file that a save leaves *)

(** X17. A successful save leaves a file with exactly one record per
    slot, in the order pad 0 / Up .. B2, pad 1 / Up .. B2, and changes
    nothing else; a save that cannot open the file for writing changes
    nothing at all and reports failure.  The bindings in memory are never
    changed by saving. *)
Theorem X17_saved_file_has_one_record_per_slot :
  forall s : State,
    gPad (snd (saveMappings s)) = gPad s
    /\ (writable (kMapFile s) = false ->
        saveMappings s = (false, s))
    /\ (writable (kMapFile s) = true ->
        (forall p k, slot_index p k -> binding_typed (slot (gPad s) p k)) ->
        fst (saveMappings s) = true
        /\ contents (kMapFile (snd (saveMappings s)))
           = Some (saveText (gPad s))
        /\ map (fun r => (Stdio.s_p r, Stdio.s_k r))
               (records_of (saveText (gPad s)))
           = all_slots
        /\ map binding_of (records_of (saveText (gPad s)))
           = map (fun pk =>
                    mkBinding (type (slot (gPad s) (fst pk) (snd pk)))
                      (jid (slot (gPad s) (fst pk) (snd pk)))
                      (code (slot (gPad s) (fst pk) (snd pk)))
                      (dir (slot (gPad s) (fst pk) (snd pk)))
                      (reread (threshold (slot (gPad s) (fst pk) (snd pk)))))
                 all_slots).
Proof.
  intros s. unfold saveMappings.
  split; [destruct (negb (writable (kMapFile s))); reflexivity|].
  split; [intros ->; reflexivity|].
  intros -> Htyped. cbn [negb fst snd kMapFile with_kMapFile contents].
  split; [reflexivity|]. split; [reflexivity|].
  rewrite (records_of_saveText _ Htyped).
  unfold pad_items. rewrite !map_map. split; reflexivity.
Qed.

Lemma X17_saved_file_has_one_record_per_slot_witness :
  map (fun r => (Stdio.s_p r, Stdio.s_k r))
      (records_of (saveText (gPad st_mixed)))
  = [(0, 0); (0, 1); (0, 2); (0, 3); (0, 4); (0, 5);
     (1, 0); (1, 1); (1, 2); (1, 3); (1, 4); (1, 5)].
Proof.
  destruct (X17_saved_file_has_one_record_per_slot st_mixed) as (_ & _ & H).
  destruct (H eq_refl st_mixed_typed) as (_ & _ & Hrec & _).
  exact Hrec.
Defined.

(** ** Hotkeys pressed in the same turn *)

Lemma when_at_entry s k f x x' :
  (forall y, same_input y (f y)) ->
  same_input s x /\ x = x' ->
  same_input s (when (keyPressedEdge x k) f x)
  /\ when (keyPressedEdge x k) f x = when (keyPressedEdge s k) f x'.
Proof.
  intros Hf [Hs <-]. split; [now apply same_input_when|].
  now rewrite (keyPressedEdge_same s x k Hs).
Qed.

(** The handler with every edge read from the state at entry. *)
Lemma handleHotkeysOnce_at_entry s :
  handleHotkeysOnce s
  = when (keyPressedEdge s GLFW.KEY_BACKSPACE) clearSelected
     (when (keyPressedEdge s GLFW.KEY_SPACE) (fun s => with_gLearning s true)
     (when (keyPressedEdge s GLFW.KEY_6) (fun s => with_gEditKey s VKey.B2)
     (when (keyPressedEdge s GLFW.KEY_5) (fun s => with_gEditKey s VKey.B1)
     (when (keyPressedEdge s GLFW.KEY_4) (fun s => with_gEditKey s VKey.Right)
     (when (keyPressedEdge s GLFW.KEY_3) (fun s => with_gEditKey s VKey.Left)
     (when (keyPressedEdge s GLFW.KEY_2) (fun s => with_gEditKey s VKey.Down)
     (when (keyPressedEdge s GLFW.KEY_1) (fun s => with_gEditKey s VKey.Up)
     (when (keyPressedEdge s GLFW.KEY_TAB)
           (fun s => with_gEditPad s (1 - gEditPad s))
     (when (keyPressedEdge s GLFW.KEY_F2) (fun s => with_gEditPad s 1)
     (when (keyPressedEdge s GLFW.KEY_F1) (fun s => with_gEditPad s 0)
     (when (keyPressedEdge s GLFW.KEY_F9) (fun s => snd (loadMappings s))
     (when (keyPressedEdge s GLFW.KEY_F5) (fun s => snd (saveMappings s))
        s)))))))))))).
Proof.
  match goal with
  | |- ?l = ?r => assert (G : same_input s l /\ l = r); [|exact (proj2 G)]
  end.
  unfold handleHotkeysOnce; cbv zeta.
  repeat (apply when_at_entry; [same_input_step|]).
  split; [apply same_input_refl | reflexivity].
Qed.

Lemma when_field {A : Type} (get : State -> A) c f x :
  (forall y, get (f y) = get y) -> get (when c f x) = get x.
Proof. intros H. unfold when. destruct c; [apply H | reflexivity]. Qed.

Lemma saveMappings_fields s :
  gEditPad (snd (saveMappings s)) = gEditPad s /\
  gEditKey (snd (saveMappings s)) = gEditKey s /\
  gLearning (snd (saveMappings s)) = gLearning s.
Proof.
  unfold saveMappings. destruct (negb (writable (kMapFile s))); now repeat split.
Qed.

Lemma loadMappings_fields s :
  gEditPad (snd (loadMappings s)) = gEditPad s /\
  gEditKey (snd (loadMappings s)) = gEditKey s /\
  gLearning (snd (loadMappings s)) = gLearning s.
Proof.
  unfold loadMappings. destruct (contents (kMapFile s)); now repeat split.
Qed.

(** X18. Hotkeys pressed in the same turn are all served, each edge read
    from the keyboard tables as they were on entry, and later tests win
    over earlier ones: F2 wins over F1 and TAB then flips the result; the
    highest of the digit keys 1..6 selects the control; BACKSPACE disarms
    even when SPACE was pressed with it, and SPACE arms otherwise. *)
Theorem X18_hotkeys_pressed_together :
  forall s : State,
    gEditPad (handleHotkeysOnce s)
    = (if keyPressedEdge s GLFW.KEY_TAB
       then 1 - (if keyPressedEdge s GLFW.KEY_F2 then 1
                 else if keyPressedEdge s GLFW.KEY_F1 then 0 else gEditPad s)
       else (if keyPressedEdge s GLFW.KEY_F2 then 1
             else if keyPressedEdge s GLFW.KEY_F1 then 0 else gEditPad s))
    /\ gEditKey (handleHotkeysOnce s)
       = (if keyPressedEdge s GLFW.KEY_6 then VKey.B2
          else if keyPressedEdge s GLFW.KEY_5 then VKey.B1
          else if keyPressedEdge s GLFW.KEY_4 then VKey.Right
          else if keyPressedEdge s GLFW.KEY_3 then VKey.Left
          else if keyPressedEdge s GLFW.KEY_2 then VKey.Down
          else if keyPressedEdge s GLFW.KEY_1 then VKey.Up
          else gEditKey s)
    /\ gLearning (handleHotkeysOnce s)
       = (if keyPressedEdge s GLFW.KEY_BACKSPACE then false
          else if keyPressedEdge s GLFW.KEY_SPACE then true
          else gLearning s).
Proof.
  intros s. rewrite handleHotkeysOnce_at_entry.
  generalize (keyPressedEdge s GLFW.KEY_BACKSPACE) (keyPressedEdge s GLFW.KEY_SPACE)
    (keyPressedEdge s GLFW.KEY_6) (keyPressedEdge s GLFW.KEY_5)
    (keyPressedEdge s GLFW.KEY_4) (keyPressedEdge s GLFW.KEY_3)
    (keyPressedEdge s GLFW.KEY_2) (keyPressedEdge s GLFW.KEY_1)
    (keyPressedEdge s GLFW.KEY_TAB) (keyPressedEdge s GLFW.KEY_F2)
    (keyPressedEdge s GLFW.KEY_F1) (keyPressedEdge s GLFW.KEY_F9)
    (keyPressedEdge s GLFW.KEY_F5).
  intros bs sp k6 k5 k4 k3 k2 k1 tab f2 f1 f9 f5.
  split; [|split].
  - do 8 (rewrite (when_field gEditPad) by reflexivity).
    assert (H : gEditPad
                  (when f9 (fun s => snd (loadMappings s))
                     (when f5 (fun s => snd (saveMappings s)) s))
                = gEditPad s).
    { rewrite (when_field gEditPad) by (intros; apply loadMappings_fields).
      apply (when_field gEditPad). intros; apply saveMappings_fields. }
    destruct tab, f2, f1; unfold when at 1 2 3;
      cbn [gEditPad with_gEditPad]; rewrite ?H; reflexivity.
  - rewrite (when_field gEditKey) by reflexivity.
    rewrite (when_field gEditKey) by reflexivity.
    assert (H : gEditKey
                  (when tab (fun s => with_gEditPad s (1 - gEditPad s))
                  (when f2 (fun s => with_gEditPad s 1)
                  (when f1 (fun s => with_gEditPad s 0)
                  (when f9 (fun s => snd (loadMappings s))
                     (when f5 (fun s => snd (saveMappings s)) s)))))
                = gEditKey s).
    { do 3 (rewrite (when_field gEditKey) by reflexivity).
      rewrite (when_field gEditKey) by (intros; apply loadMappings_fields).
      apply (when_field gEditKey). intros; apply saveMappings_fields. }
    destruct k6, k5, k4, k3, k2, k1; unfold when at 1 2 3 4 5 6;
      cbn [gEditKey with_gEditKey]; rewrite ?H; reflexivity.
  - assert (H : gLearning
                  (when k6 (fun s => with_gEditKey s VKey.B2)
                  (when k5 (fun s => with_gEditKey s VKey.B1)
                  (when k4 (fun s => with_gEditKey s VKey.Right)
                  (when k3 (fun s => with_gEditKey s VKey.Left)
                  (when k2 (fun s => with_gEditKey s VKey.Down)
                  (when k1 (fun s => with_gEditKey s VKey.Up)
                  (when tab (fun s => with_gEditPad s (1 - gEditPad s))
                  (when f2 (fun s => with_gEditPad s 1)
                  (when f1 (fun s => with_gEditPad s 0)
                  (when f9 (fun s => snd (loadMappings s))
                     (when f5 (fun s => snd (saveMappings s)) s)))))))))))
                = gLearning s).
    { do 9 (rewrite (when_field gLearning) by reflexivity).
      rewrite (when_field gLearning) by (intros; apply loadMappings_fields).
      apply (when_field gLearning). intros; apply saveMappings_fields. }
    destruct bs, sp; unfold when at 1 2;
      cbn [gLearning with_gLearning clearSelected]; rewrite ?H; reflexivity.
Qed.

(** ** The label of a binding *)

Lemma digits_fuel_length fuel n :
  (length (Stdio.digits_fuel fuel n) <= fuel)%nat.
Proof.
  revert n; induction fuel as [|fuel IH]; intros n; [apply Nat.le_refl|].
  rewrite digits_fuel_S. destruct (n <? 10); [cbn [length]; lia|].
  rewrite length_app. cbn [length]. specialize (IH (n / 10)). lia.
Qed.

Lemma digits_of_length n k :
  0 < k -> 0 <= n < 2 ^ k ->
  (length (Stdio.digits_of n) <= Z.to_nat k)%nat.
Proof.
  intros Hk Hn. unfold Stdio.digits_of.
  eapply Nat.le_trans; [apply digits_fuel_length|].
  destruct (Z.eq_dec n 0) as [->|Hne]; [change (Z.log2 0) with 0; lia|].
  assert (Z.log2 n < k) by (apply Z.log2_lt_pow2; lia).
  pose proof (Z.log2_nonneg n). lia.
Qed.

Lemma fmt_d_length n : is_int n -> (length (Stdio.fmt_d n) <= 33)%nat.
Proof.
  unfold is_int, Stdio.fmt_d. intros Hn.
  destruct (Z.ltb_spec n 0).
  - rewrite length_app. cbn [length Stdio.str list_ascii_of_string].
    pose proof (digits_of_length (- n) 32 ltac:(lia) ltac:(lia)). lia.
  - pose proof (digits_of_length n 32 ltac:(lia) ltac:(lia)). lia.
Qed.

Lemma centi_bound m e :
  Z.pos m < 2 ^ 24 -> e <= 104 ->
  0 <= centi (Z.pos m) e / 10 ^ 2 < 2 ^ 128.
Proof.
  intros Hm He. unfold centi. destruct (Z.leb_spec 0 e).
  - rewrite Z.div_mul by lia.
    assert (2 ^ e <= 2 ^ 104) by (apply Z.pow_le_mono_r; lia).
    assert (0 < 2 ^ e) by (apply Z.pow_pos_nonneg; lia).
    change (2 ^ 128) with (2 ^ 24 * 2 ^ 104). nia.
  - assert (Hb : 1 < 2 ^ (- e)) by (apply Z.pow_gt_1; lia).
    assert (H0 : 0 <= F32.round_half_even (Z.pos m * 10 ^ 2) (2 ^ (- e)))
      by (apply round_half_even_nonneg; lia).
    assert (H1 : F32.round_half_even (Z.pos m * 10 ^ 2) (2 ^ (- e))
                 <= Z.pos m * 10 ^ 2)
      by (apply round_half_even_upper; [lia|nia]).
    split; [apply Z.div_pos; lia|].
    apply Z.div_lt_upper_bound; [lia|].
    assert (2 ^ 24 < 2 ^ 128) by reflexivity. lia.
Qed.

Lemma fmt_sign_length s : (length (Stdio.fmt_sign s) <= 1)%nat.
Proof. destruct s; cbn; lia. Qed.

Lemma fmt_f2_length x :
  F32.valid x = true -> (length (fmt_f2 x) <= 132)%nat.
Proof.
  destruct x as [s|s| |s m e]; intros Hv; unfold fmt_f2;
    try (rewrite length_app; pose proof (fmt_sign_length s);
         cbn [length Stdio.str list_ascii_of_string]; lia);
    [cbn; lia|].
  destruct (valid_finite_bounds s m e Hv) as [Hm He].
  change F32.e_max with 104 in He.
  cbv zeta. rewrite !length_app.
  pose proof (fmt_sign_length s).
  pose proof (digits_of_length _ 128 ltac:(lia)
                (centi_bound m e Hm ltac:(lia))).
  cbn [length Stdio.str list_ascii_of_string Stdio.digits_fixed app].
  change (Z.to_nat 128) with 128%nat in *. lia.
Qed.

Lemma arrow_length d : length (arrow d) = 2%nat.
Proof. unfold arrow. destruct (d <? 0); reflexivity. Qed.

Lemma snprintf256_short out :
  (length out <= 255)%nat -> snprintf256 out = out.
Proof. intros H. unfold snprintf256. now apply firstn_all2. Qed.

Ltac label_length :=
  rewrite !length_app; rewrite ?arrow_length;
  cbn [length Stdio.str list_ascii_of_string];
  repeat match goal with
         | H : is_int ?n |- _ =>
             pose proof (fmt_d_length n H); clear H
         | H : F32.valid ?x = true |- _ =>
             pose proof (fmt_f2_length x H); clear H
         end; lia.

(** The label of a binding with [int] and [float] fields is short enough
    for the buffer. *)
Lemma toString_untruncated b :
  binding_typed b ->
  toString b
  = if type b =? BindType.None then Stdio.str "None"
    else if type b =? BindType.Key then
      Stdio.str "Key(" ++ Stdio.fmt_d (code b) ++ Stdio.str ")"
    else if type b =? BindType.GamepadButton then
      Stdio.str "GP(jid=" ++ Stdio.fmt_d (jid b) ++ Stdio.str ") Btn("
        ++ Stdio.fmt_d (code b) ++ Stdio.str ")"
    else if type b =? BindType.GamepadAxisDir then
      Stdio.str "GP(jid=" ++ Stdio.fmt_d (jid b) ++ Stdio.str ") Axis("
        ++ Stdio.fmt_d (code b) ++ Stdio.str ")" ++ arrow (dir b)
        ++ fmt_f2 (threshold b)
    else if type b =? BindType.JoyButton then
      Stdio.str "Joy(jid=" ++ Stdio.fmt_d (jid b) ++ Stdio.str ") Btn("
        ++ Stdio.fmt_d (code b) ++ Stdio.str ")"
    else if type b =? BindType.JoyAxisDir then
      Stdio.str "Joy(jid=" ++ Stdio.fmt_d (jid b) ++ Stdio.str ") Axis("
        ++ Stdio.fmt_d (code b) ++ Stdio.str ")" ++ arrow (dir b)
        ++ fmt_f2 (threshold b)
    else Stdio.str "Unknown".
Proof.
  intros (_ & Hj & Hc & _ & Hv). unfold toString.
  repeat match goal with
         | |- context [type b =? ?k] => destruct (type b =? k)
         end; try reflexivity; apply snprintf256_short; label_length.
Qed.

Lemma toString_length b :
  binding_typed b -> (length (toString b) < 255)%nat.
Proof.
  intros Hb. rewrite (toString_untruncated b Hb).
  destruct Hb as (_ & Hj & Hc & _ & Hv).
  repeat match goal with
         | |- context [type b =? ?k] => destruct (type b =? k)
         end; try (cbn; lia); label_length.
Qed.

Lemma fmt_d_cut n n' c c' r r' :
  is_int n -> is_int n' ->
  Stdio.is_digit c = false -> Stdio.is_digit c' = false ->
  Stdio.fmt_d n ++ c :: r = Stdio.fmt_d n' ++ c' :: r' ->
  n = n' /\ r = r'.
Proof.
  intros Hn Hn' Hc Hc' H.
  assert (E : Stdio.scan_d (Stdio.fmt_d n ++ c :: r)
              = Stdio.scan_d (Stdio.fmt_d n' ++ c' :: r')) by now rewrite H.
  rewrite !scan_d_fmt_d in E by assumption.
  injection E as -> _ ->. now split.
Qed.

Ltac label_inj H :=
  repeat first
    [ discriminate H
    | injection H as H
    | apply fmt_d_cut in H as [? H];
      [ | assumption | assumption | reflexivity | reflexivity ] ].

(** X19. The label that [Binding::toString] makes for a binding is never
    cut by its 256-byte buffer, and it tells bindings apart: two bindings
    (with kinds among the six enumerators) that have the same label have
    the same kind and, unless that kind is None, the same key code or
    button/axis index; the same joystick id if they are joystick
    bindings; and the same side of the axis if they are axis bindings.
    Only the threshold is shown rounded (to two decimals). *)
Theorem X19_labels_tell_bindings_apart :
  forall b b' : Binding,
    binding_typed b -> binding_typed b' ->
    0 <= type b <= 5 -> 0 <= type b' <= 5 ->
    (length (toString b) < 255)%nat
    /\ (toString b = toString b' ->
        type b = type b'
        /\ (type b <> BindType.None -> code b = code b')
        /\ (type b <> BindType.None -> type b <> BindType.Key ->
            jid b = jid b')
        /\ (is_axis b = true -> (dir b <? 0) = (dir b' <? 0))).
Proof.
  intros b b' Hb Hb' Ht Ht'. split; [now apply toString_length|].
  rewrite (toString_untruncated b Hb), (toString_untruncated b' Hb').
  destruct Hb as (_ & Hj & Hc & _ & _), Hb' as (_ & Hj' & Hc' & _ & _).
  unfold is_axis.
  destruct b as [ty j c d th], b' as [ty' j' c' d' th'].
  cbn [type jid code dir threshold] in *.
  unfold BindType.None, BindType.Key, BindType.GamepadButton,
    BindType.GamepadAxisDir, BindType.JoyButton, BindType.JoyAxisDir.
  assert (Hty : ty = 0 \/ ty = 1 \/ ty = 2 \/ ty = 3 \/ ty = 4 \/ ty = 5) by lia.
  assert (Hty' : ty' = 0 \/ ty' = 1 \/ ty' = 2 \/ ty' = 3 \/ ty' = 4 \/ ty' = 5)
    by lia.
  clear Ht Ht'.
  destruct Hty as [-> | [-> | [-> | [-> | [-> | ->]]]]];
    destruct Hty' as [-> | [-> | [-> | [-> | [-> | ->]]]]];
    cbn -[Stdio.fmt_d fmt_f2 arrow]; intros H; label_inj H;
    subst;
    (split; [reflexivity|]);
    (split; [intros; try reflexivity; congruence|]);
    (split; [intros; try reflexivity; congruence|]);
    intros Hax; try discriminate Hax;
    unfold arrow in H; destruct (d <? 0), (d' <? 0);
    try reflexivity; discriminate H.
Qed.

Lemma X19_labels_tell_bindings_apart_witness :
  toString (mkBinding BindType.GamepadAxisDir 0 2 1 f0_45)
  = Stdio.str "GP(jid=0) Axis(2)->0.45" /\
  (toString (mkBinding BindType.GamepadAxisDir 0 2 1 f0_45)
   = toString (mkBinding BindType.GamepadAxisDir 0 2 7 f0_45) ->
   (1 <? 0) = (7 <? 0)).
Proof.
  split; [vm_compute; reflexivity|].
  intros H.
  assert (Hb : forall d, binding_typed
                 (mkBinding BindType.GamepadAxisDir 0 2 d f0_45) <-> is_int d).
  { intros d. unfold binding_typed, is_int. cbn [type jid code dir threshold].
    split; [intros (_ & _ & _ & Hd & _); exact Hd|].
    intros Hd. repeat split; try exact (proj1 Hd); try exact (proj2 Hd);
      vm_compute; congruence. }
  assert (H1 : is_int 1) by (unfold is_int; lia).
  assert (H7 : is_int 7) by (unfold is_int; lia).
  assert (Ht : 0 <= BindType.GamepadAxisDir <= 5) by (cbv; split; discriminate).
  destruct (X19_labels_tell_bindings_apart
              (mkBinding BindType.GamepadAxisDir 0 2 1 f0_45)
              (mkBinding BindType.GamepadAxisDir 0 2 7 f0_45)
              (proj2 (Hb 1) H1) (proj2 (Hb 7) H7) Ht Ht) as (_ & Hinj).
  destruct (Hinj H) as (_ & _ & _ & Hdir).
  apply Hdir. reflexivity.
Defined.

(** ** When the bindings change *)

Lemma refresh_gPad evs g s : gPad (refresh evs g s) = gPad s.
Proof. unfold refresh. cbn [gPad with_gJoy]. apply pollEvents_gPad. Qed.

Lemma updateKeyPrev_gPad x : gPad (updateKeyPrev x) = gPad x.
Proof. reflexivity. Qed.

(** X20. The bindings change only by a load, a clear or a learnt input.
    In a turn of the main loop in which neither F9 nor BACKSPACE has a
    just-pressed edge and learning is not armed when the hotkey handler
    returns, all twelve bindings are after the turn what they were before
    it, whatever keys and joystick inputs arrive. *)
Theorem X20_bindings_change_only_on_request :
  forall (evs : list (Z * Z)) (g : Glfw) (s : State),
    keyPressedEdge (refresh evs g s) GLFW.KEY_F9 = false ->
    keyPressedEdge (refresh evs g s) GLFW.KEY_BACKSPACE = false ->
    gLearning (handleHotkeysOnce (refresh evs g s)) = false ->
    gPad (fst (frame evs g s)) = gPad s.
Proof.
  intros evs g s H9 Hb Hl. rewrite frame_state.
  rewrite (applyLearningIfTriggered_not_armed _ Hl).
  rewrite updateKeyPrev_gPad.
  rewrite (handleHotkeysOnce_gPad _ H9 Hb). apply refresh_gPad.
Qed.

Lemma X20_bindings_change_only_on_request_witness :
  gPad (fst (frame [(GLFW.KEY_W, GLFW.PRESS); (GLFW.KEY_TAB, GLFW.PRESS)]
               glfw_one_axis st_mixed))
  = gPad st_mixed.
Proof.
  apply X20_bindings_change_only_on_request; vm_compute; reflexivity.
Defined.

(** ** Arming and the joystick sources *)












(** The other order of the scenario: SPACE is pressed while the axis
    rests, and the axis moves from 0.0 to 0.80 in the next turn.  The
    arming turn has already bound SPACE and disarmed, so the axis detector
    reports the move to an engine that is not armed, and pad 1 / B2 keeps
    the Key binding of SPACE. *)
Lemma axis_move_after_arming_turn :
  gLearning (play [([(GLFW.KEY_SPACE, GLFW.PRESS)], glfw_gamepad_axis f0_0)]
               st_selected_b2) = false
  /\ detectGamepadAxisMove
       (gJoy (handleHotkeysOnce
                (refresh [] (glfw_gamepad_axis f0_80)
                   (play [([(GLFW.KEY_SPACE, GLFW.PRESS)],
                           glfw_gamepad_axis f0_0)] st_selected_b2))))
     = Some (0, 0, 1)
  /\ slot (gPad (play [([(GLFW.KEY_SPACE, GLFW.PRESS)], glfw_gamepad_axis f0_0);
                       ([], glfw_gamepad_axis f0_80)] st_selected_b2)) 1 5
     = mkBinding BindType.Key (-1) GLFW.KEY_SPACE 0 f0_45.
Proof. repeat split; vm_compute; reflexivity. Qed.
